(** * go-mcp: session manager, dispatch core and streamable-HTTP endpoint

    A shallow embedding of the Go sources.  Goroutine-shared objects become
    explicit state that every operation takes and returns; a Go [error] is a
    value of [pkg.error]; an operation that may park the calling goroutine or
    panic returns an [outcome].  Libraries outside the repository
    (encoding/json, gjson, uuid, the clock, the peer behind a transport) are
    parameters of the definitions that call them. *)

From stdpp Require Import gmap strings list fin_maps pretty.
From Stdlib Require Import ZArith Lia.

(** ** Go runtime notions shared by all packages *)

(** A [[]byte] / [json.RawMessage] / [transport.Message]. *)
Definition bytes : Type := string.

(** What a call can do besides returning: park forever on a channel or a
    mutex ([Blocks]) or panic ([Panics]). *)
Inductive outcome (A : Type) : Type :=
| Returns (a : A)
| Blocks
| Panics.
Arguments Returns {A} a.
Arguments Blocks {A}.
Arguments Panics {A}.

Definition outcome_bind {A B} (f : A → outcome B) (o : outcome A) : outcome B :=
  match o with
  | Returns a => f a
  | Blocks => Blocks
  | Panics => Panics
  end.

#[global] Instance outcome_ret : MRet outcome := λ A a, Returns a.
#[global] Instance outcome_mbind : MBind outcome := λ A B f o, outcome_bind f o.

(** int64 arithmetic: [atomic.AddInt64] and [time.Duration] wrap or saturate
    at these bounds. *)
Definition minInt64 : Z := (- 2 ^ 63)%Z.
Definition maxInt64 : Z := (2 ^ 63 - 1)%Z.

Definition wrapInt64 (z : Z) : Z :=
  ((z + 2 ^ 63) `mod` 2 ^ 64 - 2 ^ 63)%Z.

(** [time.Time] as nanoseconds on one time line; [t.Sub(u)] saturates to the
    range of [time.Duration]. *)
Definition Time : Type := Z.
Definition Duration : Type := Z.
Bind Scope Z_scope with Time Duration.

Definition Time_Sub (t u : Time) : Duration :=
  if decide (t - u < minInt64)%Z then minInt64
  else if decide (maxInt64 < t - u)%Z then maxInt64
  else (t - u)%Z.

(** [strconv.FormatInt(n, 10)]. *)
Definition FormatInt (n : Z) : string := pretty n.

(** A buffered channel: the queued elements (oldest first), the capacity and
    whether [close] has been called on it. *)
Record chan (A : Type) : Type := mkChan {
  chan_buf : list A;
  chan_cap : nat;
  chan_closed : bool;
}.
Arguments mkChan {A} _ _ _.
Arguments chan_buf {A} _.
Arguments chan_cap {A} _.
Arguments chan_closed {A} _.

(** [make(chan A, n)] *)
Definition make_chan {A} (n : nat) : chan A := mkChan [] n false.

(** [close(ch)]: closing a closed channel panics. *)
Definition close_chan {A} (ch : chan A) : outcome (chan A) :=
  if chan_closed ch then Panics
  else Returns (mkChan (chan_buf ch) (chan_cap ch) true).

(** Whether the case [ch <- v] of a [select] can proceed.  A send on a closed
    channel can always proceed (it panics). *)
Definition send_ready {A} (ch : chan A) : bool :=
  chan_closed ch || bool_decide (length (chan_buf ch) < chan_cap ch)%nat.

(** The effect of [ch <- v] once it proceeds. *)
Definition send_chan {A} (v : A) (ch : chan A) : outcome (chan A) :=
  if chan_closed ch then Panics
  else Returns (mkChan (chan_buf ch ++ [v]) (chan_cap ch) false).

(** Whether the case [<-ch] of a [select] can proceed. *)
Definition recv_ready {A} (ch : chan A) : bool :=
  match chan_buf ch with
  | [] => chan_closed ch
  | _ :: _ => true
  end.

(** [v, ok := <-ch] once it proceeds: the oldest element with [ok = true], or
    the zero value ([None]) with [ok = false] on a closed and drained channel. *)
Definition recv_chan {A} (ch : chan A) : option A * bool * chan A :=
  match chan_buf ch with
  | v :: rest => (Some v, true, mkChan rest (chan_cap ch) (chan_closed ch))
  | [] => (None, false, ch)
  end.

(** ** Package pkg *)
Module pkg.

(** The package-level error values: each is one [errors.New] object,
    compared by identity.  The last three belong to the session and context
    packages. *)
Inductive sentinel : Type :=
| ErrClientNotSupport
| ErrServerNotSupport
| ErrRequestInvalid
| ErrLackResponseChan
| ErrDuplicateResponseReceived
| ErrMethodNotSupport
| ErrJSONUnmarshal
| ErrSessionHasNotInitialized
| ErrLackSession
| ErrSessionClosed
| ErrSendEOF
| ErrQueueNotOpened
| context_Canceled
| context_DeadlineExceeded.

#[global] Instance sentinel_eq_dec : EqDecision sentinel.
Proof. solve_decision. Defined.

Definition sentinel_text (s : sentinel) : string :=
  match s with
  | ErrClientNotSupport => "this feature client not support"
  | ErrServerNotSupport => "this feature server not support"
  | ErrRequestInvalid => "request invalid"
  | ErrLackResponseChan => "lack response chan"
  | ErrDuplicateResponseReceived => "duplicate response received"
  | ErrMethodNotSupport => "method not support"
  | ErrJSONUnmarshal => "json unmarshal error"
  | ErrSessionHasNotInitialized => "the session has not been initialized"
  | ErrLackSession => "lack session"
  | ErrSessionClosed => "session closed"
  | ErrSendEOF => "send EOF"
  | ErrQueueNotOpened => "queue has not been opened"
  | context_Canceled => "context canceled"
  | context_DeadlineExceeded => "context deadline exceeded"
  end.

Section errors.
(** [any] is the universe of dynamic [interface{}] values. *)
Context {any : Type}.

(** The error values the program builds or receives: a sentinel, an error
    without [Unwrap] made on the spot ([errors.New], [fmt.Errorf] without
    [%w], any foreign error), a [fmt.Errorf] with one [%w] operand (its
    rendered text and the wrapped error), and [*ResponseError]. *)
Inductive error : Type :=
| Sentinel (s : sentinel)
| errors_New (text : string)
| fmt_Errorf_w (text : string) (inner : error)
| ResponseError (Code : Z) (Message : string) (Data : option any).

(** [err.Error()]; for [*ResponseError] the rendering of [Data] by [%+v]
    is left out. *)
Definition Error (e : error) : string :=
  match e with
  | Sentinel s => sentinel_text s
  | errors_New text => text
  | fmt_Errorf_w text _ => text
  | ResponseError c m _ => "code=" +:+ pretty c +:+ " message=" +:+ m +:+ " data="
  end.

(** [errors.Is(err, target)] for a sentinel target: follow [Unwrap]. *)
Fixpoint errors_Is (e : error) (target : sentinel) : bool :=
  match e with
  | Sentinel s => bool_decide (s = target)
  | fmt_Errorf_w _ inner => errors_Is inner target
  | errors_New _ | ResponseError _ _ _ => false
  end.

(** [NewResponseError] *)
Definition NewResponseError (code : Z) (message : string) (data : option any) : error :=
  ResponseError code message data.
End errors.
Arguments error : clear implicits.

(** [JoinErrors] *)
Definition JoinErrors {any} (errs : list (error any)) : option (error any) :=
  match errs with
  | [] => None
  | _ => Some (errors_New (String.concat "; " (Error <$> errs)))
  end.

End pkg.

(** A [context.Context] as the code observes it: [ctx.Err()], which is nil
    exactly while [ctx.Done()] is not ready, and the session id stored under
    the server's [sessionIDKey]. *)
Record Context (any : Type) : Type := mkContext {
  ctx_Err : option (pkg.error any);
  ctx_sessionID : option string;
}.
Arguments mkContext {any} _ _.
Arguments ctx_Err {any} _.
Arguments ctx_sessionID {any} _.

Definition ctx_done {any} (ctx : Context any) : bool :=
  bool_decide (is_Some (ctx_Err ctx)).

(** [pkg.NewCancelShieldContext]: values are those of the wrapped context,
    [Done] is the nil channel and [Err] is nil. *)
Definition NewCancelShieldContext {any} (ctx : Context any) : Context any :=
  mkContext None (ctx_sessionID ctx).

(** [context.Background()] *)
Definition context_Background {any} : Context any := mkContext None None.


(** [select] over two cases, in the order the source lists them.  When both
    can proceed the runtime chooses one at random: [pick_second] is that
    choice. *)
Inductive choice : Type := First | Second | Neither.

Definition select2 (ready1 ready2 pick_second : bool) : choice :=
  match ready1, ready2 with
  | true, true => if pick_second then Second else First
  | true, false => First
  | false, true => Second
  | false, false => Neither
  end.

(** ** Package protocol *)
Module protocol.

Definition jsonrpcVersion : string := "2.0".

Definition ParseError : Z := (-32700)%Z.
Definition InvalidRequest : Z := (-32600)%Z.
Definition MethodNotFound : Z := (-32601)%Z.
Definition InvalidParams : Z := (-32602)%Z.
Definition InternalError : Z := (-32603)%Z.

Definition Method : Type := string.

(** Modelled from the spec: the method-name constants, whose declarations are
    not among the sources; the names are those of the protocol surface table. *)
Definition Initialize : Method := "initialize".
Definition Ping : Method := "ping".
Definition PromptsList : Method := "prompts/list".
Definition PromptsGet : Method := "prompts/get".
Definition ResourcesList : Method := "resources/list".
Definition ResourceListTemplates : Method := "resources/templates/list".
Definition ResourcesRead : Method := "resources/read".
Definition ResourcesSubscribe : Method := "resources/subscribe".
Definition ResourcesUnsubscribe : Method := "resources/unsubscribe".
Definition ToolsList : Method := "tools/list".
Definition ToolsCall : Method := "tools/call".
Definition SamplingCreateMessage : Method := "sampling/createMessage".
Definition NotificationInitialized : Method := "notifications/initialized".
Definition NotificationToolsListChanged : Method := "notifications/tools/listChanged".
Definition NotificationPromptsListChanged : Method := "notifications/prompts/listChanged".
Definition NotificationResourcesListChanged : Method := "notifications/resources/listChanged".
Definition NotificationResourcesUpdated : Method := "notifications/resources/updated".

(** [RequestID] is [interface{}]: nil, a Go string, or any other dynamic
    value (a float64 for a JSON number, ...), of which the dispatcher only
    observes the rendering by [fmt.Sprint]. *)
Inductive RequestID : Type :=
| IDNil
| IDString (s : string)
| IDValue (rendering : string).

#[global] Instance RequestID_eq_dec : EqDecision RequestID.
Proof. solve_decision. Defined.

(** [fmt.Sprint(id)] *)
Definition fmt_Sprint (id : RequestID) : string :=
  match id with
  | IDNil => "<nil>"
  | IDString s => s
  | IDValue rendering => rendering
  end.

Section envelope.
Context {any : Type}.

Record JSONRPCRequest : Type := mkRequest {
  req_JSONRPC : string;
  req_ID : RequestID;
  req_Method : Method;
  req_Params : option any;
  req_RawParams : bytes;
}.

Record responseErr : Type := mkResponseErr {
  err_Code : Z;
  err_Message : string;
  err_Data : option any;
}.

Record JSONRPCResponse : Type := mkResponse {
  resp_JSONRPC : string;
  resp_ID : RequestID;
  resp_Result : option any;
  resp_RawResult : bytes;
  resp_Error : option responseErr;
}.

Record JSONRPCNotification : Type := mkNotification {
  notif_JSONRPC : string;
  notif_Method : Method;
  notif_Params : option any;
  notif_RawParams : bytes;
}.

(** [IsValid] *)
Definition IsValid (r : JSONRPCRequest) : bool :=
  bool_decide (req_JSONRPC r = jsonrpcVersion)
  && bool_decide (req_Method r ≠ "")
  && bool_decide (req_ID r ≠ IDNil).

Definition NewJSONRPCRequest (id : RequestID) (method : Method) (params : option any)
  : JSONRPCRequest :=
  {| req_JSONRPC := jsonrpcVersion; req_ID := id; req_Method := method;
     req_Params := params; req_RawParams := "" |}.

Definition NewJSONRPCSuccessResponse (id : RequestID) (result : option any)
  : JSONRPCResponse :=
  {| resp_JSONRPC := jsonrpcVersion; resp_ID := id; resp_Result := result;
     resp_RawResult := ""; resp_Error := None |}.

Definition NewJSONRPCErrorResponse (id : RequestID) (code : Z) (message : string)
  : JSONRPCResponse :=
  {| resp_JSONRPC := jsonrpcVersion; resp_ID := id; resp_Result := None;
     resp_RawResult := "";
     resp_Error := Some {| err_Code := code; err_Message := message; err_Data := None |} |}.

Definition NewJSONRPCNotification (method : Method) (params : option any)
  : JSONRPCNotification :=
  {| notif_JSONRPC := jsonrpcVersion; notif_Method := method;
     notif_Params := params; notif_RawParams := "" |}.

(** The types of the handshake. *)
Record Implementation : Type := mkImplementation {
  impl_Name : string;
  impl_Version : string;
}.

Record ClientCapabilities : Type := mkClientCapabilities {
  Sampling : option any;
}.

Record PromptsCapability : Type := mkPromptsCapability {
  prompts_ListChanged : bool;
}.

Record ResourcesCapability : Type := mkResourcesCapability {
  resources_ListChanged : bool;
  resources_Subscribe : bool;
}.

Record ToolsCapability : Type := mkToolsCapability {
  tools_ListChanged : bool;
}.

Record ServerCapabilities : Type := mkServerCapabilities {
  Prompts : option PromptsCapability;
  Resources : option ResourcesCapability;
  Tools : option ToolsCapability;
}.

Record InitializeRequest : Type := mkInitializeRequest {
  ireq_ClientInfo : Implementation;
  ireq_Capabilities : ClientCapabilities;
  ireq_ProtocolVersion : string;
}.

Record InitializeResult : Type := mkInitializeResult {
  ires_ServerInfo : Implementation;
  ires_Capabilities : ServerCapabilities;
  ires_ProtocolVersion : string;
  ires_Instructions : string;
}.

(** [NewInitializeRequest]; the constant [Version] is declared in a file that
    is not among the sources and is passed in. *)
Definition NewInitializeRequest (Version : string) (clientInfo : Implementation)
    (capabilities : ClientCapabilities) : InitializeRequest :=
  {| ireq_ClientInfo := clientInfo; ireq_Capabilities := capabilities;
     ireq_ProtocolVersion := Version |}.

End envelope.
Arguments JSONRPCRequest : clear implicits.
Arguments responseErr : clear implicits.
Arguments JSONRPCResponse : clear implicits.
Arguments JSONRPCNotification : clear implicits.
Arguments ClientCapabilities : clear implicits.
Arguments InitializeRequest : clear implicits.

End protocol.

(** ** Package server/session *)
Module session.
Import pkg protocol.

Section state.
Context {any : Type}.

(** [State].  The mutex [mu] has no field: in this sequential embedding every
    method runs to completion before the next one starts. *)
Record State : Type := mkState {
  lastActiveAt : Time;
  sendChan : option (chan bytes);
  requestID : Z;
  reqID2respChan : gmap string (chan (JSONRPCResponse any));
  clientInfo : option Implementation;
  clientCapabilities : option (ClientCapabilities any);
  subscribedResources : gset string;
  receivedInitRequest : bool;
  ready : bool;
  closed : bool;
}.

(** [NewState]; [now] is the reading of [time.Now()]. *)
Definition NewState (now : Time) : State :=
  {| lastActiveAt := now; sendChan := None; requestID := 0%Z;
     reqID2respChan := ∅; clientInfo := None; clientCapabilities := None;
     subscribedResources := ∅; receivedInitRequest := false;
     ready := false; closed := false |}.

Definition with_sendChan (c : option (chan bytes)) (s : State) : State :=
  {| lastActiveAt := lastActiveAt s; sendChan := c; requestID := requestID s;
     reqID2respChan := reqID2respChan s; clientInfo := clientInfo s;
     clientCapabilities := clientCapabilities s;
     subscribedResources := subscribedResources s;
     receivedInitRequest := receivedInitRequest s; ready := ready s;
     closed := closed s |}.

Definition with_reqID2respChan (r : gmap string (chan (JSONRPCResponse any))) (s : State)
  : State :=
  {| lastActiveAt := lastActiveAt s; sendChan := sendChan s; requestID := requestID s;
     reqID2respChan := r; clientInfo := clientInfo s;
     clientCapabilities := clientCapabilities s;
     subscribedResources := subscribedResources s;
     receivedInitRequest := receivedInitRequest s; ready := ready s;
     closed := closed s |}.

Definition SetClientInfo (info : option Implementation)
    (caps : option (ClientCapabilities any)) (s : State) : State :=
  {| lastActiveAt := lastActiveAt s; sendChan := sendChan s; requestID := requestID s;
     reqID2respChan := reqID2respChan s; clientInfo := info;
     clientCapabilities := caps;
     subscribedResources := subscribedResources s;
     receivedInitRequest := receivedInitRequest s; ready := ready s;
     closed := closed s |}.

Definition GetClientCapabilities (s : State) : option (ClientCapabilities any) :=
  clientCapabilities s.

Definition SetReceivedInitRequest (s : State) : State :=
  {| lastActiveAt := lastActiveAt s; sendChan := sendChan s; requestID := requestID s;
     reqID2respChan := reqID2respChan s; clientInfo := clientInfo s;
     clientCapabilities := clientCapabilities s;
     subscribedResources := subscribedResources s;
     receivedInitRequest := true; ready := ready s; closed := closed s |}.

Definition GetReceivedInitRequest (s : State) : bool := receivedInitRequest s.

Definition SetReady (s : State) : State :=
  {| lastActiveAt := lastActiveAt s; sendChan := sendChan s; requestID := requestID s;
     reqID2respChan := reqID2respChan s; clientInfo := clientInfo s;
     clientCapabilities := clientCapabilities s;
     subscribedResources := subscribedResources s;
     receivedInitRequest := receivedInitRequest s; ready := true;
     closed := closed s |}.

Definition GetReady (s : State) : bool := ready s.

(** [IncRequestID]: [atomic.AddInt64(&s.requestID, 1)] returns the new value. *)
Definition IncRequestID (s : State) : Z * State :=
  let n := wrapInt64 (requestID s + 1) in
  (n,
   {| lastActiveAt := lastActiveAt s; sendChan := sendChan s; requestID := n;
      reqID2respChan := reqID2respChan s; clientInfo := clientInfo s;
      clientCapabilities := clientCapabilities s;
      subscribedResources := subscribedResources s;
      receivedInitRequest := receivedInitRequest s; ready := ready s;
      closed := closed s |}).

Definition GetReqID2respChan (s : State) : gmap string (chan (JSONRPCResponse any)) :=
  reqID2respChan s.

Definition GetSubscribedResources (s : State) : gset string := subscribedResources s.

Definition with_closed (b : bool) (s : State) : State :=
  {| lastActiveAt := lastActiveAt s; sendChan := sendChan s; requestID := requestID s;
     reqID2respChan := reqID2respChan s; clientInfo := clientInfo s;
     clientCapabilities := clientCapabilities s;
     subscribedResources := subscribedResources s;
     receivedInitRequest := receivedInitRequest s; ready := ready s;
     closed := b |}.

(** [Close]: set the flag, then close the outbox if it was opened. *)
Definition Close (s : State) : outcome State :=
  let s1 := with_closed true s in
  match sendChan s1 with
  | Some ch => ch' ← close_chan ch; mret (with_sendChan (Some ch') s1)
  | None => mret s1
  end.

Definition updateLastActiveAt (now : Time) (s : State) : State :=
  {| lastActiveAt := now; sendChan := sendChan s; requestID := requestID s;
     reqID2respChan := reqID2respChan s; clientInfo := clientInfo s;
     clientCapabilities := clientCapabilities s;
     subscribedResources := subscribedResources s;
     receivedInitRequest := receivedInitRequest s; ready := ready s;
     closed := closed s |}.

Definition openMessageQueueForSend (s : State) : State :=
  match sendChan s with
  | None => with_sendChan (Some (make_chan 64)) s
  | Some _ => s
  end.

(** [enqueueMessage]: the returned option is the Go error (None for nil). *)
Definition enqueueMessage (ctx : Context any) (pick_second : bool) (message : bytes)
    (s : State) : outcome (option (error any) * State) :=
  if closed s then mret (Some (errors_New "session already closed"), s)
  else
    match sendChan s with
    | None => mret (Some (Sentinel ErrQueueNotOpened), s)
    | Some ch =>
        match select2 (send_ready ch) (ctx_done ctx) pick_second with
        | First => ch' ← send_chan message ch; mret (None, with_sendChan (Some ch') s)
        | Second => mret (ctx_Err ctx, s)
        | Neither => Blocks
        end
    end.

(** [dequeueMessage]: the message (empty for nil) and the Go error. *)
Definition dequeueMessage (ctx : Context any) (pick_second : bool) (s : State)
  : outcome (bytes * option (error any) * State) :=
  match sendChan s with
  | None => mret ("", Some (Sentinel ErrQueueNotOpened), s)
  | Some ch =>
      match select2 (ctx_done ctx) (recv_ready ch) pick_second with
      | First => mret ("", ctx_Err ctx, s)
      | Second =>
          let '(msg, ok, ch') := recv_chan ch in
          match msg, ok with
          | None, false => mret ("", Some (Sentinel ErrSendEOF), with_sendChan (Some ch') s)
          | _, _ => mret (default "" msg, None, with_sendChan (Some ch') s)
          end
      | Neither => Blocks
      end
  end.

(** [Manager].  [closedSessions] is a [SyncMap[struct{}]], used as a set.
    The [detection] callback is a parameter of the heartbeat sweep below. *)
Record Manager : Type := mkManager {
  activeSessions : gmap string State;
  closedSessions : gset string;
  maxIdleTime : Duration;
}.

(** [NewManager] *)
Definition NewManager : Manager :=
  {| activeSessions := ∅; closedSessions := ∅; maxIdleTime := 0%Z |}.

Definition with_activeSessions (a : gmap string State) (m : Manager) : Manager :=
  {| activeSessions := a; closedSessions := closedSessions m;
     maxIdleTime := maxIdleTime m |}.

Definition SetMaxIdleTime (d : Duration) (m : Manager) : Manager :=
  {| activeSessions := activeSessions m; closedSessions := closedSessions m;
     maxIdleTime := d |}.

(** [CreateSession]; [uuid] is the result of [uuid.NewString()]. *)
Definition CreateSession (uuid : string) (now : Time) (m : Manager) : string * Manager :=
  (uuid, with_activeSessions (<[uuid := NewState now]> (activeSessions m)) m).

Definition IsActiveSession (sessionID : string) (m : Manager) : bool :=
  bool_decide (is_Some (activeSessions m !! sessionID)).

Definition IsClosedSession (sessionID : string) (m : Manager) : bool :=
  bool_decide (sessionID ∈ closedSessions m).

Definition GetSession (sessionID : string) (m : Manager) : option State :=
  if decide (sessionID = "") then None
  else activeSessions m !! sessionID.

(** Write back a session object reached through its pointer. *)
Definition store_state (sessionID : string) (s : State) (m : Manager) : Manager :=
  with_activeSessions (<[sessionID := s]> (activeSessions m)) m.

Definition OpenMessageQueueForSend (sessionID : string) (m : Manager)
  : option (error any) * Manager :=
  match GetSession sessionID m with
  | None => (Some (Sentinel ErrLackSession), m)
  | Some state => (None, store_state sessionID (openMessageQueueForSend state) m)
  end.

Definition EnqueueMessageForSend (ctx : Context any) (pick_second : bool)
    (sessionID : string) (message : bytes) (m : Manager)
  : outcome (option (error any) * Manager) :=
  match GetSession sessionID m with
  | None => mret (Some (Sentinel ErrLackSession), m)
  | Some state =>
      '(err, state') ← enqueueMessage ctx pick_second message state;
      mret (err, store_state sessionID state' m)
  end.

Definition DequeueMessageForSend (ctx : Context any) (pick_second : bool)
    (sessionID : string) (m : Manager)
  : outcome (bytes * option (error any) * Manager) :=
  match GetSession sessionID m with
  | None => mret ("", Some (Sentinel ErrLackSession), m)
  | Some state =>
      '(msg, err, state') ← dequeueMessage ctx pick_second state;
      mret (msg, err, store_state sessionID state' m)
  end.

Definition UpdateSessionLastActiveAt (now : Time) (sessionID : string) (m : Manager)
  : Manager :=
  match activeSessions m !! sessionID with
  | None => m
  | Some state => store_state sessionID (updateLastActiveAt now state) m
  end.

(** [CloseSession]: [LoadAndDelete], [state.Close()], then record the id. *)
Definition CloseSession (sessionID : string) (m : Manager) : outcome Manager :=
  match activeSessions m !! sessionID with
  | None => mret m
  | Some state =>
      _ ← Close state;
      mret {| activeSessions := delete sessionID (activeSessions m);
              closedSessions := {[sessionID]} ∪ closedSessions m;
              maxIdleTime := maxIdleTime m |}
  end.

(** [Range] visits the entries present when it starts. *)
Definition CloseAllSessions (m : Manager) : outcome Manager :=
  foldl (λ acc kv, m' ← acc; CloseSession kv.1 m') (mret m)
        (map_to_list (activeSessions m)).

Definition IsEmpty (m : Manager) : bool :=
  bool_decide (map_to_list (activeSessions m) = []).

Section heartbeat.
(** The [detection] callback is given a session id and returns its Go error.
    The one the server installs, [sessionDetection], pings the peer through
    [callClient]: it finds the session by its id, raises its request counter,
    registers and removes a reply slot and queues the ping in its outbox.
    So the callback acts on the [State] object of the session it probes and
    on a world [W] outside the manager (the transport, the peer, the rest of
    the server); it has no hand on the two id sets. *)
Context {W : Type}
        (detection : string → State → W → option (error any) * State * W).

(** One call [m.detection(ctx, sessionID)].  The session object is the one
    the active map holds under the id; what the callback does to it is seen
    through the map.  If the id has left the map the callback can only reach
    the object [Range] handed out, [state], which the manager no longer
    holds. *)
Definition probe (sessionID : string) (state : State) (mw : Manager * W)
  : option (error any) * (Manager * W) :=
  let '(m, w) := mw in
  match activeSessions m !! sessionID with
  | Some st =>
      let '(e, st', w') := detection sessionID st w in
      (e, (store_state sessionID st' m, w'))
  | None =>
      let '(e, _, w') := detection sessionID state w in
      (e, (m, w'))
  end.

(** The loop [for i := 0; i < 3; i++] of the sweep: [err] is the variable
    declared before the loop; a nil result stops the loop at once. *)
Fixpoint detectionLoop (n : nat) (sessionID : string) (state : State)
    (err : option (error any)) (mw : Manager * W) : option (error any) * (Manager * W) :=
  match n with
  | O => (err, mw)
  | S n' =>
      let '(e, mw') := probe sessionID state mw in
      match e with
      | None => (None, mw')
      | Some _ => detectionLoop n' sessionID state e mw'
      end
  end.

(** The body of the [Range] callback of one tick. *)
Definition heartbeatVisit (now : Time) (sessionID : string) (state : State)
    (mw : Manager * W) : outcome (Manager * W) :=
  let '(m, w) := mw in
  if bool_decide (maxIdleTime m ≠ 0%Z)
     && bool_decide (Time_Sub now (lastActiveAt state) > maxIdleTime m)%Z
  then m' ← CloseSession sessionID m; mret (m', w)
  else
    match detectionLoop 3 sessionID state None (m, w) with
    | (None, mw') => mret mw'
    | (Some _, (m', w')) => m'' ← CloseSession sessionID m'; mret (m'', w')
    end.

(** One tick of [StartHeartbeatAndCleanInvalidSessions]. *)
Definition heartbeatTick (now : Time) (mw : Manager * W) : outcome (Manager * W) :=
  foldl (λ acc kv, mw' ← acc; heartbeatVisit now kv.1 kv.2 mw') (mret mw)
        (map_to_list (activeSessions mw.1)).

(** The manager's methods as the labels of a transition system.  [OpWithState]
    stands for any setter called on the pointer returned by [GetSession] or
    handed out by [RangeSessions]. *)
Inductive Op : Type :=
| OpCreateSession (uuid : string) (now : Time)
| OpSetMaxIdleTime (d : Duration)
| OpOpenMessageQueueForSend (sessionID : string)
| OpEnqueueMessageForSend (ctx : Context any) (pick_second : bool)
    (sessionID : string) (message : bytes)
| OpDequeueMessageForSend (ctx : Context any) (pick_second : bool) (sessionID : string)
| OpUpdateSessionLastActiveAt (now : Time) (sessionID : string)
| OpWithState (sessionID : string) (f : State → State)
| OpCloseSession (sessionID : string)
| OpCloseAllSessions
| OpHeartbeatTick (now : Time).

(** The session id an operation stores into the active map. *)
Definition created (op : Op) : option string :=
  match op with
  | OpCreateSession uuid _ => Some uuid
  | _ => None
  end.

Definition step (op : Op) (mw : Manager * W) : outcome (Manager * W) :=
  let '(m, w) := mw in
  match op with
  | OpCreateSession uuid now => mret ((CreateSession uuid now m).2, w)
  | OpSetMaxIdleTime d => mret (SetMaxIdleTime d m, w)
  | OpOpenMessageQueueForSend sessionID => mret ((OpenMessageQueueForSend sessionID m).2, w)
  | OpEnqueueMessageForSend ctx pick sessionID message =>
      r ← EnqueueMessageForSend ctx pick sessionID message m; mret (r.2, w)
  | OpDequeueMessageForSend ctx pick sessionID =>
      r ← DequeueMessageForSend ctx pick sessionID m; mret (r.2, w)
  | OpUpdateSessionLastActiveAt now sessionID =>
      mret (UpdateSessionLastActiveAt now sessionID m, w)
  | OpWithState sessionID f =>
      match GetSession sessionID m with
      | None => mret (m, w)
      | Some state => mret (store_state sessionID (f state) m, w)
      end
  | OpCloseSession sessionID => m' ← CloseSession sessionID m; mret (m', w)
  | OpCloseAllSessions => m' ← CloseAllSessions m; mret (m', w)
  | OpHeartbeatTick now => heartbeatTick now (m, w)
  end.

(** A run of operations, each one returning before the next starts. *)
Fixpoint run (ops : list Op) (mw : Manager * W) : outcome (Manager * W) :=
  match ops with
  | [] => mret mw
  | op :: ops' => mw' ← step op mw; run ops' mw'
  end.

(** The detection callback failing on three attempts in a row, each
    attempt starting from the session and the world the one before left. *)
Definition three_failures (sessionID : string) (st : State) (w : W) : Prop :=
  let r1 := detection sessionID st w in
  let r2 := detection sessionID r1.1.2 r1.2 in
  let r3 := detection sessionID r2.1.2 r2.2 in
  is_Some r1.1.1 ∧ is_Some r2.1.1 ∧ is_Some r3.1.1.

End heartbeat.

(** A session id that has been moved to the closed set. *)
Definition retired (sessionID : string) (m : Manager) : Prop :=
  activeSessions m !! sessionID = None ∧ sessionID ∈ closedSessions m.

(** The messages waiting in the outbox. *)
Definition queued (s : State) : list bytes :=
  match sendChan s with
  | Some ch => chan_buf ch
  | None => []
  end.

(** [n] calls of [dequeueMessage] in a row, as the loop of the GET stream
    makes them, with what each call returned. *)
Fixpoint dequeueN (ctx : Context any) (pick_second : bool) (n : nat) (s : State)
  : outcome (list (bytes * option (error any)) * State) :=
  match n with
  | O => mret ([], s)
  | S n' =>
      '(msg, err, s1) ← dequeueMessage ctx pick_second s;
      '(rest, s2) ← dequeueN ctx pick_second n' s1;
      mret ((msg, err) :: rest, s2)
  end.

End state.
Arguments State : clear implicits.
Arguments Manager : clear implicits.
Arguments Op : clear implicits.

End session.

(** ** encoding/json and gjson

    The two JSON libraries are outside the repository; the program is
    embedded over any behaviour of theirs.  A decoder returns the text of the
    library's error or the decoded value. *)
Section json_types.
Context {any : Type}.

(** What the first pass of [JSONRPCRequest.UnmarshalJSON] binds: the fields of
    the alias and the raw [params]. *)
Record requestTemp : Type := mkRequestTemp {
  rt_JSONRPC : string;
  rt_ID : protocol.RequestID;
  rt_Method : protocol.Method;
  rt_Params : bytes;
}.

Record responseTemp : Type := mkResponseTemp {
  pt_JSONRPC : string;
  pt_ID : protocol.RequestID;
  pt_Result : bytes;
  pt_Error : option (protocol.responseErr any);
}.

Record notificationTemp : Type := mkNotificationTemp {
  nt_JSONRPC : string;
  nt_Method : protocol.Method;
  nt_Params : bytes;
}.
End json_types.
Arguments responseTemp : clear implicits.

Class JSON (any : Type) : Type := {
  (** [gjson.GetBytes(msg, path).Exists()] *)
  gjson_Exists : bytes → string → bool;
  (** [json.Unmarshal(data, &v)] for [v] of type [interface{}] *)
  json_Unmarshal_any : bytes → string + option any;
  (** [json.Unmarshal(data, temp)] for the anonymous structs of the three
      envelope decoders *)
  json_Unmarshal_requestTemp : bytes → string + requestTemp;
  json_Unmarshal_responseTemp : bytes → string + responseTemp any;
  json_Unmarshal_notificationTemp : bytes → string + notificationTemp;
  (** [json.Marshal] of the three envelopes *)
  json_Marshal_request : protocol.JSONRPCRequest any → string + bytes;
  json_Marshal_response : protocol.JSONRPCResponse any → string + bytes;
  json_Marshal_notification : protocol.JSONRPCNotification any → string + bytes;
}.

(** ** Package pkg, continued: [JSONUnmarshal] *)
Module pkg_json.
Import pkg.

(** [JSONUnmarshal(data, v)]: [unmarshal] is [json.Unmarshal] at the type of
    [v]. *)
Definition JSONUnmarshal {any A} (unmarshal : bytes → string + A) (data : bytes)
  : error any + A :=
  match unmarshal data with
  | inl text =>
      inl (fmt_Errorf_w
             (sentinel_text ErrJSONUnmarshal +:+ ": data=" +:+ data +:+ ", error: " +:+ text)
             (Sentinel ErrJSONUnmarshal))
  | inr v => inr v
  end.

End pkg_json.

(** ** Package protocol, continued: the envelope decoders *)
Module protocol_json.
Import pkg pkg_json protocol.

Section decoders.
Context {any : Type} `{!JSON any}.

(** [JSONRPCRequest.UnmarshalJSON] *)
Definition JSONRPCRequest_UnmarshalJSON (data : bytes) : error any + JSONRPCRequest any :=
  match JSONUnmarshal json_Unmarshal_requestTemp data with
  | inl err => inl err
  | inr temp =>
      let RawParams := rt_Params temp in
      if bool_decide (String.length RawParams ≠ 0%nat) then
        match JSONUnmarshal json_Unmarshal_any RawParams with
        | inl err => inl err
        | inr params =>
            inr (mkRequest (rt_JSONRPC temp) (rt_ID temp) (rt_Method temp) params RawParams)
        end
      else inr (mkRequest (rt_JSONRPC temp) (rt_ID temp) (rt_Method temp) None RawParams)
  end.

(** [JSONRPCResponse.UnmarshalJSON] *)
Definition JSONRPCResponse_UnmarshalJSON (data : bytes) : error any + JSONRPCResponse any :=
  match JSONUnmarshal json_Unmarshal_responseTemp data with
  | inl err => inl err
  | inr temp =>
      let RawResult := pt_Result temp in
      if bool_decide (String.length RawResult ≠ 0%nat) then
        match JSONUnmarshal json_Unmarshal_any RawResult with
        | inl err => inl err
        | inr result =>
            inr (mkResponse (pt_JSONRPC temp) (pt_ID temp) result RawResult (pt_Error temp))
        end
      else inr (mkResponse (pt_JSONRPC temp) (pt_ID temp) None RawResult (pt_Error temp))
  end.

(** [JSONRPCNotification.UnmarshalJSON] *)
Definition JSONRPCNotification_UnmarshalJSON (data : bytes)
  : error any + JSONRPCNotification any :=
  match JSONUnmarshal json_Unmarshal_notificationTemp data with
  | inl err => inl err
  | inr temp =>
      let RawParams := nt_Params temp in
      if bool_decide (String.length RawParams ≠ 0%nat) then
        match JSONUnmarshal json_Unmarshal_any RawParams with
        | inl err => inl err
        | inr params =>
            inr (mkNotification (nt_JSONRPC temp) (nt_Method temp) params RawParams)
        end
      else inr (mkNotification (nt_JSONRPC temp) (nt_Method temp) None RawParams)
  end.

(** [json.Unmarshal(data, &v)] for [v] a pointer to an envelope: the library
    calls the [UnmarshalJSON] method of the envelope and hands back the error
    it returns. *)
Definition json_Unmarshal_via {A} (UnmarshalJSON : bytes → error any + A) (data : bytes)
  : string + A :=
  match UnmarshalJSON data with
  | inl err => inl (Error err)
  | inr v => inr v
  end.

End decoders.
End protocol_json.

(** ** Package transport: the streamable-HTTP endpoint *)
Module transport.
Import pkg protocol session.

(** [http.Header] with canonical keys; [Get] returns the empty string for a
    missing key. *)
Definition Header : Type := gmap string string.

Definition Header_Get (key : string) (h : Header) : string := default "" (h !! key).

Definition Header_Set (key value : string) (h : Header) : Header := <[key := value]> h.

Definition sessionIDHeader : string := "Mcp-Session-Id".

Definition StatusOK : Z := 200.
Definition StatusAccepted : Z := 202.
Definition StatusBadRequest : Z := 400.
Definition StatusNotFound : Z := 404.
Definition StatusMethodNotAllowed : Z := 405.
Definition StatusInternalServerError : Z := 500.

(** The part of [*http.Request] the handlers read. *)
Record Request : Type := mkHTTPRequest {
  http_Method : string;
  http_Header : Header;
  http_Body : bytes;
}.

(** An [http.ResponseWriter]: the header map, the status line once written and
    the body written so far. *)
Record ResponseWriter : Type := mkResponseWriter {
  rw_Header : Header;
  rw_Status : option Z;
  rw_Body : bytes;
}.

Definition newResponseWriter : ResponseWriter := mkResponseWriter ∅ None "".

Definition rw_SetHeader (key value : string) (w : ResponseWriter) : ResponseWriter :=
  mkResponseWriter (Header_Set key value (rw_Header w)) (rw_Status w) (rw_Body w).

(** [w.WriteHeader(code)]: only the first call sets the status. *)
Definition WriteHeader (code : Z) (w : ResponseWriter) : ResponseWriter :=
  match rw_Status w with
  | Some _ => w
  | None => mkResponseWriter (rw_Header w) (Some code) (rw_Body w)
  end.

(** [w.Write(b)]: writes the 200 status line first if none was written. *)
Definition Write (b : bytes) (w : ResponseWriter) : ResponseWriter :=
  let w1 := WriteHeader StatusOK w in
  mkResponseWriter (rw_Header w1) (rw_Status w1) (rw_Body w1 +:+ b).

Inductive StateMode : Type := Stateful | Stateless.

Section endpoint.
Context {any : Type} `{!JSON any}.

Record streamableHTTPServerTransport : Type := mkTransport {
  stateMode : StateMode;
  mcpEndpoint : string;
  sessionManager : Manager any;
}.

Definition with_sessionManager (m : Manager any) (t : streamableHTTPServerTransport)
  : streamableHTTPServerTransport :=
  mkTransport (stateMode t) (mcpEndpoint t) m.

(** [writeError] (logging left out) *)
Definition writeError (w : ResponseWriter) (code : Z) (message : string) : ResponseWriter :=
  let resp := NewJSONRPCErrorResponse (any := any) IDNil InternalError message in
  match json_Marshal_response resp with
  | inl _ => w
  | inr body =>
      Write body (WriteHeader code (rw_SetHeader "Content-Type" "application/json" w))
  end.

(** [handleDelete] *)
Definition handleDelete (t : streamableHTTPServerTransport) (w : ResponseWriter)
    (r : Request) : outcome (streamableHTTPServerTransport * ResponseWriter) :=
  let sessionID := Header_Get "Mcp-Session-Id" (http_Header r) in
  if decide (sessionID = "") then
    mret (t, writeError w StatusBadRequest "Missing session ID")
  else
    m' ← CloseSession sessionID (sessionManager t);
    mret (with_sessionManager m' t, WriteHeader StatusOK w).

End endpoint.
Arguments streamableHTTPServerTransport : clear implicits.

End transport.

(** ** The JSON libraries on the frames of the examples

    A table of what encoding/json and gjson return on the frames used in the
    examples below; every other input is reported as malformed.  The frames
    are written with ' for the JSON quotation mark.  Dynamic values are not
    inspected by the examples and are all [tt]. *)
Module scenario.
Import protocol.

Definition toolsCallFrame : bytes :=
  "{'jsonrpc':'2.0','id':2,'method':'tools/call','params':{'name':'echo'}}".
Definition toolsCallParams : bytes := "{'name':'echo'}".
Definition cancelledFrame : bytes :=
  "{'jsonrpc':'2.0','method':'notifications/cancelled','params':{'requestId':2}}".
Definition cancelledParams : bytes := "{'requestId':2}".
Definition responseFrame : bytes := "{'jsonrpc':'2.0','id':'1','result':{}}".

Definition Exists (msg : bytes) (path : string) : bool :=
  if decide (msg = toolsCallFrame) then bool_decide (path = "id") || bool_decide (path = "method")
  else if decide (msg = cancelledFrame) then bool_decide (path = "method")
  else if decide (msg = responseFrame) then bool_decide (path = "id")
  else false.

Definition Unmarshal_any (data : bytes) : string + option unit :=
  if decide (data = toolsCallParams) then inr (Some tt)
  else if decide (data = cancelledParams) then inr (Some tt)
  else if decide (data = "{}") then inr (Some tt)
  else inl "invalid character".

Definition Unmarshal_requestTemp (data : bytes) : string + requestTemp :=
  if decide (data = toolsCallFrame)
  then inr (mkRequestTemp "2.0" (IDValue "2") "tools/call" toolsCallParams)
  else inl "invalid character".

Definition Unmarshal_responseTemp (data : bytes) : string + responseTemp unit :=
  if decide (data = responseFrame)
  then inr (mkResponseTemp "2.0" (IDString "1") "{}" None)
  else inl "invalid character".

Definition Unmarshal_notificationTemp (data : bytes) : string + notificationTemp :=
  if decide (data = cancelledFrame)
  then inr (mkNotificationTemp "2.0" "notifications/cancelled" cancelledParams)
  else inl "invalid character".

(** Marshalling: only the members the examples look at are rendered. *)
Definition Marshal_request (r : JSONRPCRequest unit) : string + bytes :=
  inr ("{'jsonrpc':'" +:+ req_JSONRPC r +:+ "','id':'" +:+ fmt_Sprint (req_ID r)
       +:+ "','method':'" +:+ req_Method r +:+ "'}").

Definition Marshal_response (r : JSONRPCResponse unit) : string + bytes :=
  inr ("{'jsonrpc':'" +:+ resp_JSONRPC r +:+ "','id':'" +:+ fmt_Sprint (resp_ID r)
       +:+ match resp_Error r with
           | Some e => "','error':{'code':" +:+ pretty (err_Code e) +:+ "}}"
           | None => "','result':{}}"
           end).

Definition Marshal_notification (n : JSONRPCNotification unit) : string + bytes :=
  inr ("{'jsonrpc':'" +:+ notif_JSONRPC n +:+ "','method':'" +:+ notif_Method n +:+ "'}").

#[global] Instance json : JSON unit := {
  gjson_Exists := Exists;
  json_Unmarshal_any := Unmarshal_any;
  json_Unmarshal_requestTemp := Unmarshal_requestTemp;
  json_Unmarshal_responseTemp := Unmarshal_responseTemp;
  json_Unmarshal_notificationTemp := Unmarshal_notificationTemp;
  json_Marshal_request := Marshal_request;
  json_Marshal_response := Marshal_response;
  json_Marshal_notification := Marshal_notification;
}.

End scenario.

(** ** Package server *)
Module server.
Import pkg pkg_json protocol protocol_json session.

(** The three shapes of an inbound frame. *)
Inductive FrameKind : Type := Notification | Response | Request.

#[global] Instance FrameKind_eq_dec : EqDecision FrameKind.
Proof. solve_decision. Defined.

(** What a call of the dispatcher did, in order: the branch of [receive] it
    entered, and the handlers of the dispatch tables it invoked.  The list is
    an observation of the run, not program state. *)
Inductive Event : Type :=
| Dispatched (k : FrameKind)
| HandlerCalled (method : Method).

Section server.
(** [App] is the rest of the server and its surroundings: the registries, the
    capabilities and whatever the handlers and the transport act on. *)
Context {any App : Type} `{!JSON any}.

Record Server : Type := mkServer {
  sessionManager : Manager any;
  inShutdown : bool;
  inFlyRequest : Z;
  app : App;
}.

Definition with_sessionManager (m : Manager any) (server : Server) : Server :=
  mkServer m (inShutdown server) (inFlyRequest server) (app server).

Definition with_inFlyRequest (n : Z) (server : Server) : Server :=
  mkServer (sessionManager server) (inShutdown server) n (app server).

(** [setSessionIDToCtx] *)
Definition setSessionIDToCtx (ctx : Context any) (sessionID : string) : Context any :=
  mkContext (ctx_Err ctx) (Some sessionID).

(** [getSessionIDFromCtx] *)
Definition getSessionIDFromCtx (ctx : Context any) : error any + string :=
  match ctx_sessionID ctx with
  | None => inl (errors_New "no session id found")
  | Some sessionID => inr sessionID
  end.

(** The request and notification handlers and the transport of the server.
    Their file is not among the sources; each is taken as it is called: it
    reads and updates the server and returns a result or an error. *)
Record Handlers : Type := mkHandlers {
  handleRequestWithPing : Server → (any + error any) * Server;
  handleRequestWithInitialize :
    Context any → string → bytes → Server → (any + error any) * Server;
  handleRequestWithListPrompts : bytes → Server → (any + error any) * Server;
  handleRequestWithGetPrompt : Context any → bytes → Server → (any + error any) * Server;
  handleRequestWithListResources : bytes → Server → (any + error any) * Server;
  handleRequestWithListResourceTemplates : bytes → Server → (any + error any) * Server;
  handleRequestWithReadResource :
    Context any → bytes → Server → (any + error any) * Server;
  handleRequestWithSubscribeResourceChange :
    string → bytes → Server → (any + error any) * Server;
  handleRequestWithUnSubscribeResourceChange :
    string → bytes → Server → (any + error any) * Server;
  handleRequestWithListTools : bytes → Server → (any + error any) * Server;
  handleRequestWithCallTool : Context any → bytes → Server → (any + error any) * Server;
  handleNotifyWithInitialized : string → bytes → Server → option (error any) * Server;
  (** [server.transport.Send] *)
  transport_Send : Context any → string → bytes → Server → option (error any) * Server;
  (** The responses the transport's reader hands to [receiveResponse] while a
      peer call is parked in its [select]; [pick] is the choice of that
      [select] when both cases can proceed. *)
  deliveries : Server → list (JSONRPCResponse any);
  pick : Server → bool;
}.

Context (h : Handlers).

(** The error-code [switch] of [receiveRequest]. *)
Definition errorCode (err : error any) : Z :=
  if errors_Is err ErrMethodNotSupport then MethodNotFound
  else if errors_Is err ErrRequestInvalid then InvalidRequest
  else if errors_Is err ErrJSONUnmarshal then ParseError
  else InternalError.

(** The method [switch] of [receiveRequest]: the handler's result or error,
    the server it leaves, and whether a handler of the table was invoked. *)
Definition dispatchRequest (ctx : Context any) (sessionID : string)
    (request : JSONRPCRequest any) (server : Server)
  : (any + error any) * Server * list Event :=
  let method := req_Method request in
  let called (r : (any + error any) * Server) := (r, [HandlerCalled method]) in
  if decide (method = Ping) then called (handleRequestWithPing h server)
  else if decide (method = Initialize)
  then called (handleRequestWithInitialize h ctx sessionID (req_RawParams request) server)
  else if decide (method = PromptsList)
  then called (handleRequestWithListPrompts h (req_RawParams request) server)
  else if decide (method = PromptsGet)
  then called (handleRequestWithGetPrompt h ctx (req_RawParams request) server)
  else if decide (method = ResourcesList)
  then called (handleRequestWithListResources h (req_RawParams request) server)
  else if decide (method = ResourceListTemplates)
  then called (handleRequestWithListResourceTemplates h (req_RawParams request) server)
  else if decide (method = ResourcesRead)
  then called (handleRequestWithReadResource h ctx (req_RawParams request) server)
  else if decide (method = ResourcesSubscribe)
  then called (handleRequestWithSubscribeResourceChange h sessionID
                 (req_RawParams request) server)
  else if decide (method = ResourcesUnsubscribe)
  then called (handleRequestWithUnSubscribeResourceChange h sessionID
                 (req_RawParams request) server)
  else if decide (method = ToolsList)
  then called (handleRequestWithListTools h (req_RawParams request) server)
  else if decide (method = ToolsCall)
  then called (handleRequestWithCallTool h ctx (req_RawParams request) server)
  else
    (inr (fmt_Errorf_w (sentinel_text ErrMethodNotSupport +:+ ": method=" +:+ method)
            (Sentinel ErrMethodNotSupport)),
     server, []).

(** [receiveRequest]; [now] is the reading of [time.Now()]. *)
Definition receiveRequest (ctx : Context any) (now : Time) (sessionID : string)
    (request : JSONRPCRequest any) (server : Server)
  : JSONRPCResponse any * Server * list Event :=
  let ctx := setSessionIDToCtx ctx sessionID in
  let server :=
    if decide (req_Method request ≠ Ping)
    then with_sessionManager
           (UpdateSessionLastActiveAt now sessionID (sessionManager server)) server
    else server in
  let '(r, server, events) := dispatchRequest ctx sessionID request server in
  match r with
  | inr err =>
      (NewJSONRPCErrorResponse (req_ID request) (errorCode err) (Error err), server, events)
  | inl result =>
      (NewJSONRPCSuccessResponse (req_ID request) (Some result), server, events)
  end.

(** [receiveNotify] *)
Definition receiveNotify (sessionID : string) (notify : JSONRPCNotification any)
    (server : Server) : option (error any) * Server * list Event :=
  let gate : option (error any) :=
    if decide (sessionID ≠ "") then
      match GetSession sessionID (sessionManager server) with
      | None => Some (Sentinel ErrLackSession)
      | Some s =>
          if bool_decide (notif_Method notify ≠ NotificationInitialized) && negb (GetReady s)
          then Some (Sentinel ErrSessionHasNotInitialized)
          else None
      end
    else None in
  match gate with
  | Some err => (Some err, server, [])
  | None =>
      if decide (notif_Method notify = NotificationInitialized) then
        let '(err, server) :=
          handleNotifyWithInitialized h sessionID (notif_RawParams notify) server in
        (err, server, [HandlerCalled (notif_Method notify)])
      else
        (Some (fmt_Errorf_w
                 (sentinel_text ErrMethodNotSupport +:+ ": method=" +:+ notif_Method notify)
                 (Sentinel ErrMethodNotSupport)),
         server, [])
  end.

(** [receiveResponse]: the [select] with a [default] case hands the response
    to the reply slot only if the send can proceed at once. *)
Definition receiveResponse (sessionID : string) (response : JSONRPCResponse any)
    (server : Server) : outcome (option (error any) * Server) :=
  match GetSession sessionID (sessionManager server) with
  | None => mret (Some (Sentinel ErrLackSession), server)
  | Some s =>
      let key := fmt_Sprint (resp_ID response) in
      match GetReqID2respChan s !! key with
      | None =>
          mret (Some (fmt_Errorf_w
                        (sentinel_text ErrLackResponseChan +:+ ": sessionID=" +:+ sessionID
                           +:+ ", requestID=" +:+ key)
                        (Sentinel ErrLackResponseChan)), server)
      | Some respChan =>
          if send_ready respChan then
            respChan' ← send_chan response respChan;
            mret (None,
                  with_sessionManager
                    (store_state sessionID
                       (with_reqID2respChan (<[key := respChan']> (GetReqID2respChan s)) s)
                       (sessionManager server))
                    server)
          else
            mret (Some (fmt_Errorf_w
                          (sentinel_text ErrDuplicateResponseReceived +:+ ": sessionID="
                             +:+ sessionID)
                          (Sentinel ErrDuplicateResponseReceived)), server)
      end
  end.

(** The goroutine [receive] starts for a request: it computes the response,
    marshals it and sends it on the reply channel, which it closes on exit;
    a response that cannot be marshalled is logged and nothing is sent. *)
Definition handlerTask (ctx : Context any) (now : Time) (sessionID : string)
    (req : JSONRPCRequest any) (server : Server)
  : chan bytes * Server * list Event :=
  let '(resp, server, events) := receiveRequest ctx now sessionID req server in
  let server := with_inFlyRequest (inFlyRequest server - 1) server in
  match json_Marshal_response resp with
  | inl _ => (mkChan [] 1 true, server, events)
  | inr message => (mkChan [message] 1 true, server, events)
  end.

(** The two results of [receive]: the reply channel (nil for [RecvNone]) and
    the error. *)
Inductive ReceiveResult : Type :=
| RecvNone
| RecvErr (err : error any)
| RecvChan (ch : chan bytes).

(** [receive].  The handler goroutine is run to its end before [receive]
    returns, so the reply channel is given with its final content. *)
Definition receive (ctx : Context any) (now : Time) (sessionID : string) (msg : bytes)
    (server : Server) : outcome (ReceiveResult * Server * list Event) :=
  if bool_decide (sessionID ≠ "")
     && negb (IsActiveSession sessionID (sessionManager server)) then
    if IsClosedSession sessionID (sessionManager server)
    then mret (RecvErr (Sentinel ErrSessionClosed), server, [])
    else mret (RecvErr (Sentinel ErrLackSession), server, [])
  else if negb (gjson_Exists msg "id") then
    match JSONUnmarshal (json_Unmarshal_via JSONRPCNotification_UnmarshalJSON) msg with
    | inl err => mret (RecvErr err, server, [])
    | inr notify =>
        match receiveNotify sessionID notify server with
        | (Some err, server, events) =>
            mret (RecvErr err, server, Dispatched Notification :: events)
        | (None, server, events) =>
            mret (RecvNone, server, Dispatched Notification :: events)
        end
    end
  else if negb (gjson_Exists msg "method") then
    match JSONUnmarshal (json_Unmarshal_via JSONRPCResponse_UnmarshalJSON) msg with
    | inl err => mret (RecvErr err, server, [])
    | inr resp =>
        r ← receiveResponse sessionID resp server;
        match r with
        | (Some err, server) => mret (RecvErr err, server, [Dispatched Response])
        | (None, server) => mret (RecvNone, server, [Dispatched Response])
        end
    end
  else
    match JSONUnmarshal (json_Unmarshal_via JSONRPCRequest_UnmarshalJSON) msg with
    | inl err => mret (RecvErr err, server, [])
    | inr req =>
        if negb (IsValid req) then mret (RecvErr (Sentinel ErrRequestInvalid), server, [])
        else
          let gate : option (error any) :=
            if bool_decide (sessionID ≠ "") && bool_decide (req_Method req ≠ Initialize)
               && bool_decide (req_Method req ≠ Ping) then
              match GetSession sessionID (sessionManager server) with
              | None => Some (Sentinel ErrLackSession)
              | Some s =>
                  if negb (GetReady s) then Some (Sentinel ErrSessionHasNotInitialized)
                  else None
              end
            else None in
          match gate with
          | Some err => mret (RecvErr err, server, [])
          | None =>
              let server := with_inFlyRequest (inFlyRequest server + 1) server in
              if inShutdown server then
                mret (RecvErr (errors_New "server already shutdown"),
                      with_inFlyRequest (inFlyRequest server - 1) server, [])
              else
                let '(ch, server, events) :=
                  handlerTask (NewCancelShieldContext ctx) now sessionID req server in
                mret (RecvChan ch, server, Dispatched Request :: events)
          end
    end.

(** The branches of [receive] a run entered. *)
Definition dispatched (events : list Event) : list FrameKind :=
  omap (λ e, match e with Dispatched k => Some k | HandlerCalled _ => None end) events.

(** The handlers a run invoked. *)
Definition handlersCalled (events : list Event) : list Method :=
  omap (λ e, match e with HandlerCalled m => Some m | Dispatched _ => None end) events.

(** The shape of a frame in the words of the classification rule: without
    an [id] member a notification, with [id] but without [method] a response,
    with both a request. *)
Definition frameKind (msg : bytes) : FrameKind :=
  if negb (gjson_Exists msg "id") then Notification
  else if negb (gjson_Exists msg "method") then Response
  else Request.

(** [sendMsgWithRequest] *)
Definition sendMsgWithRequest (ctx : Context any) (sessionID : string)
    (requestID : RequestID) (method : Method) (params : option any) (server : Server)
  : option (error any) * Server :=
  if decide (requestID = IDNil) then (Some (errors_New "requestID can't is nil"), server)
  else
    let req := NewJSONRPCRequest requestID method params in
    match json_Marshal_request req with
    | inl text => (Some (errors_New text), server)
    | inr message =>
        match transport_Send h ctx sessionID message server with
        | (Some err, server) =>
            (Some (fmt_Errorf_w ("sendRequest: transport send: " +:+ Error err) err), server)
        | (None, server) => (None, server)
        end
    end.

(** [sendMsgWithNotification] *)
Definition sendMsgWithNotification (ctx : Context any) (sessionID : string)
    (method : Method) (params : option any) (server : Server)
  : option (error any) * Server :=
  let notify := NewJSONRPCNotification method params in
  match json_Marshal_notification notify with
  | inl text => (Some (errors_New text), server)
  | inr message =>
      match transport_Send h ctx sessionID message server with
      | (Some err, server) =>
          (Some (fmt_Errorf_w ("sendNotification: transport send: " +:+ Error err) err),
           server)
      | (None, server) => (None, server)
      end
  end.

(** The reply slot of a peer call, as the session holds it. *)
Definition replySlot (sessionID requestID : string) (server : Server)
  : option (chan (JSONRPCResponse any)) :=
  s ← GetSession sessionID (sessionManager server);
  GetReqID2respChan s !! requestID.

(** [callClient], first part: look the session up, allocate the request id and
    register a reply slot with room for one response. *)
Definition callClient_register (sessionID : string) (server : Server)
  : error any + (string * Server) :=
  match GetSession sessionID (sessionManager server) with
  | None =>
      inl (fmt_Errorf_w ("callClient: " +:+ sentinel_text ErrLackSession)
             (Sentinel ErrLackSession))
  | Some session =>
      let '(n, session) := IncRequestID session in
      let requestID := FormatInt n in
      let respChan := make_chan 1 in
      inr (requestID,
           with_sessionManager
             (store_state sessionID
                (with_reqID2respChan (<[requestID := respChan]> (GetReqID2respChan session))
                   session)
                (sessionManager server))
             server)
  end.

(** The deferred [Remove(requestID)]. *)
Definition callClient_remove (sessionID requestID : string) (server : Server) : Server :=
  match GetSession sessionID (sessionManager server) with
  | None => server
  | Some session =>
      with_sessionManager
        (store_state sessionID
           (with_reqID2respChan (delete requestID (GetReqID2respChan session)) session)
           (sessionManager server))
        server
  end.

(** The case [response := <-respChan] of the [select] of [callClient], taken
    on its own: the caller receives the oldest response of the channel it
    registered.  The channel stays registered, one response shorter, until
    the deferred [Remove] runs at the return of [callClient].  [None] when
    the case cannot proceed. *)
Definition callClient_receive (sessionID requestID : string) (server : Server)
  : option (JSONRPCResponse any * Server) :=
  session ← GetSession sessionID (sessionManager server);
  respChan ← GetReqID2respChan session !! requestID;
  match recv_chan respChan with
  | (Some response, _, respChan') =>
      Some (response,
            with_sessionManager
              (store_state sessionID
                 (with_reqID2respChan (<[requestID := respChan']> (GetReqID2respChan session))
                    session)
                 (sessionManager server))
              server)
  | (None, _, _) => None
  end.

(** The responses that arrive while the caller is parked are handed to
    [receiveResponse] one after the other; its errors are only logged. *)
Definition deliver (sessionID : string) (responses : list (JSONRPCResponse any))
    (server : Server) : outcome Server :=
  foldl (λ acc response,
           server' ← acc;
           r ← receiveResponse sessionID response server';
           mret r.2)
        (mret server) responses.

(** [callClient], last part: the [select] on the context and the reply slot,
    and the deferred removal of the slot. *)
Definition callClient_await (ctx : Context any) (sessionID requestID : string)
    (server : Server) : outcome ((error any + bytes) * Server) :=
  server ← deliver sessionID (deliveries h server) server;
  (* the caller holds the channel itself; once the session has left the
     active map nothing can reach that channel any more *)
  let respChan := default (make_chan 1) (replySlot sessionID requestID server) in
  match select2 (ctx_done ctx) (recv_ready respChan) (pick h server) with
  | Neither => Blocks
  | First =>
      mret (inl (default (Sentinel context_Canceled) (ctx_Err ctx)),
            callClient_remove sessionID requestID server)
  | Second =>
      let server := callClient_remove sessionID requestID server in
      match recv_chan respChan with
      | (Some response, _, _) =>
          match resp_Error response with
          | Some err =>
              mret (inl (NewResponseError (err_Code err) (err_Message err) (err_Data err)),
                    server)
          | None => mret (inr (resp_RawResult response), server)
          end
      | (None, _, _) => Panics
      end
  end.

(** [callClient] *)
Definition callClient (ctx : Context any) (sessionID : string) (method : Method)
    (params : option any) (server : Server) : outcome ((error any + bytes) * Server) :=
  match callClient_register sessionID server with
  | inl err => mret (inl err, server)
  | inr (requestID, server) =>
      match sendMsgWithRequest ctx sessionID (IDString requestID) method params server with
      | (Some err, server) =>
          mret (inl (fmt_Errorf_w ("callClient: " +:+ Error err) err),
                callClient_remove sessionID requestID server)
      | (None, server) => callClient_await ctx sessionID requestID server
      end
  end.

End server.
Arguments Server : clear implicits.
Arguments Handlers : clear implicits.
Arguments ReceiveResult : clear implicits.

End server.

(** ** Package protocol, continued: polymorphic content *)
Module content.
Import pkg pkg_json.

(** The four content types and their decoders are declared in a file that is
    not among the sources: they are parameters here.  A value of type
    [TextContent] stands for what [json.Unmarshal] stores in a
    [*TextContent] variable, and likewise for the other three.  The two
    [Aux] decoders are [json.Unmarshal] at the anonymous structs that bind
    the raw [content] member(s) next to the remaining fields. *)
Class Codec : Type := {
  TextContent : Type;
  ImageContent : Type;
  AudioContent : Type;
  EmbeddedResource : Type;
  Role : Type;
  json_Unmarshal_TextContent : bytes → string + TextContent;
  json_Unmarshal_ImageContent : bytes → string + ImageContent;
  json_Unmarshal_AudioContent : bytes → string + AudioContent;
  json_Unmarshal_EmbeddedResource : bytes → string + EmbeddedResource;
  json_Unmarshal_CallToolResultAux : bytes → string + (list bytes * bool);
  json_Unmarshal_PromptMessageAux : bytes → string + (bytes * Role);
}.

Section decoding.
Context {any : Type} `{!Codec}.

(** The [Content] interface: the dynamic type and the value. *)
Inductive Content : Type :=
| ContentText (v : TextContent)
| ContentImage (v : ImageContent)
| ContentAudio (v : AudioContent)
| ContentEmbedded (v : EmbeddedResource).

(** [CallToolResult]: an entry of [Content] is [None] while it holds the nil
    interface value [make] filled it with. *)
Record CallToolResult : Type := mkCallToolResult {
  ctr_Content : list (option Content);
  ctr_IsError : bool;
}.

(** The [for i, content := range aux.Content] loop of
    [CallToolResult.UnmarshalJSON], from index [i] on: the slice [r.Content]
    it leaves and the error it returns.  The first three variants end the
    iteration with [continue], the fourth ends the function with
    [return nil]. *)
Fixpoint CallToolResult_range (i : nat) (contents : list bytes)
    (rContent : list (option Content)) : list (option Content) * option (error any) :=
  match contents with
  | [] => (rContent, None)
  | content :: rest =>
      match JSONUnmarshal (any := any) json_Unmarshal_TextContent content with
      | inr textContent =>
          CallToolResult_range (S i) rest (<[i := Some (ContentText textContent)]> rContent)
      | inl _ =>
      match JSONUnmarshal (any := any) json_Unmarshal_ImageContent content with
      | inr imageContent =>
          CallToolResult_range (S i) rest (<[i := Some (ContentImage imageContent)]> rContent)
      | inl _ =>
      match JSONUnmarshal (any := any) json_Unmarshal_AudioContent content with
      | inr audioContent =>
          CallToolResult_range (S i) rest (<[i := Some (ContentAudio audioContent)]> rContent)
      | inl _ =>
      match JSONUnmarshal (any := any) json_Unmarshal_EmbeddedResource content with
      | inr embeddedResource =>
          (<[i := Some (ContentEmbedded embeddedResource)]> rContent, None)
      | inl _ =>
          (rContent, Some (errors_New ("unknown content type at index " +:+ pretty i)))
      end end end end
  end.

(** [CallToolResult.UnmarshalJSON]: the receiver after the call and the
    error. *)
Definition CallToolResult_UnmarshalJSON (data : bytes) (r : CallToolResult)
  : CallToolResult * option (error any) :=
  match JSONUnmarshal json_Unmarshal_CallToolResultAux data with
  | inl err => (r, Some err)
  | inr (contents, isError) =>
      let '(rContent, err) :=
        CallToolResult_range 0 contents (replicate (length contents) None) in
      (mkCallToolResult rContent isError, err)
  end.

Record PromptMessage : Type := mkPromptMessage {
  pm_Role : option Role;
  pm_Content : option Content;
}.

(** [PromptMessage.UnmarshalJSON] *)
Definition PromptMessage_UnmarshalJSON (data : bytes) (m : PromptMessage)
  : PromptMessage * option (error any) :=
  match JSONUnmarshal json_Unmarshal_PromptMessageAux data with
  | inl err => (m, Some err)
  | inr (content, role) =>
      let m := mkPromptMessage (Some role) (pm_Content m) in
      match JSONUnmarshal (any := any) json_Unmarshal_TextContent content with
      | inr textContent => (mkPromptMessage (pm_Role m) (Some (ContentText textContent)), None)
      | inl _ =>
      match JSONUnmarshal (any := any) json_Unmarshal_ImageContent content with
      | inr imageContent =>
          (mkPromptMessage (pm_Role m) (Some (ContentImage imageContent)), None)
      | inl _ =>
      match JSONUnmarshal (any := any) json_Unmarshal_AudioContent content with
      | inr audioContent =>
          (mkPromptMessage (pm_Role m) (Some (ContentAudio audioContent)), None)
      | inl _ =>
      match JSONUnmarshal (any := any) json_Unmarshal_EmbeddedResource content with
      | inr embeddedResource =>
          (mkPromptMessage (pm_Role m) (Some (ContentEmbedded embeddedResource)), None)
      | inl _ => (m, Some (errors_New "unknown content type"))
      end end end end
  end.

(** The variant an element decodes to when the four decoders are tried in
    the order text, image, audio, embedded resource. *)
Definition decodeContent (content : bytes) : option Content :=
  match json_Unmarshal_TextContent content with
  | inr v => Some (ContentText v)
  | inl _ =>
  match json_Unmarshal_ImageContent content with
  | inr v => Some (ContentImage v)
  | inl _ =>
  match json_Unmarshal_AudioContent content with
  | inr v => Some (ContentAudio v)
  | inl _ =>
  match json_Unmarshal_EmbeddedResource content with
  | inr v => Some (ContentEmbedded v)
  | inl _ => None
  end end end end.

Definition isEmbedded (c : option Content) : bool :=
  match c with
  | Some (ContentEmbedded _) => true
  | _ => false
  end.

(** An element that decodes as text, image or audio. *)
Definition plainContent (content : bytes) : Prop :=
  ∃ c, decodeContent content = Some c ∧ isEmbedded (Some c) = false.

End decoding.
Arguments Content : clear implicits.
Arguments Content {_}.
Arguments CallToolResult : clear implicits.
Arguments CallToolResult {_}.
Arguments PromptMessage : clear implicits.
Arguments PromptMessage {_}.

(** The content decoders on the elements of the examples: an element is
    spelled by the value of its [type] member. *)
Definition scenario_variant (tag : string) (content : bytes) : string + bytes :=
  if decide (content = tag) then inr content else inl "no such variant".

#[global] Instance scenario_codec : Codec := {
  TextContent := bytes;
  ImageContent := bytes;
  AudioContent := bytes;
  EmbeddedResource := bytes;
  Role := string;
  json_Unmarshal_TextContent := scenario_variant "text";
  json_Unmarshal_ImageContent := scenario_variant "image";
  json_Unmarshal_AudioContent := scenario_variant "audio";
  json_Unmarshal_EmbeddedResource := scenario_variant "resource";
  json_Unmarshal_CallToolResultAux := λ data,
    if decide (data = "resource,text") then inr (["resource"; "text"], false)
    else if decide (data = "resource,bogus") then inr (["resource"; "bogus"], false)
    else if decide (data = "text,image") then inr (["text"; "image"], false)
    else inl "invalid character";
  json_Unmarshal_PromptMessageAux := λ data,
    if decide (data = "user:text") then inr ("text", "user")
    else inl "invalid character";
}.

Definition scenario_text (s : bytes) : @TextContent scenario_codec := s.
Definition scenario_image (s : bytes) : @ImageContent scenario_codec := s.
Definition scenario_embedded (s : bytes) : @EmbeddedResource scenario_codec := s.

End content.

(** ** Package client *)
Module client.
Import pkg pkg_json protocol protocol_json.
Import server (FrameKind, Notification, Response, Request).

Section client.
(** [T] is what lies outside the client object: the transport, the peer
    behind it and the scheduler. *)
Context {any T : Type} `{!JSON any}.

Record Client : Type := mkClient {
  world : T;
  reqID2respChan : gmap string (chan (JSONRPCResponse any));
  requestID : Z;
  ready : bool;
  (** whether [initializationMu] is held *)
  initializationMu : bool;
  clientInfo : Implementation;
  clientCapabilities : ClientCapabilities any;
  serverCapabilities : option ServerCapabilities;
  serverInfo : option Implementation;
  serverInstructions : string;
}.

Definition with_world (w : T) (c : Client) : Client :=
  mkClient w (reqID2respChan c) (requestID c) (ready c) (initializationMu c)
    (clientInfo c) (clientCapabilities c) (serverCapabilities c) (serverInfo c)
    (serverInstructions c).

Definition with_reqID2respChan (m : gmap string (chan (JSONRPCResponse any))) (c : Client)
  : Client :=
  mkClient (world c) m (requestID c) (ready c) (initializationMu c)
    (clientInfo c) (clientCapabilities c) (serverCapabilities c) (serverInfo c)
    (serverInstructions c).

Definition with_requestID (n : Z) (c : Client) : Client :=
  mkClient (world c) (reqID2respChan c) n (ready c) (initializationMu c)
    (clientInfo c) (clientCapabilities c) (serverCapabilities c) (serverInfo c)
    (serverInstructions c).

Definition with_ready (b : bool) (c : Client) : Client :=
  mkClient (world c) (reqID2respChan c) (requestID c) b (initializationMu c)
    (clientInfo c) (clientCapabilities c) (serverCapabilities c) (serverInfo c)
    (serverInstructions c).

Definition with_initializationMu (b : bool) (c : Client) : Client :=
  mkClient (world c) (reqID2respChan c) (requestID c) (ready c) b
    (clientInfo c) (clientCapabilities c) (serverCapabilities c) (serverInfo c)
    (serverInstructions c).

(** The transport and the peer, and the declarations of package protocol
    that are not among the sources. *)
Record Env : Type := mkEnv {
  (** [client.transport.Send] *)
  transport_Send : Context any → bytes → T → option (error any) * T;
  (** The responses the transport's reader hands to [receiveResponse] while a
      call is parked in its [select], and the world after they arrived. *)
  deliveries : T → list (JSONRPCResponse any) * T;
  (** The choice of a [select] whose two cases can both proceed. *)
  pick : T → bool;
  Version : string;
  SupportedVersion : string → bool;
  json_Unmarshal_InitializeResult : bytes → string + InitializeResult;
  (** The request and notification parameters as interface values. *)
  box_InitializeRequest : InitializeRequest any → any;
  box_InitializedNotification : any;
}.

Context (env : Env).

(** The goroutines [receive] starts, by the method each one runs. *)
Inductive Task : Type :=
| TaskReceiveNotify (notify : JSONRPCNotification any)
| TaskReceiveResponse (response : JSONRPCResponse any)
| TaskReceiveRequest (request : JSONRPCRequest any).

Definition taskKind (t : Task) : FrameKind :=
  match t with
  | TaskReceiveNotify _ => Notification
  | TaskReceiveResponse _ => Response
  | TaskReceiveRequest _ => Request
  end.

(** [receive]: the error it returns and the goroutines it started. *)
Definition receive (msg : bytes) : option (error any) * list Task :=
  if negb (gjson_Exists msg "id") then
    match JSONUnmarshal (json_Unmarshal_via JSONRPCNotification_UnmarshalJSON) msg with
    | inl err => (Some err, [])
    | inr notify => (None, [TaskReceiveNotify notify])
    end
  else if negb (gjson_Exists msg "method") then
    match JSONUnmarshal (json_Unmarshal_via JSONRPCResponse_UnmarshalJSON) msg with
    | inl err => (Some err, [])
    | inr resp => (None, [TaskReceiveResponse resp])
    end
  else
    match JSONUnmarshal (json_Unmarshal_via JSONRPCRequest_UnmarshalJSON) msg with
    | inl err => (Some err, [])
    | inr req =>
        if negb (IsValid req) then (Some (Sentinel ErrRequestInvalid), [])
        else (None, [TaskReceiveRequest req])
    end.

(** [receiveResponse] *)
Definition receiveResponse (response : JSONRPCResponse any) (c : Client)
  : outcome (option (error any) * Client) :=
  let key := fmt_Sprint (resp_ID response) in
  match reqID2respChan c !! key with
  | None =>
      mret (Some (fmt_Errorf_w
                    (sentinel_text ErrLackResponseChan +:+ ": requestID=" +:+ key)
                    (Sentinel ErrLackResponseChan)), c)
  | Some respChan =>
      if send_ready respChan then
        respChan' ← send_chan response respChan;
        mret (None, with_reqID2respChan (<[key := respChan']> (reqID2respChan c)) c)
      else
        mret (Some (fmt_Errorf_w
                      (sentinel_text ErrDuplicateResponseReceived +:+ ": response")
                      (Sentinel ErrDuplicateResponseReceived)), c)
  end.

(** What was handed to [transport.Send], for the record of a run. *)
Inductive Frame : Type :=
| FrameRequest (r : JSONRPCRequest any)
| FrameNotification (n : JSONRPCNotification any).

Record Sent : Type := mkSent {
  sent_frame : Frame;
  sent_message : bytes;
  sent_err : option (error any);
}.

(** [sendMsgWithNotification] *)
Definition sendMsgWithNotification (ctx : Context any) (method : Method)
    (params : option any) (c : Client) : option (error any) * Client * list Sent :=
  let notify := NewJSONRPCNotification method params in
  match json_Marshal_notification notify with
  | inl text => (Some (errors_New text), c, [])
  | inr message =>
      match transport_Send env ctx message (world c) with
      | (Some err, w) =>
          (Some (fmt_Errorf_w ("sendNotification: transport send: " +:+ Error err) err),
           with_world w c, [mkSent (FrameNotification notify) message (Some err)])
      | (None, w) =>
          (None, with_world w c, [mkSent (FrameNotification notify) message None])
      end
  end.

(** [sendNotification4Initialized] *)
Definition sendNotification4Initialized (ctx : Context any) (c : Client)
  : option (error any) * Client * list Sent :=
  sendMsgWithNotification ctx NotificationInitialized
    (Some (box_InitializedNotification env)) c.

(** The partial results of the calls below: the Go results, the client after
    the call and the frames handed to the transport. *)
Definition result (A : Type) : Type := outcome (A * Client * list Sent).

(** [sendMsgWithRequest] calls [againInitialization], which calls
    [initialization], [callServer] and [sendMsgWithRequest] again.  The
    three callees take the function [send] they call for the inner
    [sendMsgWithRequest]; the knot is tied below. *)
Section callees.
Context (send : Context any → RequestID → Method → option any → Client
                → result (option (error any))).

(** The responses that arrive while the caller is parked are handed to
    [receiveResponse] one after the other; its errors are only logged. *)
Definition deliver (responses : list (JSONRPCResponse any)) (c : Client) : outcome Client :=
  foldl (λ acc response, c' ← acc; r ← receiveResponse response c'; mret r.2)
        (mret c) responses.

(** The deferred [Remove(requestID)]. *)
Definition callServer_remove (requestID : string) (c : Client) : Client :=
  with_reqID2respChan (delete requestID (reqID2respChan c)) c.

(** The case [response := <-respChan] of the [select] of [callServer], taken
    on its own: the caller receives the oldest response of the channel it
    registered; the channel stays registered, one response shorter, until
    the deferred [Remove] runs.  [None] when the case cannot proceed. *)
Definition callServer_receive (requestID : string) (c : Client)
  : option (JSONRPCResponse any * Client) :=
  respChan ← reqID2respChan c !! requestID;
  match recv_chan respChan with
  | (Some response, _, respChan') =>
      Some (response,
            with_reqID2respChan (<[requestID := respChan']> (reqID2respChan c)) c)
  | (None, _, _) => None
  end.

(** [callServer], last part: the [select] on the context and the reply slot,
    then the deferred removal of the slot.  [ctx] is the context as it is
    when the caller is woken. *)
Definition callServer_await (ctx : Context any) (requestID : string) (c : Client)
  : outcome ((error any + bytes) * Client) :=
  let '(responses, w) := deliveries env (world c) in
  c ← deliver responses (with_world w c);
  let respChan := default (make_chan 1) (reqID2respChan c !! requestID) in
  match select2 (ctx_done ctx) (recv_ready respChan) (pick env (world c)) with
  | Neither => Blocks
  | First =>
      mret (inl (default (Sentinel context_Canceled) (ctx_Err ctx)),
            callServer_remove requestID c)
  | Second =>
      let c := callServer_remove requestID c in
      match recv_chan respChan with
      | (Some response, _, _) =>
          match resp_Error response with
          | Some err =>
              mret (inl (NewResponseError (err_Code err) (err_Message err) (err_Data err)), c)
          | None => mret (inr (resp_RawResult response), c)
          end
      | (None, _, _) => Panics
      end
  end.

(** [callServer], first part: allocate the request id and register a reply
    slot with room for one response. *)
Definition callServer_register (c : Client) : string * Client :=
  let n := wrapInt64 (requestID c + 1) in
  let requestID := FormatInt n in
  (requestID,
   with_reqID2respChan (<[requestID := make_chan 1]> (reqID2respChan c))
     (with_requestID n c)).

(** [callServer] *)
Definition callServer (ctx : Context any) (method : Method) (params : option any)
    (c : Client) : result (error any + bytes) :=
  if negb (ready c) && (bool_decide (method ≠ Initialize) && bool_decide (method ≠ Ping))
  then mret (inl (errors_New "callServer: client not ready"), c, [])
  else
    let '(requestID, c) := callServer_register c in
    '(err, c, sent) ← send ctx (IDString requestID) method params c;
    match err with
    | Some err =>
        mret (inl (fmt_Errorf_w ("callServer: " +:+ Error err) err),
              callServer_remove requestID c, sent)
    | None =>
        '(r, c) ← callServer_await ctx requestID c;
        mret (r, c, sent)
    end.

(** [initialization] *)
Definition initialization (ctx : Context any) (request : InitializeRequest any)
    (c : Client) : result (error any + InitializeResult) :=
  let request :=
    mkInitializeRequest (ireq_ClientInfo request) (ireq_Capabilities request)
      (Version env) in
  '(r, c, sent1) ←
    callServer ctx Initialize (Some (box_InitializeRequest env request)) c;
  match r with
  | inl err => mret (inl err, c, sent1)
  | inr response =>
      match JSONUnmarshal (json_Unmarshal_InitializeResult env) response with
      | inl err =>
          mret (inl (fmt_Errorf_w ("failed to unmarshal response: " +:+ Error err) err),
                c, sent1)
      | inr result =>
          if negb (SupportedVersion env (ires_ProtocolVersion result)) then
            mret (inl (errors_New
                         ("protocol version not supported, supported lastest version is "
                            +:+ Version env)), c, sent1)
          else
            match sendNotification4Initialized ctx c with
            | (Some err, c, sent2) =>
                mret (inl (fmt_Errorf_w
                             ("failed to send InitializedNotification: " +:+ Error err) err),
                      c, sent1 ++ sent2)
            | (None, c, sent2) =>
                mret (inr result,
                      mkClient (world c) (reqID2respChan c) (requestID c) true
                        (initializationMu c)
                        (ireq_ClientInfo request) (ireq_Capabilities request)
                        (Some (ires_Capabilities result)) (Some (ires_ServerInfo result))
                        (ires_Instructions result),
                      sent1 ++ sent2)
            end
      end
  end.

(** [againInitialization].  [sync.Mutex] is not reentrant: [Lock] on a held
    mutex parks the caller. *)
Definition againInitialization (ctx : Context any) (c : Client)
  : result (option (error any)) :=
  let c := with_ready false c in
  if initializationMu c then Blocks
  else
    let c := with_initializationMu true c in
    if ready c then mret (None, with_initializationMu false c, [])
    else
      '(r, c, sent) ←
        initialization ctx
          (NewInitializeRequest (Version env) (clientInfo c) (clientCapabilities c)) c;
      match r with
      | inl err => mret (Some err, with_initializationMu false c, sent)
      | inr _ => mret (None, with_initializationMu false (with_ready true c), sent)
      end.

(** The body of [sendMsgWithRequest]. *)
Definition sendMsgWithRequest_body (ctx : Context any) (requestID : RequestID)
    (method : Method) (params : option any) (c : Client)
  : result (option (error any)) :=
  if decide (requestID = IDNil) then mret (Some (errors_New "requestID can't is nil"), c, [])
  else
    let req := NewJSONRPCRequest requestID method params in
    match json_Marshal_request req with
    | inl text => mret (Some (errors_New text), c, [])
    | inr message =>
        match transport_Send env ctx message (world c) with
        | (Some err, w) =>
            let c := with_world w c in
            let sent := [mkSent (FrameRequest req) message (Some err)] in
            if negb (errors_Is err ErrSessionClosed) then
              mret (Some (fmt_Errorf_w ("sendRequest: transport send: " +:+ Error err) err),
                    c, sent)
            else
              '(err, c, sent') ← againInitialization ctx c;
              mret (err, c, sent ++ sent')
        | (None, w) =>
            mret (None, with_world w c, [mkSent (FrameRequest req) message None])
        end
    end.

End callees.

(** [sendMsgWithRequest], with a bound on the depth of the calls of itself
    through [againInitialization]. *)
Fixpoint sendMsgWithRequest_depth (depth : nat) (ctx : Context any) (requestID : RequestID)
    (method : Method) (params : option any) (c : Client)
  : result (option (error any)) :=
  match depth with
  | O => Blocks
  | S depth' =>
      sendMsgWithRequest_body (sendMsgWithRequest_depth depth') ctx requestID method params c
  end.

(** The inner call is made with the mutex held, so that a second
    re-initialization parks on [Lock] before it sends anything: two levels
    are all there are (see [sendMsgWithRequest_depth_enough]). *)
Definition sendMsgWithRequest := sendMsgWithRequest_depth 2.

End client.
Arguments Client : clear implicits.
Arguments Env : clear implicits.
Arguments Task : clear implicits.
Arguments Frame : clear implicits.
Arguments Sent : clear implicits.

End client.

(** ** The peers of the examples *)
Module scenario_peers.
Import pkg protocol session.

(** A server whose handlers answer every request with an empty result, whose
    initialized-notification handler marks the session ready, and whose
    transport accepts every message. *)
Definition handlers : server.Handlers unit unit := {|
  server.handleRequestWithPing := λ sv, (inl tt, sv);
  server.handleRequestWithInitialize := λ _ _ _ sv, (inl tt, sv);
  server.handleRequestWithListPrompts := λ _ sv, (inl tt, sv);
  server.handleRequestWithGetPrompt := λ _ _ sv, (inl tt, sv);
  server.handleRequestWithListResources := λ _ sv, (inl tt, sv);
  server.handleRequestWithListResourceTemplates := λ _ sv, (inl tt, sv);
  server.handleRequestWithReadResource := λ _ _ sv, (inl tt, sv);
  server.handleRequestWithSubscribeResourceChange := λ _ _ sv, (inl tt, sv);
  server.handleRequestWithUnSubscribeResourceChange := λ _ _ sv, (inl tt, sv);
  server.handleRequestWithListTools := λ _ sv, (inl tt, sv);
  server.handleRequestWithCallTool := λ _ _ sv, (inl tt, sv);
  server.handleNotifyWithInitialized := λ sessionID _ sv,
    match GetSession sessionID (server.sessionManager sv) with
    | Some s =>
        (None,
         server.with_sessionManager
           (store_state sessionID (SetReady s) (server.sessionManager sv)) sv)
    | None => (Some (Sentinel ErrLackSession), sv)
    end;
  server.transport_Send := λ _ _ _ sv, (None, sv);
  server.deliveries := λ _, [];
  server.pick := λ _, false;
|}.

(** A server with one session, [S1], created at time 0. *)
Definition server1 : server.Server unit unit :=
  server.mkServer (CreateSession "S1" 0 NewManager).2 false 0 tt.

(** The same server once the session is ready. *)
Definition server1_ready : server.Server unit unit :=
  server.mkServer (store_state "S1" (SetReady (NewState 0)) (CreateSession "S1" 0 NewManager).2)
    false 0 tt.

(** The world of the client of the examples counts the messages handed to the
    transport.  The transport refuses the first one with [ErrSessionClosed]
    and accepts the others; the peer answers the second one (the [initialize]
    request, id 2) and nothing else. *)
Definition initializeResponse : JSONRPCResponse unit :=
  mkResponse "2.0" (IDString "2") (Some tt) "{}" None.

Definition env : client.Env unit nat := {|
  client.transport_Send := λ _ _ n,
    match n with
    | O => (Some (Sentinel ErrSessionClosed), 1%nat)
    | S _ => (None, S n)
    end;
  client.deliveries := λ n,
    if decide (n = 2%nat) then ([initializeResponse], n) else ([], n);
  client.pick := λ _, false;
  client.Version := "2024-11-05";
  client.SupportedVersion := λ v, bool_decide (v = "2024-11-05");
  client.json_Unmarshal_InitializeResult := λ _,
    inr (mkInitializeResult (mkImplementation "s" "0")
           (mkServerCapabilities None None None) "2024-11-05" "");
  client.box_InitializeRequest := λ _, tt;
  client.box_InitializedNotification := tt;
|}.

(** A ready client that has made no call yet. *)
Definition client0 : client.Client unit nat :=
  client.mkClient 0%nat ∅ 0 true false (mkImplementation "c" "0")
    (mkClientCapabilities None) None None "".

End scenario_peers.

(** ** Package server/session, continued: runs of outbox calls *)
Module session_runs.
Import pkg protocol session.

Section runs.
Context {any : Type}.

(** Successive calls of [enqueueMessage], one per message, with the error of
    each call. *)
Fixpoint enqueueAll (ctx : Context any) (pick_second : bool) (messages : list bytes)
    (s : State any) : outcome (list (option (error any)) * State any) :=
  match messages with
  | [] => mret ([], s)
  | message :: rest =>
      '(err, s1) ← enqueueMessage ctx pick_second message s;
      '(errs, s2) ← enqueueAll ctx pick_second rest s1;
      mret (err :: errs, s2)
  end.

(** A session whose outbox, if it was opened, has not been closed: the state
    of every session held in the active map of a manager. *)
Definition outboxUnclosed (s : State any) : Prop :=
  ∀ ch, sendChan s = Some ch → chan_closed ch = false.

(** No id is both active and closed. *)
Definition disjointSets (m : Manager any) : Prop :=
  ∀ sessionID, sessionID ∈ closedSessions m → activeSessions m !! sessionID = None.

(** The ids a run of operations stores into the active map, in order. *)
Definition createdIDs (ops : list (Op any)) : list string := omap created ops.

(** How the two maps of a manager can differ from those of an earlier one
    when only the ids [new] have been handed out in between. *)
Definition evolves (m : Manager any) (new : gset string) (m' : Manager any) : Prop :=
  closedSessions m ⊆ closedSessions m' ∧
  closedSessions m' ⊆ closedSessions m ∪ dom (activeSessions m) ∪ new ∧
  dom (activeSessions m') ⊆ dom (activeSessions m) ∪ new ∧
  dom (activeSessions m) ⊆ dom (activeSessions m') ∪ closedSessions m'.

End runs.
End session_runs.

(** ** Package server, continued: notifications to every session *)
Module server_call.
Import pkg protocol session server.

Section notifications.
Context {any App : Type} `{!JSON any} (h : Handlers any App).
(** The field [server.capabilities], kept in the part of the server that is
    not spelled out, and the parameter values built by the constructors
    [protocol.NewToolListChangedNotification()] and its two siblings, whose
    file is not among the sources. *)
Context (capabilities : Server any App → ServerCapabilities).
Context (toolListChanged promptListChanged resourceListChanged : any).

(** What the [RangeSessions] callback did for one session: the id and the
    result of [sendMsgWithNotification].  An observation of the run. *)
Definition Attempt : Type := string * option (error any).

(** One call of the callback the list-change senders give to [RangeSessions];
    [errList] is the variable the closure appends to. *)
Definition notifySession (ctx : Context any) (method : Method) (params : option any)
    (acc : list (error any) * Server any App * list Attempt) (sessionID : string)
  : list (error any) * Server any App * list Attempt :=
  let '(errList, server, log) := acc in
  match sendMsgWithNotification h ctx sessionID method params server with
  | (Some err, server) =>
      (errList ++ [fmt_Errorf_w ("sessionID=" +:+ sessionID +:+ ", err: " +:+ Error err) err],
       server, log ++ [(sessionID, Some err)])
  | (None, server) => (errList, server, log ++ [(sessionID, None)])
  end.

(** [RangeSessions] with that callback: it visits the entries present when it
    starts and never stops early (the callback returns true). *)
Definition notifySessions (ctx : Context any) (method : Method) (params : option any)
    (server : Server any App) : option (error any) * Server any App * list Attempt :=
  let '(errList, server, log) :=
    foldl (notifySession ctx method params) ([], server, [])
          (map_to_list (activeSessions (sessionManager server))).*1 in
  (JoinErrors errList, server, log).

(** [sendNotification4ToolListChanges] *)
Definition sendNotification4ToolListChanges (ctx : Context any) (server : Server any App)
  : option (error any) * Server any App * list Attempt :=
  match Tools (capabilities server) with
  | Some tools =>
      if tools_ListChanged tools
      then notifySessions ctx NotificationToolsListChanged (Some toolListChanged) server
      else (Some (Sentinel ErrServerNotSupport), server, [])
  | None => (Some (Sentinel ErrServerNotSupport), server, [])
  end.

(** [sendNotification4PromptListChanges] *)
Definition sendNotification4PromptListChanges (ctx : Context any) (server : Server any App)
  : option (error any) * Server any App * list Attempt :=
  match Prompts (capabilities server) with
  | Some prompts =>
      if prompts_ListChanged prompts
      then notifySessions ctx NotificationPromptsListChanged (Some promptListChanged) server
      else (Some (Sentinel ErrServerNotSupport), server, [])
  | None => (Some (Sentinel ErrServerNotSupport), server, [])
  end.

(** [sendNotification4ResourceListChanges] *)
Definition sendNotification4ResourceListChanges (ctx : Context any)
    (server : Server any App) : option (error any) * Server any App * list Attempt :=
  match Resources (capabilities server) with
  | Some resources =>
      if resources_ListChanged resources
      then notifySessions ctx NotificationResourcesListChanged (Some resourceListChanged)
             server
      else (Some (Sentinel ErrServerNotSupport), server, [])
  | None => (Some (Sentinel ErrServerNotSupport), server, [])
  end.

(** The callback of [SendNotification4ResourcesUpdated]: it reads the
    subscriptions of the entry [RangeSessions] hands to it and skips the
    session when [uri] is not among them. *)
Definition notifySubscriber (ctx : Context any) (uri : string) (notify : any)
    (acc : list (error any) * Server any App * list Attempt) (kv : string * State any)
  : list (error any) * Server any App * list Attempt :=
  if decide (uri ∈ GetSubscribedResources kv.2)
  then notifySession ctx NotificationResourcesUpdated (Some notify) acc kv.1
  else acc.

(** [SendNotification4ResourcesUpdated]; [uri] is [notify.URI]. *)
Definition SendNotification4ResourcesUpdated (ctx : Context any) (uri : string)
    (notify : any) (server : Server any App)
  : option (error any) * Server any App * list Attempt :=
  match Resources (capabilities server) with
  | Some resources =>
      if resources_Subscribe resources then
        let '(errList, server, log) :=
          foldl (notifySubscriber ctx uri notify) ([], server, [])
                (map_to_list (activeSessions (sessionManager server))) in
        (JoinErrors errList, server, log)
      else (Some (Sentinel ErrServerNotSupport), server, [])
  | None => (Some (Sentinel ErrServerNotSupport), server, [])
  end.

End notifications.
End server_call.

(** ** Package transport, continued: POST, GET and [Send] *)
Module transport_http.
Import pkg protocol session transport.

(** The line feed of the event-stream framing. *)
Definition LF : string :=
  String (Ascii.Ascii false true false true false false false false) EmptyString.

(** [fmt.Sprintf("data: %s\n\n", msg)] *)
Definition sseFrame (msg : bytes) : string := "data: " +:+ msg +:+ LF +:+ LF.

(** The frames of a list of messages, one after the other. *)
Definition sseStream (msgs : list bytes) : string :=
  foldl (λ body msg, body +:+ sseFrame msg) "" msgs.

(** [strings.Contains(s, substr)] *)
Definition strings_Contains (s substr : string) : bool :=
  bool_decide (is_Some (String.index 0 substr s)).

Section endpoint.
(** [R] is the state of the receiver the transport hands inbound messages
    to, the server in this program. *)
Context {any R : Type} `{!JSON any}.

(** [t.receiver.Receive(ctx, sessionID, msg)].  The boolean tells whether
    [ctx] carries a [SessionIDForReturn] for the receiver to fill in; the
    string is its [SessionID] field after the call. *)
Context (Receive : Context any → bool → string → bytes → R →
                   outcome (server.ReceiveResult any * string * R)).
(** [io.ReadAll(r.Body)]: the text of the read error, or the bytes. *)
Context (io_ReadAll : Request → string + bytes).

Implicit Types (t : streamableHTTPServerTransport any) (w : ResponseWriter) (r : Request).

(** [Send]; [tctx] is the context [t.ctx] that [Shutdown] cancels.  The
    counter [inFlySend] is raised on entry and lowered on return. *)
Definition Send (tctx ctx : Context any) (pick_second : bool) (sessionID : string)
    (msg : bytes) t : outcome (option (error any) * streamableHTTPServerTransport any) :=
  if ctx_done tctx then mret (ctx_Err tctx, t)
  else
    '(err, m) ← EnqueueMessageForSend ctx pick_second sessionID msg (sessionManager t);
    mret (err, with_sessionManager m t).

(** Successive calls of [Send], one per message. *)
Fixpoint SendAll (tctx ctx : Context any) (pick_second : bool) (sessionID : string)
    (msgs : list bytes) t
  : outcome (list (option (error any)) * streamableHTTPServerTransport any) :=
  match msgs with
  | [] => mret ([], t)
  | msg :: rest =>
      '(err, t1) ← Send tctx ctx pick_second sessionID msg t;
      '(errs, t2) ← SendAll tctx ctx pick_second sessionID rest t1;
      mret (err :: errs, t2)
  end.

(** [handlePost]; [rctx] is [r.Context()]. *)
Definition handlePost t w r (rctx : Context any) (receiver : R)
  : outcome (R * ResponseWriter) :=
  let accept := Header_Get "Accept" (http_Header r) in
  if decide (accept = "") then
    mret (receiver, writeError (any := any) w StatusBadRequest "Missing Accept header")
  else
    match io_ReadAll r with
    | inl text =>
        mret (receiver,
              writeError (any := any) w StatusBadRequest ("Invalid request: " +:+ text))
    | inr bs =>
        let ctx := NewCancelShieldContext rctx in
        let forReturn := match stateMode t with Stateful => true | Stateless => false end in
        '(result, sid, receiver) ←
          Receive ctx forReturn (Header_Get sessionIDHeader (http_Header r)) bs receiver;
        match result with
        | server.RecvErr err =>
            if errors_Is err ErrSessionClosed then
              mret (receiver,
                    writeError (any := any) w StatusNotFound
                      ("Failed to receive: " +:+ Error err))
            else
              mret (receiver,
                    writeError (any := any) w StatusBadRequest
                      ("Failed to receive: " +:+ Error err))
        | server.RecvNone =>
            mret (receiver,
                  WriteHeader StatusAccepted
                    (rw_SetHeader "Content-Type" "application/json" w))
        | server.RecvChan outputMsgCh =>
            if recv_ready outputMsgCh then
              let msg := default "" (recv_chan outputMsgCh).1.1 in
              if decide (msg = "") then
                mret (receiver,
                      writeError (any := any) w StatusInternalServerError
                        "handle request fail")
              else
                let w :=
                  if forReturn && bool_decide (sid ≠ "")
                  then rw_SetHeader sessionIDHeader sid w else w in
                mret (receiver,
                      Write msg
                        (WriteHeader StatusOK
                           (rw_SetHeader "Content-Type" "application/json" w)))
            else Blocks
        end
    end.

(** The [for] loop of [handleGet], one iteration for each element of [picks]
    (the choice of the [select] in [dequeueMessage] at that iteration).  The
    boolean of the result tells whether the loop has returned; false means
    that it is still running when [picks] is used up. *)
Fixpoint handleGet_loop (rctx : Context any) (picks : list bool) (sessionID : string)
    t w : outcome (bool * streamableHTTPServerTransport any * ResponseWriter) :=
  match picks with
  | [] => mret (false, t, w)
  | pick_second :: picks =>
      '(msg, err, m) ← DequeueMessageForSend rctx pick_second sessionID (sessionManager t);
      let t := with_sessionManager m t in
      match err with
      | Some _ => mret (true, t, w)
      | None => handleGet_loop rctx picks sessionID t (Write (sseFrame msg) w)
      end
  end.

(** [handleGet]; [flusher] tells whether the writer implements
    [http.Flusher].  Nothing in the body panics, so the deferred recovery has
    no effect. *)
Definition handleGet t w r (rctx : Context any) (flusher : bool) (picks : list bool)
  : outcome (bool * streamableHTTPServerTransport any * ResponseWriter) :=
  if match stateMode t with Stateless => true | Stateful => false end then
    mret (true, t,
          writeError (any := any) w StatusMethodNotAllowed
            "server is stateless, not support sse connection")
  else if negb (strings_Contains (Header_Get "Accept" (http_Header r)) "text/event-stream")
  then mret (true, t,
             writeError (any := any) w StatusBadRequest "Must accept text/event-stream")
  else
    let w := rw_SetHeader "Connection" "keep-alive"
               (rw_SetHeader "Cache-Control" "no-cache"
                  (rw_SetHeader "Content-Type" "text/event-stream" w)) in
    if negb flusher then
      mret (true, t,
            writeError (any := any) w StatusInternalServerError "Streaming not supported")
    else
      let sessionID := Header_Get sessionIDHeader (http_Header r) in
      if decide (sessionID = "") then
        mret (true, t, writeError (any := any) w StatusBadRequest "Missing Session ID")
      else
        match OpenMessageQueueForSend sessionID (sessionManager t) with
        | (Some err, m) =>
            mret (true, with_sessionManager m t,
                  writeError (any := any) w StatusBadRequest (Error err))
        | (None, m) =>
            handleGet_loop rctx picks sessionID (with_sessionManager m t)
              (WriteHeader StatusOK w)
        end.

(** The receiver is the server's dispatcher, as [server.NewServer] installs
    it with [t.SetReceiver(transport.ServerReceiverF(server.receive))]:
    both return the same channel or error and leave the same server. *)
Definition receiverIsServer {App : Type}
    (Receive' : Context any → bool → string → bytes → server.Server any App →
                outcome (server.ReceiveResult any * string * server.Server any App))
    (h : server.Handlers any App) (now : Time) : Prop :=
  ∀ ctx forReturn sessionID msg sv,
    (x ← Receive' ctx forReturn sessionID msg sv; mret (x.1.1, x.2))
    = (y ← server.receive h ctx now sessionID msg sv; mret (y.1.1, y.1.2)).

End endpoint.
End transport_http.

(** ** Package client, continued: requests from the server *)
Module client_dispatch.
Import pkg pkg_json protocol protocol_json client.

Section requests.
Context {any T CreateMessageRequest : Type} `{!JSON any} (env : Env any T).
(** The result of [protocol.NewPingResult()] as an interface value, the
    decoder of [json.Unmarshal] at [*protocol.CreateMessageRequest] and the
    [CreateMessage] method of the client's sampling handler, a user callback
    that acts on what lies outside the client object. *)
Context (NewPingResult : any).
Context (json_Unmarshal_CreateMessageRequest : bytes → string + CreateMessageRequest).
Context (samplingHandler_CreateMessage :
           Context any → CreateMessageRequest → T → (any + error any) * T).

(** A response handed to [transport.Send], for the record of a run. *)
Record SentResponse : Type := mkSentResponse {
  sentr_response : JSONRPCResponse any;
  sentr_message : bytes;
  sentr_err : option (error any);
}.

(** [handleRequestWithPing] *)
Definition handleRequestWithPing : any + error any := inl NewPingResult.

(** [handleRequestWithCreateMessagesSampling] *)
Definition handleRequestWithCreateMessagesSampling (ctx : Context any) (rawParams : bytes)
    (c : Client any T) : (any + error any) * Client any T :=
  match Sampling (clientCapabilities c) with
  | None => (inr (Sentinel ErrClientNotSupport), c)
  | Some _ =>
      match JSONUnmarshal json_Unmarshal_CreateMessageRequest rawParams with
      | inl err => (inr err, c)
      | inr request =>
          let '(r, w) := samplingHandler_CreateMessage ctx request (world c) in
          (r, with_world w c)
      end
  end.

(** The tail shared by [sendMsgWithResponse] and [sendMsgWithError]: marshal
    the envelope and hand it to the transport. *)
Definition sendResponse (ctx : Context any) (resp : JSONRPCResponse any)
    (c : Client any T)
  : option (error any) * Client any T * list SentResponse :=
  match json_Marshal_response resp with
  | inl text => (Some (errors_New text), c, [])
  | inr message =>
      match transport_Send env ctx message (world c) with
      | (Some err, w) =>
          (Some (fmt_Errorf_w ("sendResponse: transport send: " +:+ Error err) err),
           with_world w c, [mkSentResponse resp message (Some err)])
      | (None, w) => (None, with_world w c, [mkSentResponse resp message None])
      end
  end.

(** [sendMsgWithResponse] *)
Definition sendMsgWithResponse (ctx : Context any) (requestID : RequestID)
    (result : option any) (c : Client any T)
  : option (error any) * Client any T * list SentResponse :=
  if decide (requestID = IDNil) then (Some (errors_New "requestID can't is nil"), c, [])
  else sendResponse ctx (NewJSONRPCSuccessResponse requestID result) c.

(** [sendMsgWithError] *)
Definition sendMsgWithError (ctx : Context any) (requestID : RequestID) (code : Z)
    (msg : string) (c : Client any T)
  : option (error any) * Client any T * list SentResponse :=
  if decide (requestID = IDNil) then (Some (errors_New "requestID can't is nil"), c, [])
  else sendResponse ctx (NewJSONRPCErrorResponse requestID code msg) c.

(** [receiveRequest] *)
Definition receiveRequest (ctx : Context any) (request : JSONRPCRequest any)
    (c : Client any T)
  : option (error any) * Client any T * list SentResponse :=
  let '(r, c) :=
    if decide (req_Method request = Ping) then (handleRequestWithPing, c)
    else if decide (req_Method request = SamplingCreateMessage)
    then handleRequestWithCreateMessagesSampling ctx (req_RawParams request) c
    else (inr (fmt_Errorf_w
                 (sentinel_text ErrMethodNotSupport +:+ ": method=" +:+ req_Method request)
                 (Sentinel ErrMethodNotSupport)), c) in
  match r with
  | inr err =>
      if errors_Is err ErrMethodNotSupport
      then sendMsgWithError ctx (req_ID request) MethodNotFound (Error err) c
      else if errors_Is err ErrRequestInvalid
      then sendMsgWithError ctx (req_ID request) InvalidRequest (Error err) c
      else if errors_Is err ErrJSONUnmarshal
      then sendMsgWithError ctx (req_ID request) ParseError (Error err) c
      else sendMsgWithError ctx (req_ID request) InternalError (Error err) c
  | inl result => sendMsgWithResponse ctx (req_ID request) (Some result) c
  end.

End requests.
End client_dispatch.

(** ** Package protocol, continued: sampling messages *)
Module content_sampling.
Import pkg pkg_json content.

Section decoding.
Context {any : Type} `{!Codec}.
(** [json.Unmarshal] at the anonymous struct of [SamplingMessage.UnmarshalJSON],
    which binds the raw [content] member next to the role. *)
Context (json_Unmarshal_SamplingMessageAux : bytes → string + (bytes * Role)).

Record SamplingMessage : Type := mkSamplingMessage {
  sm_Role : option Role;
  sm_Content : option Content;
}.

(** [SamplingMessage.UnmarshalJSON]: text, image and audio are tried, an
    embedded resource is not. *)
Definition SamplingMessage_UnmarshalJSON (data : bytes) (r : SamplingMessage)
  : SamplingMessage * option (error any) :=
  match JSONUnmarshal json_Unmarshal_SamplingMessageAux data with
  | inl err => (r, Some err)
  | inr (content, role) =>
      let r := mkSamplingMessage (Some role) (sm_Content r) in
      match JSONUnmarshal (any := any) json_Unmarshal_TextContent content with
      | inr textContent =>
          (mkSamplingMessage (sm_Role r) (Some (ContentText textContent)), None)
      | inl _ =>
      match JSONUnmarshal (any := any) json_Unmarshal_ImageContent content with
      | inr imageContent =>
          (mkSamplingMessage (sm_Role r) (Some (ContentImage imageContent)), None)
      | inl _ =>
      match JSONUnmarshal (any := any) json_Unmarshal_AudioContent content with
      | inr audioContent =>
          (mkSamplingMessage (sm_Role r) (Some (ContentAudio audioContent)), None)
      | inl _ => (r, Some (errors_New ("unknown content type, content=" +:+ content)))
      end end end
  end.

End decoding.
End content_sampling.

(** ** Further peers and inputs for the examples *)
Module scenario_more.
Import pkg protocol session.

(** A transport that refuses every message with [ErrSessionClosed]. *)
Definition env_closed : client.Env unit nat := {|
  client.transport_Send := λ _ _ n, (Some (Sentinel ErrSessionClosed), S n);
  client.deliveries := λ n, ([], n);
  client.pick := λ _, false;
  client.Version := "2024-11-05";
  client.SupportedVersion := λ v, bool_decide (v = "2024-11-05");
  client.json_Unmarshal_InitializeResult := λ _,
    inr (mkInitializeResult (mkImplementation "s" "0")
           (mkServerCapabilities None None None) "2024-11-05" "");
  client.box_InitializeRequest := λ _, tt;
  client.box_InitializedNotification := tt;
|}.

(** The JSON library of the examples with an encoder that refuses every
    response, as [json.Marshal] refuses a result that holds a channel, a
    function or a NaN. *)
Definition json_unsupported : JSON unit := {|
  gjson_Exists := scenario.Exists;
  json_Unmarshal_any := scenario.Unmarshal_any;
  json_Unmarshal_requestTemp := scenario.Unmarshal_requestTemp;
  json_Unmarshal_responseTemp := scenario.Unmarshal_responseTemp;
  json_Unmarshal_notificationTemp := scenario.Unmarshal_notificationTemp;
  json_Marshal_request := scenario.Marshal_request;
  json_Marshal_response := λ _, inl "json: unsupported type";
  json_Marshal_notification := scenario.Marshal_notification;
|}.

(** A context whose [Done] channel is closed. *)
Definition context_cancelled : Context unit :=
  mkContext (Some (Sentinel context_Canceled)) None.

(** The receiver of the HTTP examples: the dispatcher of the server of
    [scenario_peers], which assigns no session id for return. *)
Definition Receive (ctx : Context unit) (forReturn : bool) (sessionID : string)
    (msg : bytes) (sv : server.Server unit unit)
  : outcome (server.ReceiveResult unit * string * server.Server unit unit) :=
  y ← server.receive scenario_peers.handlers ctx 5 sessionID msg sv;
  mret (y.1.1, "", y.1.2).

Definition io_ReadAll (r : transport.Request) : string + bytes :=
  inr (transport.http_Body r).

(** A server that has declared every capability. *)
Definition capabilities (_ : server.Server unit unit) : ServerCapabilities :=
  mkServerCapabilities (Some (mkPromptsCapability true))
    (Some (mkResourcesCapability true true)) (Some (mkToolsCapability true)).

(** A server with two sessions; only [S1] has subscribed to the resource
    [file:///a]. *)
Definition subscriber : State unit :=
  mkState 0 None 0 ∅ None None {["file:///a"]} false true false.

Definition server2 : server.Server unit unit :=
  server.mkServer
    (store_state "S1" subscriber
       (CreateSession "S2" 0 (CreateSession "S1" 0 NewManager).2).2)
    false 0 tt.

(** Content decoders in which an array can hold an element of no known
    type. *)
Definition codec : content.Codec := {|
  content.TextContent := bytes;
  content.ImageContent := bytes;
  content.AudioContent := bytes;
  content.EmbeddedResource := bytes;
  content.Role := string;
  content.json_Unmarshal_TextContent := content.scenario_variant "text";
  content.json_Unmarshal_ImageContent := content.scenario_variant "image";
  content.json_Unmarshal_AudioContent := content.scenario_variant "audio";
  content.json_Unmarshal_EmbeddedResource := content.scenario_variant "resource";
  content.json_Unmarshal_CallToolResultAux := λ data,
    if decide (data = "text,bogus,image") then inr (["text"; "bogus"; "image"], true)
    else inl "invalid character";
  content.json_Unmarshal_PromptMessageAux := λ data,
    if decide (data = "user:resource") then inr ("resource", "user")
    else inl "invalid character";
|}.

Definition json_Unmarshal_SamplingMessageAux (data : bytes) : string + (bytes * string) :=
  if decide (data = "user:resource") then inr ("resource", "user")
  else inl "invalid character".

End scenario_more.

(** * Properties *)

(** ** Session manager *)
Section session_properties.
Import pkg protocol session.
Context {any W : Type}
        (detection : string → State any → W → option (error any) * State any * W).
Implicit Types (m : Manager any) (s st : State any) (w : W).

Lemma retired_spec sessionID m :
  retired sessionID m ↔
  IsActiveSession sessionID m = false ∧ IsClosedSession sessionID m = true.
Proof.
  unfold retired, IsActiveSession, IsClosedSession.
  rewrite bool_decide_eq_false, bool_decide_eq_true, <- eq_None_not_Some.
  done.
Qed.

Lemma CloseSession_retires sessionID m m1 :
  is_Some (activeSessions m !! sessionID) →
  CloseSession sessionID m = Returns m1 →
  retired sessionID m1.
Proof.
  intros [st Hst] Hclose. unfold CloseSession in Hclose. rewrite Hst in Hclose.
  destruct (Close st) as [st'| |]; simpl in Hclose; try discriminate.
  injection Hclose as <-. split; simpl.
  - apply lookup_delete_eq.
  - set_solver.
Qed.

Lemma CloseSession_keeps_retired sessionID other m m1 :
  retired sessionID m →
  CloseSession other m = Returns m1 →
  retired sessionID m1.
Proof.
  intros [Hnone Hin] Hclose. unfold CloseSession in Hclose.
  destruct (activeSessions m !! other) as [st|] eqn:Hother.
  - destruct (Close st) as [st'| |]; simpl in Hclose; try discriminate.
    injection Hclose as <-. split; simpl.
    + destruct (decide (other = sessionID)) as [->|Hne].
      * apply lookup_delete_eq.
      * by rewrite lookup_delete_ne.
    + set_solver.
  - injection Hclose as <-. by split.
Qed.

Lemma store_state_keeps_retired sessionID other st m :
  is_Some (activeSessions m !! other) →
  retired sessionID m →
  retired sessionID (store_state other st m).
Proof.
  intros Hother [Hnone Hin]. split; simpl; [|done].
  destruct (decide (other = sessionID)) as [->|Hne].
  - rewrite Hnone in Hother. by destruct Hother.
  - by rewrite lookup_insert_ne.
Qed.

Lemma GetSession_Some sessionID m st :
  GetSession sessionID m = Some st → activeSessions m !! sessionID = Some st.
Proof. unfold GetSession. by case_decide. Qed.

(** A fold of outcome-returning steps keeps what every step keeps. *)
Lemma foldl_outcome_invariant {A B} (P : A → Prop) (f : B → A → outcome A)
    (l : list B) (acc : outcome A) (a' : A) :
  (∀ b a a1, P a → f b a = Returns a1 → P a1) →
  (∀ a, acc = Returns a → P a) →
  foldl (λ acc b, a ← acc; f b a) acc l = Returns a' →
  P a'.
Proof.
  intros Hstep. revert acc. induction l as [|b l IH]; intros acc Hacc Hfold.
  - by apply Hacc.
  - simpl in Hfold. eapply IH; [|exact Hfold].
    intros a Ha. destruct acc as [a0| |]; simpl in Ha; try discriminate.
    eapply Hstep; [|exact Ha]. by apply Hacc.
Qed.

Lemma CloseAllSessions_keeps_retired sessionID m m1 :
  retired sessionID m →
  CloseAllSessions m = Returns m1 →
  retired sessionID m1.
Proof.
  intros Hret Hall. unfold CloseAllSessions in Hall.
  eapply (foldl_outcome_invariant (retired sessionID)
            (λ kv m', CloseSession kv.1 m')); [| |exact Hall].
  - intros kv a a1 Ha Hc. by eapply CloseSession_keeps_retired.
  - intros a [= <-]. done.
Qed.

Lemma store_state_same sessionID (s : State any) (m : Manager any) :
  activeSessions m !! sessionID = Some s → store_state sessionID s m = m.
Proof.
  intros Hs. destruct m as [a c i]. unfold store_state, with_activeSessions. simpl in *.
  f_equal. by apply insert_id.
Qed.

Lemma store_state_twice sessionID (s s' : State any) (m : Manager any) :
  store_state sessionID s (store_state sessionID s' m) = store_state sessionID s m.
Proof.
  destruct m as [a c i]. unfold store_state, with_activeSessions. simpl.
  f_equal. apply insert_insert_eq.
Qed.

(** A call of the callback on a session the manager holds. *)
Lemma probe_active sessionID state st m w :
  activeSessions m !! sessionID = Some st →
  probe detection sessionID state (m, w)
    = ((detection sessionID st w).1.1,
       (store_state sessionID (detection sessionID st w).1.2 m,
        (detection sessionID st w).2)).
Proof.
  intros Hst. unfold probe. rewrite Hst. by destruct (detection sessionID st w) as [[e st'] w'].
Qed.

(** The attempts of the callback leave the manager as it was, or as it was
    but for the state stored under the id of the session they probed. *)
Lemma detectionLoop_shape n sessionID state err m w :
  let r := detectionLoop detection n sessionID state err (m, w) in
  r.2.1 = m
  ∨ ∃ st st', activeSessions m !! sessionID = Some st ∧ r.2.1 = store_state sessionID st' m.
Proof.
  revert err m w. induction n as [|n IH]; intros err m w; [by left|].
  cbn [detectionLoop].
  destruct (activeSessions m !! sessionID) as [st|] eqn:Hst.
  - rewrite (probe_active _ _ _ _ _ Hst).
    destruct (detection sessionID st w) as [[[e|] st1] w1]; simpl.
    + destruct (IH (Some e) (store_state sessionID st1 m) w1) as [Heq|(st2 & st3 & _ & Heq)];
        right; exists st; rewrite Heq.
      * by exists st1.
      * exists st3. by rewrite store_state_twice.
    + right. by exists st, st1.
  - unfold probe. rewrite Hst.
    destruct (detection sessionID state w) as [[[e|] st1] w1]; simpl; [|by left].
    destruct (IH (Some e) m w1) as [Heq|(st2 & st3 & Hst2 & _)]; [by left|].
    rewrite Hst in Hst2. discriminate.
Qed.

Lemma detectionLoop_keeps_retired n sessionID other state err m w :
  retired sessionID m →
  retired sessionID (detectionLoop detection n other state err (m, w)).2.1.
Proof.
  intros Hret.
  destruct (detectionLoop_shape n other state err m w) as [->|(st & st' & Hst & ->)];
    [done|].
  apply store_state_keeps_retired; [by eexists|done].
Qed.

Lemma heartbeatVisit_keeps_retired sessionID now other st m w m1 w1 :
  retired sessionID m →
  heartbeatVisit detection now other st (m, w) = Returns (m1, w1) →
  retired sessionID m1.
Proof.
  intros Hret Hv. unfold heartbeatVisit in Hv.
  destruct (_ && _).
  - destruct (CloseSession other m) as [m'| |] eqn:Hc; simpl in Hv; try discriminate.
    injection Hv as <- <-. by eapply CloseSession_keeps_retired.
  - pose proof (detectionLoop_keeps_retired 3 sessionID other st None m w Hret) as Hloop.
    destruct (detectionLoop detection 3 other st None (m, w)) as [[e|] [m' w']];
      simpl in Hloop.
    + destruct (CloseSession other m') as [m''| |] eqn:Hc; simpl in Hv; try discriminate.
      injection Hv as <- <-. by eapply CloseSession_keeps_retired.
    + by injection Hv as <- <-.
Qed.

Lemma heartbeatTick_keeps_retired sessionID now m w m1 w1 :
  retired sessionID m →
  heartbeatTick detection now (m, w) = Returns (m1, w1) →
  retired sessionID m1.
Proof.
  intros Hret Ht. unfold heartbeatTick in Ht.
  change (retired sessionID (m1, w1).1).
  eapply (foldl_outcome_invariant (λ mw : Manager any * W, retired sessionID mw.1)
            (λ kv mw', heartbeatVisit detection now kv.1 kv.2 mw')); [| |exact Ht].
  - intros kv [a wa] [a1 wa1] Ha Hc. by eapply heartbeatVisit_keeps_retired.
  - intros a [= <-]. done.
Qed.

Lemma step_keeps_retired sessionID op m w m1 w1 :
  created op ≠ Some sessionID →
  retired sessionID m →
  step detection op (m, w) = Returns (m1, w1) →
  retired sessionID m1.
Proof.
  intros Hfresh Hret Hstep. destruct op; simpl in Hstep.
  - injection Hstep as <- <-. destruct Hret as [Hnone Hin]. split; simpl; [|done].
    rewrite lookup_insert_ne; [done|]. intros ->. by apply Hfresh.
  - by injection Hstep as <- <-.
  - injection Hstep as <- <-. unfold OpenMessageQueueForSend.
    destruct (GetSession sessionID0 m) as [st|] eqn:Hget; simpl; [|done].
    apply store_state_keeps_retired; [|done]. by rewrite (GetSession_Some _ _ _ Hget).
  - unfold EnqueueMessageForSend in Hstep.
    destruct (GetSession sessionID0 m) as [st|] eqn:Hget.
    + destruct (enqueueMessage ctx pick_second message st) as [[err st']| |];
        simpl in Hstep; try discriminate.
      injection Hstep as <- <-. simpl.
      apply store_state_keeps_retired; [|done]. by rewrite (GetSession_Some _ _ _ Hget).
    + by injection Hstep as <- <-.
  - unfold DequeueMessageForSend in Hstep.
    destruct (GetSession sessionID0 m) as [st|] eqn:Hget.
    + destruct (dequeueMessage ctx pick_second st) as [[[msg err] st']| |];
        simpl in Hstep; try discriminate.
      injection Hstep as <- <-. simpl.
      apply store_state_keeps_retired; [|done]. by rewrite (GetSession_Some _ _ _ Hget).
    + by injection Hstep as <- <-.
  - injection Hstep as <- <-. unfold UpdateSessionLastActiveAt.
    destruct (activeSessions m !! sessionID0) as [st|] eqn:Hget; [|done].
    apply store_state_keeps_retired; [|done]. by rewrite Hget.
  - destruct (GetSession sessionID0 m) as [st|] eqn:Hget.
    + injection Hstep as <- <-.
      apply store_state_keeps_retired; [|done]. by rewrite (GetSession_Some _ _ _ Hget).
    + by injection Hstep as <- <-.
  - destruct (CloseSession sessionID0 m) as [m'| |] eqn:Hc; simpl in Hstep; try discriminate.
    injection Hstep as <- <-. by eapply CloseSession_keeps_retired.
  - destruct (CloseAllSessions m) as [m'| |] eqn:Hc; simpl in Hstep; try discriminate.
    injection Hstep as <- <-. by eapply CloseAllSessions_keeps_retired.
  - by eapply heartbeatTick_keeps_retired.
Qed.

Lemma run_keeps_retired sessionID ops m w m1 w1 :
  Forall (λ op, created op ≠ Some sessionID) ops →
  retired sessionID m →
  run detection ops (m, w) = Returns (m1, w1) →
  retired sessionID m1.
Proof.
  intros Hfresh. revert m w. induction Hfresh as [|op ops Hop _ IH]; intros m w Hret Hrun.
  - by injection Hrun as <- <-.
  - change (step detection op (m, w) ≫= run detection ops = Returns (m1, w1)) in Hrun.
    destruct (step detection op (m, w)) as [[m' w']| |] eqn:Hstep;
      try discriminate.
    eapply IH; [|exact Hrun]. by eapply step_keeps_retired.
Qed.

(** C4. Once [CloseSession] has returned for an active session id, the id is
    no longer active and is in the closed set, and this stays so after any
    run of manager operations in which [uuid.NewString()] does not hand out
    that id again (the only store into the active map is [CreateSession],
    under the id the generator returns). *)
Theorem CloseSession_is_final sessionID m m1 :
  IsActiveSession sessionID m = true →
  CloseSession sessionID m = Returns m1 →
  (IsActiveSession sessionID m1 = false ∧ IsClosedSession sessionID m1 = true) ∧
  ∀ ops w m2 w2,
    Forall (λ op, created op ≠ Some sessionID) ops →
    run detection ops (m1, w) = Returns (m2, w2) →
    IsActiveSession sessionID m2 = false ∧ IsClosedSession sessionID m2 = true.
Proof.
  intros Hact Hclose. apply bool_decide_eq_true in Hact.
  pose proof (CloseSession_retires _ _ _ Hact Hclose) as Hret.
  split; [by apply retired_spec|].
  intros ops w m2 w2 Hfresh Hrun. apply retired_spec.
  by eapply run_keeps_retired.
Qed.

(** *** The outbox of a closed session *)

Lemma with_sendChan_twice c c' s :
  with_sendChan c (with_sendChan c' s) = with_sendChan c s.
Proof. by destruct s. Qed.

Lemma sendChan_with_sendChan c s : sendChan (with_sendChan c s) = c.
Proof. by destruct s. Qed.

Lemma enqueueMessage_closed (ctx : Context any) pick message s :
  closed s = true →
  enqueueMessage ctx pick message s =
    Returns (Some (errors_New "session already closed"), s).
Proof. intros Hc. unfold enqueueMessage. by rewrite Hc. Qed.

(** With a live context, a closed outbox is never a reason to wait: the queued
    messages come out oldest first and every later call reports the end. *)
Lemma dequeueN_closed_chan (ctx : Context any) pick buf cap k s :
  ctx_Err ctx = None →
  sendChan s = Some (mkChan buf cap true) →
  dequeueN ctx pick (length buf + k) s =
    Returns (((λ msg, (msg, None)) <$> buf)
               ++ replicate k ("", Some (Sentinel ErrSendEOF)),
             with_sendChan (Some (mkChan [] cap true)) s).
Proof.
  intros Hctx. assert (ctx_done ctx = false) as Hdone.
  { unfold ctx_done. rewrite Hctx. apply bool_decide_eq_false. by intros [? ?]. }
  revert s. induction buf as [|msg buf IH]; intros s Hs.
  - simpl. revert s Hs. induction k as [|k IHk]; intros s Hs.
    + simpl. f_equal. f_equal. destruct s; simpl in *. by subst.
    + simpl. unfold dequeueMessage. rewrite Hs, Hdone. simpl.
      rewrite IHk by apply sendChan_with_sendChan.
      simpl. by rewrite with_sendChan_twice.
  - simpl. unfold dequeueMessage. rewrite Hs, Hdone. simpl.
    rewrite IH by apply sendChan_with_sendChan.
    simpl. by rewrite with_sendChan_twice.
Qed.

Lemma Close_opened s ch s' :
  sendChan s = Some ch →
  Close s = Returns s' →
  closed s' = true ∧ sendChan s' = Some (mkChan (chan_buf ch) (chan_cap ch) true).
Proof.
  intros Hs Hclose. unfold Close in Hclose.
  replace (sendChan (with_closed true s)) with (Some ch) in Hclose by (by destruct s).
  unfold close_chan in Hclose. destruct (chan_closed ch); [discriminate|].
  simpl in Hclose. injection Hclose as <-. by destruct s.
Qed.

Lemma Close_unopened s s' :
  sendChan s = None →
  Close s = Returns s' →
  closed s' = true ∧ sendChan s' = None.
Proof.
  intros Hs Hclose. unfold Close in Hclose.
  replace (sendChan (with_closed true s)) with (@None (chan bytes)) in Hclose
    by (by destruct s).
  injection Hclose as <-. by destruct s.
Qed.

Lemma Close_closed s s' : Close s = Returns s' → closed s' = true.
Proof.
  intros Hclose. destruct (sendChan s) as [ch|] eqn:Hs.
  - by destruct (Close_opened _ _ _ Hs Hclose).
  - by destruct (Close_unopened _ _ Hs Hclose).
Qed.

(** On a closed channel the receive of [dequeueMessage] can always proceed,
    so under a completed context the [select] may take either case; when it
    takes [ctx.Done()] the call returns the context's error and the queue is
    as it was. *)
Lemma dequeueMessage_done (ctx : Context any) e s :
  ctx_Err ctx = Some e →
  is_Some (sendChan s) →
  dequeueMessage ctx false s = Returns ("", Some e, s).
Proof.
  intros Hctx [ch Hch]. unfold dequeueMessage. rewrite Hch.
  assert (ctx_done ctx = true) as ->.
  { unfold ctx_done. rewrite Hctx. apply bool_decide_eq_true. by eexists. }
  rewrite Hctx. by destruct (recv_ready ch).
Qed.

(** C5 (amended). On every session state with [closed = true]
    [enqueueMessage] returns an error and queues nothing.  What
    [dequeueMessage] returns once [Close] has returned depends on the
    outbox.  If it had never been opened, every call returns
    [ErrQueueNotOpened], not [ErrSendEOF].  If it had been opened, then
    under a context that has not completed successive calls return the
    messages that were queued at close time, oldest first, and from then on
    [ErrSendEOF]; under a completed context a call may instead return the
    context's error and leave the queue as it is. *)
Theorem closed_outbox_drains_then_EOF s s' :
  Close s = Returns s' →
  closed s' = true ∧
  (∀ s0 (ctx : Context any) pick message,
     closed s0 = true →
     enqueueMessage ctx pick message s0 =
       Returns (Some (errors_New "session already closed"), s0)) ∧
  (sendChan s = None →
   queued s' = [] ∧
   ∀ (ctx : Context any) pick,
     dequeueMessage ctx pick s' = Returns ("", Some (Sentinel ErrQueueNotOpened), s')) ∧
  (∀ ch, sendChan s = Some ch →
     queued s' = chan_buf ch ∧
     (∀ (ctx : Context any) pick k,
        ctx_Err ctx = None →
        ∃ s'',
          dequeueN ctx pick (length (chan_buf ch) + k) s' =
            Returns (((λ msg, (msg, None)) <$> chan_buf ch)
                       ++ replicate k ("", Some (Sentinel ErrSendEOF)), s'')) ∧
     (∀ (ctx : Context any) e,
        ctx_Err ctx = Some e →
        dequeueMessage ctx false s' = Returns ("", Some e, s'))).
Proof.
  intros Hclose. split; [by eapply Close_closed|].
  split; [intros; by apply enqueueMessage_closed|].
  split.
  - intros Hs. destruct (Close_unopened _ _ Hs Hclose) as [_ Hch].
    split; [unfold queued; by rewrite Hch|].
    intros ctx pick. unfold dequeueMessage. by rewrite Hch.
  - intros ch Hs. destruct (Close_opened _ _ _ Hs Hclose) as [_ Hch].
    split; [unfold queued; by rewrite Hch|]. split.
    + intros ctx pick k Hctx. eexists. by apply dequeueN_closed_chan.
    + intros ctx e Hctx. apply dequeueMessage_done; [done|]. rewrite Hch. by eexists.
Qed.

(** *** The heartbeat sweep *)

Lemma Close_returns st :
  (∀ ch, sendChan st = Some ch → chan_closed ch = false) →
  ∃ st', Close st = Returns st'.
Proof.
  intros Hopen. unfold Close.
  replace (sendChan (with_closed true st)) with (sendChan st) by (by destruct st).
  destruct (sendChan st) as [ch|] eqn:Hch; [|by eexists].
  unfold close_chan. rewrite (Hopen ch eq_refl). by eexists.
Qed.

Lemma CloseSession_active_returns sessionID st m :
  activeSessions m !! sessionID = Some st →
  (∀ ch, sendChan st = Some ch → chan_closed ch = false) →
  ∃ m', CloseSession sessionID m = Returns m' ∧ retired sessionID m'.
Proof.
  intros Hst Hopen. destruct (Close_returns st Hopen) as [st' Hst'].
  unfold CloseSession. rewrite Hst, Hst'. eexists. split; [done|].
  split; simpl; [apply lookup_delete_eq | set_solver].
Qed.

Lemma detectionLoop_active n sessionID state err st m w :
  activeSessions m !! sessionID = Some st →
  detectionLoop detection (S n) sessionID state err (m, w)
    = match (detection sessionID st w).1.1 with
      | None =>
          (None, (store_state sessionID (detection sessionID st w).1.2 m,
                  (detection sessionID st w).2))
      | Some e =>
          detectionLoop detection n sessionID state (Some e)
            (store_state sessionID (detection sessionID st w).1.2 m,
             (detection sessionID st w).2)
      end.
Proof.
  intros Hst. cbn [detectionLoop]. rewrite (probe_active _ _ _ _ _ Hst).
  by destruct (detection sessionID st w) as [[[e|] st1] w1].
Qed.

Lemma detectionLoop_three sessionID state st m w :
  activeSessions m !! sessionID = Some st →
  is_Some (detectionLoop detection 3 sessionID state None (m, w)).1 ↔
  three_failures detection sessionID st w.
Proof.
  intros Hst. unfold three_failures. rewrite (detectionLoop_active _ _ _ _ _ _ _ Hst).
  destruct (detection sessionID st w) as [[[e1|] st1] w1]; cbn [fst snd].
  2:{ split; [by intros [? ?] | by intros [[? ?] _]]. }
  rewrite (detectionLoop_active 1 sessionID state (Some e1) st1
             (store_state sessionID st1 m) w1) by (simpl; apply lookup_insert_eq).
  destruct (detection sessionID st1 w1) as [[[e2|] st2] w2]; cbn [fst snd].
  2:{ split; [by intros [? ?] | by intros (_ & [? ?] & _)]. }
  rewrite (detectionLoop_active 0 sessionID state (Some e2) st2
             (store_state sessionID st2 (store_state sessionID st1 m)) w2)
    by (simpl; apply lookup_insert_eq).
  destruct (detection sessionID st2 w2) as [[[e3|] st3] w3]; cbn [fst snd].
  2:{ split; [by intros [? ?] | by intros (_ & _ & [? ?])]. }
  cbn [detectionLoop fst].
  split; [by intros _; repeat split; eexists | by intros _; eexists].
Qed.

(** The session the attempts of the callback leave under the id is one the
    callback returned, or the one that was there. *)
Lemma detectionLoop_session n sessionID state err st m w :
  activeSessions m !! sessionID = Some st →
  (∀ ch, sendChan st = Some ch → chan_closed ch = false) →
  (∀ id st0 w0,
     (∀ ch, sendChan st0 = Some ch → chan_closed ch = false) →
     ∀ ch, sendChan (detection id st0 w0).1.2 = Some ch → chan_closed ch = false) →
  let r := detectionLoop detection n sessionID state err (m, w) in
  ∃ st', activeSessions r.2.1 !! sessionID = Some st' ∧
         r.2.1 = store_state sessionID st' m ∧
         ∀ ch, sendChan st' = Some ch → chan_closed ch = false.
Proof.
  intros Hst Hopen Hkeeps.
  revert err st m w Hst Hopen. induction n as [|n IH]; intros err st m w Hst Hopen.
  - simpl. exists st. split; [done|]. split; [by rewrite store_state_same|done].
  - cbn [detectionLoop]. rewrite (probe_active _ _ _ _ _ Hst).
    pose proof (Hkeeps sessionID st w Hopen) as Hopen1.
    destruct (detection sessionID st w) as [[[e|] st1] w1]; simpl in *.
    + destruct (IH (Some e) st1 (store_state sessionID st1 m) w1) as (st' & Hl & Heq & Ho);
        [simpl; apply lookup_insert_eq|done|].
      exists st'. split; [done|]. split; [|done].
      by rewrite Heq, store_state_twice.
    + exists st1. split; [apply lookup_insert_eq|done].
Qed.

(** C6 (amended). The visit of an active session by one tick of the sweep
    returns, provided the callback never closes the outbox of the session it
    probes, and it closes the session if and only if [maxIdleTime] is
    non-zero and the time since [lastActiveAt] exceeds it, or the detection
    callback fails on three attempts in a row; otherwise the session is left
    active and the manager differs from what it was at most in the state of
    that session, as the callback left it. *)
Theorem heartbeatVisit_closes_iff now sessionID st m w :
  activeSessions m !! sessionID = Some st →
  (∀ ch, sendChan st = Some ch → chan_closed ch = false) →
  (∀ id st0 w0,
     (∀ ch, sendChan st0 = Some ch → chan_closed ch = false) →
     ∀ ch, sendChan (detection id st0 w0).1.2 = Some ch → chan_closed ch = false) →
  ∃ m' w',
    heartbeatVisit detection now sessionID st (m, w) = Returns (m', w') ∧
    (IsActiveSession sessionID m' = false ↔
       (maxIdleTime m ≠ 0 ∧ Time_Sub now (lastActiveAt st) > maxIdleTime m)%Z
       ∨ three_failures detection sessionID st w) ∧
    (IsActiveSession sessionID m' = false → IsClosedSession sessionID m' = true) ∧
    (IsActiveSession sessionID m' = true → ∃ st', m' = store_state sessionID st' m).
Proof.
  intros Hst Hopen Hkeeps.
  destruct (CloseSession_active_returns _ _ _ Hst Hopen) as (mc & Hmc & Hret).
  apply retired_spec in Hret as [Hina Hcl].
  unfold heartbeatVisit.
  destruct (decide (maxIdleTime m ≠ 0%Z ∧
                    (Time_Sub now (lastActiveAt st) > maxIdleTime m)%Z)) as [Hexp|Hnexp].
  - destruct Hexp as [Hnz Hgt].
    rewrite (bool_decide_eq_true_2 _ Hnz), (bool_decide_eq_true_2 _ Hgt). simpl.
    rewrite Hmc. simpl. exists mc, w. split; [done|].
    split; [by split; [left|]|]. split; [done|]. congruence.
  - assert (bool_decide (maxIdleTime m ≠ 0%Z)
            && bool_decide (Time_Sub now (lastActiveAt st) > maxIdleTime m)%Z = false)
      as ->.
    { apply andb_false_iff. rewrite !bool_decide_eq_false.
      destruct (decide (maxIdleTime m ≠ 0%Z)) as [Hnz|Hz]; [right|by left].
      intros Hgt. by apply Hnexp. }
    pose proof (detectionLoop_three sessionID st st m w Hst) as Hloop.
    pose proof (detectionLoop_session 3 sessionID st None st m w Hst Hopen Hkeeps)
      as (st' & Hl & Heq & Hopen').
    destruct (detectionLoop detection 3 sessionID st None (m, w)) as [[e|] [m1 w1]]
      eqn:Hdl; simpl in Hloop, Hl, Heq, Hopen'.
    + destruct (CloseSession_active_returns _ _ _ Hl Hopen') as (mc1 & Hmc1 & Hret1).
      apply retired_spec in Hret1 as [Hina1 Hcl1].
      rewrite Hmc1. simpl. exists mc1, w1. split; [done|].
      split; [split; [intros _; right; apply Hloop; by eexists | done]|].
      split; [done|]. congruence.
    + assert (IsActiveSession sessionID m1 = true) as Hact1.
      { unfold IsActiveSession. apply bool_decide_eq_true. by rewrite Hl. }
      exists m1, w1. split; [done|].
      split; [|split; [congruence|by intros _; exists st']].
      split; [congruence|].
      intros [Hexp|Hfail]; [done|]. apply Hloop in Hfail. by destruct Hfail.
Qed.

End session_properties.

(** Witness of C4: a session is created and closed; a second session is then
    created, the sweep ticks and everything is closed. *)
Lemma CloseSession_is_final_witness :
  let det := (λ (_ : string) (st : session.State unit) (w : unit),
                (@None (pkg.error unit), st, w)) in
  let m := (session.CreateSession (any := unit) "s1" 0 session.NewManager).2 in
  let m1 := session.mkManager (any := unit) ∅ {["s1"]} 0 in
  let ops := [session.OpCreateSession "s2" 5; session.OpHeartbeatTick 70;
              session.OpCloseAllSessions] in
  (session.IsActiveSession "s1" m1 = false ∧ session.IsClosedSession "s1" m1 = true) ∧
  ∀ m2 w2, session.run det ops (m1, ()) = Returns (m2, w2) →
    session.IsActiveSession "s1" m2 = false ∧ session.IsClosedSession "s1" m2 = true.
Proof.
  intros det m m1 ops.
  destruct (CloseSession_is_final det "s1" m m1) as [Hnow Hlater].
  - vm_compute. reflexivity.
  - vm_compute. reflexivity.
  - split; [exact Hnow|]. intros m2 w2 Hrun.
    apply (Hlater ops () m2 w2); [|exact Hrun].
    repeat constructor; discriminate.
Defined.

(** Witness of C5: an outbox holding two messages is closed. *)
Lemma closed_outbox_drains_then_EOF_witness :
  let ch := mkChan ["a"; "b"] 64 false in
  let s := session.with_sendChan (any := unit) (Some ch) (session.NewState 0) in
  let s' := session.with_sendChan (Some (mkChan ["a"; "b"] 64 true))
              (session.with_closed true s) in
  session.closed s' = true ∧
  session.queued s' = ["a"; "b"] ∧
  (∀ (ctx : Context unit) pick message,
     session.enqueueMessage ctx pick message s' =
       Returns (Some (pkg.errors_New "session already closed"), s')) ∧
  (∀ (ctx : Context unit) pick k,
     ctx_Err ctx = None →
     ∃ s'',
       session.dequeueN ctx pick (2 + k) s' =
         Returns ([("a", None); ("b", None)]
                    ++ replicate k ("", Some (pkg.Sentinel pkg.ErrSendEOF)), s'')) ∧
  (∀ (ctx : Context unit) e,
     ctx_Err ctx = Some e →
     session.dequeueMessage ctx false s' = Returns ("", Some e, s')).
Proof.
  intros ch s s'.
  destruct (closed_outbox_drains_then_EOF s s') as (Hc & Henq & _ & Hopened);
    [reflexivity|].
  destruct (Hopened ch) as (Hq & Hdrain & Hdone); [reflexivity|].
  split; [exact Hc|]. split; [exact Hq|].
  split; [intros ctx pick message; by apply Henq|].
  split; [exact Hdrain|exact Hdone].
Defined.

(** Counterexample to C5 as stated: a session closed before its outbox was
    ever opened has [closed = true] and nothing queued, yet [dequeueMessage]
    under a live context returns [ErrQueueNotOpened], not [ErrSendEOF]. *)
Lemma closed_unopened_outbox_is_not_EOF :
  ¬ (∀ (s : session.State unit) (ctx : Context unit) (pick : bool) (message : bytes),
       session.closed s = true →
       (∃ e, session.enqueueMessage ctx pick message s = Returns (Some e, s)) ∧
       (ctx_Err ctx = None →
        ∃ s'', session.dequeueN ctx pick (length (session.queued s) + 1) s =
               Returns (((λ msg, (msg, None)) <$> session.queued s)
                          ++ [("", Some (pkg.Sentinel pkg.ErrSendEOF))], s''))).
Proof.
  intros Hall.
  destruct (Hall (session.with_closed true (session.NewState 0))
                   context_Background false "" eq_refl) as [_ Hdrain].
  destruct (Hdrain eq_refl) as [s'' Hs'']. vm_compute in Hs''. discriminate.
Qed.

(** Witness of C6: a session that is not idle and whose peer answers no
    probe; each probe raises the request counter of the session. *)
Lemma heartbeatVisit_closes_iff_witness :
  let det := (λ (_ : string) (st : session.State unit) (w : unit),
                (Some (pkg.errors_New (any := unit) "no answer"),
                 (session.IncRequestID st).2, w)) in
  let st := session.NewState (any := unit) 0 in
  let m := (session.CreateSession "s1" 0 session.NewManager).2 in
  ∃ m' w',
    session.heartbeatVisit det 60 "s1" st (m, ()) = Returns (m', w') ∧
    (session.IsActiveSession "s1" m' = false ↔
       (session.maxIdleTime m ≠ 0 ∧ Time_Sub 60 (session.lastActiveAt st)
                                     > session.maxIdleTime m)%Z
       ∨ session.three_failures det "s1" st ()) ∧
    (session.IsActiveSession "s1" m' = false → session.IsClosedSession "s1" m' = true) ∧
    (session.IsActiveSession "s1" m' = true → ∃ st', m' = session.store_state "s1" st' m).
Proof.
  intros det st m.
  apply (heartbeatVisit_closes_iff det 60 "s1" st m ()).
  - vm_compute. reflexivity.
  - simpl. discriminate.
  - intros id st0 w0 Hopen ch Hch. apply Hopen. by destruct st0.
Defined.

(** Counterexample to C6 as stated: with a negative [maxIdleTime] the idle
    test of the sweep holds, so a session whose detection succeeds is closed
    although [maxIdleTime] is not positive. *)
Lemma negative_maxIdleTime_closes_session :
  ¬ (∀ (det : string → session.State unit → unit
              → option (pkg.error unit) * session.State unit * unit)
       now sessionID st m w m' w',
       session.activeSessions m !! sessionID = Some st →
       session.heartbeatVisit det now sessionID st (m, w) = Returns (m', w') →
       (session.IsActiveSession sessionID m' = false ↔
          (session.maxIdleTime m > 0 ∧ Time_Sub now (session.lastActiveAt st)
                                        > session.maxIdleTime m)%Z
          ∨ session.three_failures det sessionID st w)).
Proof.
  intros Hall.
  pose (det := λ (_ : string) (st : session.State unit) (w : unit),
                 (@None (pkg.error unit), st, w)).
  pose (m := session.SetMaxIdleTime (-1)
               (session.CreateSession (any := unit) "s1" 0 session.NewManager).2).
  pose (m' := session.mkManager (any := unit) ∅ {["s1"]} (-1)).
  destruct (Hall det 5%Z "s1" (session.NewState 0) m () m' ()) as [Hclosed _].
  - vm_compute. reflexivity.
  - vm_compute. reflexivity.
  - destruct Hclosed as [[Hpos _]|(Hfail & _ & _)].
    + vm_compute. reflexivity.
    + simpl in Hpos. lia.
    + simpl in Hfail. by destruct Hfail.
Qed.

(** ** Streamable-HTTP endpoint: DELETE *)
Section delete_properties.
Import pkg protocol session transport.
Context {any : Type} `{!JSON any}.
Implicit Types (t : streamableHTTPServerTransport any) (w : ResponseWriter) (r : Request).

Lemma CloseSession_unknown sessionID (m : Manager any) :
  IsActiveSession sessionID m = false →
  CloseSession sessionID m = Returns m.
Proof.
  unfold IsActiveSession, CloseSession. rewrite bool_decide_eq_false.
  intros Hna. destruct (activeSessions m !! sessionID) eqn:E; [|done].
  exfalso. apply Hna. by eexists.
Qed.

(** Without the header the handler answers 400 with an error body, and the
    session manager is not touched. *)
Lemma handleDelete_missing_header t r body :
  Header_Get "Mcp-Session-Id" (http_Header r) = "" →
  json_Marshal_response
    (NewJSONRPCErrorResponse (any := any) IDNil InternalError "Missing session ID")
    = inr body →
  ∃ w', handleDelete t newResponseWriter r = Returns (t, w')
        ∧ rw_Status w' = Some StatusBadRequest ∧ rw_Body w' = body.
Proof.
  intros Hempty Hbody. unfold handleDelete. rewrite Hempty. simpl.
  unfold writeError. rewrite Hbody. by eexists.
Qed.

(** C8 (amended). A DELETE whose [Mcp-Session-Id] header names a non-empty,
    unknown session id (neither active nor closed) is answered with status
    200 and leaves the session manager as it was; on a fresh response writer
    the handler sets status 400 only when the header is missing or empty. *)
Theorem handleDelete_unknown_session t r :
  let sessionID := Header_Get "Mcp-Session-Id" (http_Header r) in
  (sessionID ≠ "" →
   IsActiveSession sessionID (sessionManager t) = false →
   IsClosedSession sessionID (sessionManager t) = false →
   ∃ w', handleDelete t newResponseWriter r = Returns (t, w') ∧
         rw_Status w' = Some StatusOK ∧ rw_Body w' = "") ∧
  (∀ t' w', handleDelete t newResponseWriter r = Returns (t', w') →
            rw_Status w' = Some StatusBadRequest → sessionID = "").
Proof.
  intros sessionID. split.
  - intros Hne Hna _. unfold handleDelete. fold sessionID.
    destruct (decide (sessionID = "")) as [|_]; [done|].
    rewrite (CloseSession_unknown _ _ Hna). destruct t. simpl.
    eexists. split; [reflexivity|done].
  - intros t' w' Hd H400. unfold handleDelete in Hd. fold sessionID in Hd.
    destruct (decide (sessionID = "")) as [|Hne]; [done|].
    destruct (CloseSession sessionID (sessionManager t)); simpl in Hd; try discriminate.
    injection Hd as <- <-. simpl in H400. discriminate.
Qed.

End delete_properties.

(** A DELETE request naming a session the manager has never seen. *)
Lemma handleDelete_unknown_session_witness :
  let t := transport.mkTransport (any := unit) transport.Stateful "/mcp" session.NewManager in
  let r := transport.mkHTTPRequest "DELETE" {["Mcp-Session-Id" := "no-such-session"]} "" in
  ∃ w', transport.handleDelete t transport.newResponseWriter r = Returns (t, w') ∧
        transport.rw_Status w' = Some transport.StatusOK ∧ transport.rw_Body w' = "".
Proof.
  intros t r.
  apply (handleDelete_unknown_session t r); [discriminate | reflexivity | reflexivity].
Defined.

(** Counterexample to C8 as stated: the DELETE of an unknown session id is
    answered with 200, not 400. *)
Lemma delete_unknown_session_is_not_400 :
  ¬ (∀ (t : transport.streamableHTTPServerTransport unit) (r : transport.Request),
       let sessionID := transport.Header_Get "Mcp-Session-Id" (transport.http_Header r) in
       session.IsActiveSession sessionID (transport.sessionManager t) = false →
       session.IsClosedSession sessionID (transport.sessionManager t) = false →
       ∃ t' w', transport.handleDelete t transport.newResponseWriter r = Returns (t', w') ∧
                transport.rw_Status w' = Some transport.StatusBadRequest).
Proof.
  intros Hall.
  destruct (Hall (transport.mkTransport transport.Stateful "/mcp" session.NewManager)
              (transport.mkHTTPRequest "DELETE" {["Mcp-Session-Id" := "no-such-session"]} ""))
    as (t' & w' & Hd & H400); [reflexivity | reflexivity |].
  vm_compute in Hd. injection Hd as <- <-. discriminate.
Qed.

(** ** Server dispatch *)
Section server_properties.
Import pkg pkg_json protocol protocol_json session server.
Context {any App : Type} `{!JSON any} (h : Handlers any App).
Implicit Types (server : Server any App) (ctx : Context any).

(** [pkg.JSONUnmarshal(msg, &v)] at the three envelope types. *)
Local Abbreviation unmarshalRequest :=
  (JSONUnmarshal (any := any) (json_Unmarshal_via JSONRPCRequest_UnmarshalJSON)).
Local Abbreviation unmarshalResponse :=
  (JSONUnmarshal (any := any) (json_Unmarshal_via JSONRPCResponse_UnmarshalJSON)).
Local Abbreviation unmarshalNotification :=
  (JSONUnmarshal (any := any) (json_Unmarshal_via JSONRPCNotification_UnmarshalJSON)).

(** An error chain ends in at most one sentinel. *)
Lemma errors_Is_functional (err : error any) s1 s2 :
  errors_Is err s1 = true → errors_Is err s2 = true → s1 = s2.
Proof.
  induction err as [s| |text inner IH|]; simpl; try discriminate.
  - rewrite !bool_decide_eq_true. congruence.
  - exact IH.
Qed.

Lemma errorCode_spec (err : error any) :
  (errors_Is err ErrMethodNotSupport = true → errorCode err = (-32601)%Z) ∧
  (errors_Is err ErrRequestInvalid = true → errorCode err = (-32600)%Z) ∧
  (errors_Is err ErrJSONUnmarshal = true → errorCode err = (-32700)%Z) ∧
  (errors_Is err ErrMethodNotSupport = false →
   errors_Is err ErrRequestInvalid = false →
   errors_Is err ErrJSONUnmarshal = false → errorCode err = (-32603)%Z).
Proof.
  unfold errorCode. repeat split.
  - by intros ->.
  - intros H2. destruct (errors_Is err ErrMethodNotSupport) eqn:H1.
    + by pose proof (errors_Is_functional _ _ _ H1 H2).
    + by rewrite H2.
  - intros H3. destruct (errors_Is err ErrMethodNotSupport) eqn:H1.
    + by pose proof (errors_Is_functional _ _ _ H1 H3).
    + destruct (errors_Is err ErrRequestInvalid) eqn:H2.
      * by pose proof (errors_Is_functional _ _ _ H2 H3).
      * by rewrite H3.
  - by intros -> -> ->.
Qed.

(** The method [switch] hands each method of the table to its handler. *)
Lemma dispatchRequest_table ctx sessionID request server :
  let raw := req_RawParams request in
  let run (r : (any + error any) * Server any App) :=
    dispatchRequest h ctx sessionID request server
      = (r, [HandlerCalled (req_Method request)]) in
  (req_Method request = Ping → run (handleRequestWithPing h server)) ∧
  (req_Method request = Initialize →
   run (handleRequestWithInitialize h ctx sessionID raw server)) ∧
  (req_Method request = PromptsList → run (handleRequestWithListPrompts h raw server)) ∧
  (req_Method request = PromptsGet → run (handleRequestWithGetPrompt h ctx raw server)) ∧
  (req_Method request = ResourcesList →
   run (handleRequestWithListResources h raw server)) ∧
  (req_Method request = ResourceListTemplates →
   run (handleRequestWithListResourceTemplates h raw server)) ∧
  (req_Method request = ResourcesRead →
   run (handleRequestWithReadResource h ctx raw server)) ∧
  (req_Method request = ResourcesSubscribe →
   run (handleRequestWithSubscribeResourceChange h sessionID raw server)) ∧
  (req_Method request = ResourcesUnsubscribe →
   run (handleRequestWithUnSubscribeResourceChange h sessionID raw server)) ∧
  (req_Method request = ToolsList → run (handleRequestWithListTools h raw server)) ∧
  (req_Method request = ToolsCall → run (handleRequestWithCallTool h ctx raw server)).
Proof.
  intros raw run. subst run raw. unfold dispatchRequest.
  repeat split; intros ->; reflexivity.
Qed.

(** A method outside the dispatch table is answered with "method not found"
    and no handler runs. *)
Lemma dispatchRequest_unknown_method ctx sessionID request server :
  req_Method request ∉
    [Ping; Initialize; PromptsList; PromptsGet; ResourcesList; ResourceListTemplates;
     ResourcesRead; ResourcesSubscribe; ResourcesUnsubscribe; ToolsList; ToolsCall] →
  ∃ err, dispatchRequest h ctx sessionID request server = (inr err, server, [])
         ∧ errorCode err = MethodNotFound.
Proof.
  intros Hnot. unfold dispatchRequest.
  repeat (case_decide as Heq; [exfalso; apply Hnot; rewrite Heq; set_solver|clear Heq]).
  by eexists.
Qed.

(** Whatever the method [switch] returns, [receiveRequest] wraps it in one
    envelope: the events and the server are those of the switch, the
    envelope carries the id of the request, and it is the success envelope
    around the result or the error envelope with the code of the error. *)
Lemma receiveRequest_wraps ctx now sessionID request server r events :
  dispatchRequest h (setSessionIDToCtx ctx sessionID) sessionID request
    (if decide (req_Method request ≠ Ping)
     then server.with_sessionManager
            (UpdateSessionLastActiveAt now sessionID (server.sessionManager server)) server
     else server) = (r, events) →
  (receiveRequest h ctx now sessionID request server).2 = events ∧
  (receiveRequest h ctx now sessionID request server).1.2 = r.2 ∧
  resp_JSONRPC (receiveRequest h ctx now sessionID request server).1.1 = "2.0" ∧
  resp_ID (receiveRequest h ctx now sessionID request server).1.1 = req_ID request ∧
  match r.1 with
  | inl result =>
      resp_Result (receiveRequest h ctx now sessionID request server).1.1 = Some result ∧
      resp_Error (receiveRequest h ctx now sessionID request server).1.1 = None
  | inr err =>
      resp_Result (receiveRequest h ctx now sessionID request server).1.1 = None ∧
      ∃ e, resp_Error (receiveRequest h ctx now sessionID request server).1.1 = Some e ∧
        err_Message e = Error err ∧
        (errors_Is err ErrMethodNotSupport = true → err_Code e = (-32601)%Z) ∧
        (errors_Is err ErrRequestInvalid = true → err_Code e = (-32600)%Z) ∧
        (errors_Is err ErrJSONUnmarshal = true → err_Code e = (-32700)%Z) ∧
        (errors_Is err ErrMethodNotSupport = false →
         errors_Is err ErrRequestInvalid = false →
         errors_Is err ErrJSONUnmarshal = false → err_Code e = (-32603)%Z)
  end.
Proof.
  intros Hd. unfold receiveRequest. rewrite Hd. destruct r as [[result|err] server1]; simpl.
  - done.
  - repeat split. eexists. split; [done|]. split; [done|]. apply errorCode_spec.
Qed.

(** C7 (amended). [receiveRequest] refreshes the session (for every method
    but [ping]) and hands the request to the handler of its method; a
    method outside the table gets no handler and the error
    [ErrMethodNotSupport].  It returns one response envelope, built from
    what that handler returned: it carries the id of the request; it is the
    success envelope around the handler's result when the handler returned
    no error, and otherwise an error envelope whose code is -32601 for
    [ErrMethodNotSupport], -32600 for [ErrRequestInvalid], -32700 for
    [ErrJSONUnmarshal] and -32603 for every other error; the server is as
    the handler left it.  The handler task closes the reply channel after
    putting that one envelope on it, marshalled, if [json.Marshal] accepts
    it, and after putting nothing on it if [json.Marshal] fails. *)
Theorem receiveRequest_one_response ctx now sessionID request server :
  let ctx' := setSessionIDToCtx ctx sessionID in
  let raw := req_RawParams request in
  let server0 :=
    if decide (req_Method request ≠ Ping)
    then server.with_sessionManager
           (UpdateSessionLastActiveAt now sessionID (server.sessionManager server)) server
    else server in
  let out := receiveRequest h ctx now sessionID request server in
  let resp := out.1.1 in
  let wraps (r : (any + error any) * Server any App) : Prop :=
    out.1.2 = r.2 ∧
    resp_JSONRPC resp = "2.0" ∧
    resp_ID resp = req_ID request ∧
    match r.1 with
    | inl result => resp_Result resp = Some result ∧ resp_Error resp = None
    | inr err =>
        resp_Result resp = None ∧
        ∃ e, resp_Error resp = Some e ∧ err_Message e = Error err ∧
          (errors_Is err ErrMethodNotSupport = true → err_Code e = (-32601)%Z) ∧
          (errors_Is err ErrRequestInvalid = true → err_Code e = (-32600)%Z) ∧
          (errors_Is err ErrJSONUnmarshal = true → err_Code e = (-32700)%Z) ∧
          (errors_Is err ErrMethodNotSupport = false →
           errors_Is err ErrRequestInvalid = false →
           errors_Is err ErrJSONUnmarshal = false → err_Code e = (-32603)%Z)
    end in
  let answers (r : (any + error any) * Server any App) : Prop :=
    out.2 = [HandlerCalled (req_Method request)] ∧ wraps r in
  (req_Method request = Ping → server0 = server ∧ answers (handleRequestWithPing h server)) ∧
  (req_Method request = Initialize →
   answers (handleRequestWithInitialize h ctx' sessionID raw server0)) ∧
  (req_Method request = PromptsList → answers (handleRequestWithListPrompts h raw server0)) ∧
  (req_Method request = PromptsGet → answers (handleRequestWithGetPrompt h ctx' raw server0)) ∧
  (req_Method request = ResourcesList →
   answers (handleRequestWithListResources h raw server0)) ∧
  (req_Method request = ResourceListTemplates →
   answers (handleRequestWithListResourceTemplates h raw server0)) ∧
  (req_Method request = ResourcesRead →
   answers (handleRequestWithReadResource h ctx' raw server0)) ∧
  (req_Method request = ResourcesSubscribe →
   answers (handleRequestWithSubscribeResourceChange h sessionID raw server0)) ∧
  (req_Method request = ResourcesUnsubscribe →
   answers (handleRequestWithUnSubscribeResourceChange h sessionID raw server0)) ∧
  (req_Method request = ToolsList → answers (handleRequestWithListTools h raw server0)) ∧
  (req_Method request = ToolsCall → answers (handleRequestWithCallTool h ctx' raw server0)) ∧
  (req_Method request ∉
     [Ping; Initialize; PromptsList; PromptsGet; ResourcesList; ResourceListTemplates;
      ResourcesRead; ResourcesSubscribe; ResourcesUnsubscribe; ToolsList; ToolsCall] →
   out.2 = [] ∧
   ∃ err, errors_Is err ErrMethodNotSupport = true ∧ wraps (inr err, server0)) ∧
  let ch := (handlerTask h ctx now sessionID request server).1.1 in
  chan_closed ch = true ∧
  (∀ message, json_Marshal_response resp = inr message → chan_buf ch = [message]) ∧
  (∀ text, json_Marshal_response resp = inl text → chan_buf ch = []).
Proof.
  intros ctx' raw server0 out resp wraps answers.
  pose proof (dispatchRequest_table ctx' sessionID request server0) as Htable.
  cbv zeta in Htable.
  destruct Htable as (T1 & T2 & T3 & T4 & T5 & T6 & T7 & T8 & T9 & T10 & T11).
  assert (∀ r, dispatchRequest h ctx' sessionID request server0
                 = (r, [HandlerCalled (req_Method request)]) → answers r) as Hanswers.
  { intros r Hd. destruct (receiveRequest_wraps ctx now sessionID request server r _ Hd)
      as (He & Hs & Hv & Hi & Hr). by repeat split. }
  split.
  { intros Hm. assert (server0 = server) as Hsame.
    { subst server0. rewrite Hm. by rewrite decide_False by (by intros ?). }
    split; [done|]. specialize (T1 Hm). clearbody server0. subst server0.
    by apply Hanswers. }
  split; [intros Hm; apply Hanswers; by apply T2|].
  split; [intros Hm; apply Hanswers; by apply T3|].
  split; [intros Hm; apply Hanswers; by apply T4|].
  split; [intros Hm; apply Hanswers; by apply T5|].
  split; [intros Hm; apply Hanswers; by apply T6|].
  split; [intros Hm; apply Hanswers; by apply T7|].
  split; [intros Hm; apply Hanswers; by apply T8|].
  split; [intros Hm; apply Hanswers; by apply T9|].
  split; [intros Hm; apply Hanswers; by apply T10|].
  split; [intros Hm; apply Hanswers; by apply T11|].
  split.
  { intros Hnot.
    destruct (dispatchRequest_unknown_method ctx' sessionID request server0 Hnot)
      as (err & Hd & Hcode).
    destruct (receiveRequest_wraps ctx now sessionID request server _ _ Hd)
      as (He & Hs & Hv & Hi & Hr).
    split; [exact He|]. exists err. split; [|by split_and!].
    unfold dispatchRequest in Hd.
    repeat (case_decide as Heq; [exfalso; apply Hnot; rewrite Heq; clear; set_solver|clear Heq]).
    by injection Hd as <-. }
  intros ch. subst ch resp out. unfold handlerTask.
  destruct (receiveRequest h ctx now sessionID request server) as [[resp' server1] events].
  simpl. destruct (json_Marshal_response resp') as [text|message]; simpl.
  - split; [done|]. split; [intros ? [=]|done].
  - split; [done|]. split; [by intros ? [= ->]|intros ? [=]].
Qed.

(** *** Classification of inbound frames (server) *)

Lemma frameKind_cases (msg : bytes) :
  (frameKind msg = Notification ↔ gjson_Exists msg "id" = false) ∧
  (frameKind msg = Response ↔
     gjson_Exists msg "id" = true ∧ gjson_Exists msg "method" = false) ∧
  (frameKind msg = Request ↔
     gjson_Exists msg "id" = true ∧ gjson_Exists msg "method" = true).
Proof.
  unfold frameKind.
  destruct (gjson_Exists msg "id"), (gjson_Exists msg "method"); simpl;
    repeat split; intros; try done; by destruct_and?.
Qed.

Lemma dispatched_receiveNotify sessionID notify server :
  dispatched (receiveNotify h sessionID notify server).2 = [].
Proof.
  unfold receiveNotify.
  destruct (if decide (sessionID ≠ "") then _ else _); [done|].
  case_decide; [|done].
  by destruct (handleNotifyWithInitialized h _ _ _).
Qed.

Lemma dispatched_dispatchRequest ctx sessionID request server :
  dispatched (dispatchRequest h ctx sessionID request server).2 = [].
Proof. unfold dispatchRequest. repeat case_decide; done. Qed.

Lemma dispatched_handlerTask ctx now sessionID request server :
  dispatched (handlerTask h ctx now sessionID request server).2 = [].
Proof.
  unfold handlerTask, receiveRequest.
  match goal with
  | |- context [dispatchRequest h ?c ?s ?r ?sv] =>
      pose proof (dispatched_dispatchRequest c s r sv) as Hd;
      destruct (dispatchRequest h c s r sv) as [[[result|err] server1] events]
  end; simpl in *; by destruct (json_Marshal_response _).
Qed.

(** Every run of the server's [receive] enters at most one of the three
    branches, and only the one the shape of the frame selects. *)
Lemma server_receive_classifies ctx now sessionID msg server res server' events :
  receive h ctx now sessionID msg server = Returns (res, server', events) →
  dispatched events = [] ∨ dispatched events = [frameKind msg].
Proof.
  unfold receive, frameKind. intros Hr.
  destruct (bool_decide (sessionID ≠ "") && _).
  { destruct (IsClosedSession _ _); injection Hr as <- <- <-; by left. }
  destruct (gjson_Exists msg "id"); simpl in *.
  2:{ destruct (JSONUnmarshal _ msg) as [err|notify].
      { injection Hr as <- <- <-. by left. }
      pose proof (dispatched_receiveNotify sessionID notify server) as Hd.
      destruct (receiveNotify h sessionID notify server) as [[[e|] sv] evs];
        injection Hr as <- <- <-; right; simpl in *; by rewrite Hd. }
  destruct (gjson_Exists msg "method"); simpl in *.
  2:{ destruct (JSONUnmarshal _ msg) as [err|resp].
      { injection Hr as <- <- <-. by left. }
      destruct (receiveResponse sessionID resp server) as [[[e|] sv]| |];
        simpl in Hr; try discriminate; injection Hr as <- <- <-; by right. }
  destruct (JSONUnmarshal _ msg) as [err|req].
  { injection Hr as <- <- <-. by left. }
  destruct (negb (IsValid req)).
  { injection Hr as <- <- <-. by left. }
  destruct (if bool_decide (sessionID ≠ "") && _ && _ then _ else _).
  { injection Hr as <- <- <-. by left. }
  destruct (inShutdown _).
  { injection Hr as <- <- <-. by left. }
  match type of Hr with
  | context [handlerTask h ?c ?n ?s ?r ?sv] =>
      pose proof (dispatched_handlerTask c n s r sv) as Hd;
      destruct (handlerTask h c n s r sv) as [[ch sv'] evs]
  end.
  injection Hr as <- <- <-. right. simpl in *. by rewrite Hd.
Qed.

(** A frame that passes the session check and decodes in its shape does enter
    its branch. *)
Lemma server_receive_dispatches ctx now sessionID msg server :
  sessionID = "" ∨ IsActiveSession sessionID (server.sessionManager server) = true →
  match frameKind msg with
  | Notification =>
      ∀ notify,
        unmarshalNotification msg = inr notify →
        ∃ res server' events,
          receive h ctx now sessionID msg server = Returns (res, server', events)
          ∧ dispatched events = [Notification]
  | Response =>
      ∀ resp r,
        unmarshalResponse msg = inr resp →
        receiveResponse sessionID resp server = Returns r →
        ∃ res,
          receive h ctx now sessionID msg server = Returns (res, r.2, [Dispatched Response])
  | Request =>
      ∀ req,
        unmarshalRequest msg = inr req →
        IsValid req = true →
        (sessionID = "" ∨ req_Method req = Initialize ∨ req_Method req = Ping ∨
         ∃ s, GetSession sessionID (server.sessionManager server) = Some s
              ∧ GetReady s = true) →
        inShutdown server = false →
        ∃ ch server' events,
          receive h ctx now sessionID msg server = Returns (RecvChan ch, server', events)
          ∧ dispatched events = [Request]
  end.
Proof.
  intros Hgate.
  assert (bool_decide (sessionID ≠ "")
          && negb (IsActiveSession sessionID (server.sessionManager server)) = false)
    as Hcheck.
  { destruct Hgate as [ -> | -> ]; [|by rewrite andb_false_r].
    by rewrite bool_decide_eq_false_2 by (by intros ?). }
  unfold frameKind, receive. rewrite Hcheck.
  destruct (gjson_Exists msg "id"); simpl.
  2:{ intros notify ->.
      pose proof (dispatched_receiveNotify sessionID notify server) as Hd.
      destruct (receiveNotify h sessionID notify server) as [[[e|] sv] evs];
        do 3 eexists; (split; [done|]); simpl in *; by rewrite Hd. }
  destruct (gjson_Exists msg "method"); simpl.
  2:{ intros resp [[e|] sv] -> ->; simpl; by eexists. }
  intros req -> -> Hready Hshut. simpl.
  assert ((if bool_decide (sessionID ≠ "") && bool_decide (req_Method req ≠ Initialize)
              && bool_decide (req_Method req ≠ Ping)
           then match GetSession sessionID (server.sessionManager server) with
                | Some s => if negb (GetReady s)
                            then Some (Sentinel ErrSessionHasNotInitialized) else None
                | None => Some (Sentinel ErrLackSession)
                end
           else None) = (None : option (error any))) as ->.
  { destruct Hready as [ -> | [ -> | [ -> | (s & -> & ->)]]].
    - by rewrite bool_decide_eq_false_2 by (by intros ?).
    - rewrite (bool_decide_eq_false_2 (Initialize ≠ Initialize)) by (by intros ?).
      by rewrite andb_false_r.
    - rewrite (bool_decide_eq_false_2 (Ping ≠ Ping)) by (by intros ?).
      by rewrite andb_false_r.
    - by destruct (_ && _ && _). }
  simpl. rewrite Hshut.
  match goal with
  | |- context [handlerTask h ?c ?n ?s ?r ?sv] =>
      pose proof (dispatched_handlerTask c n s r sv) as Hd;
      destruct (handlerTask h c n s r sv) as [[ch sv'] evs]
  end.
  do 3 eexists. split; [done|]. simpl in *. by rewrite Hd.
Qed.

(** *** The readiness gate *)

(** C2 (amended). On a frame carrying the id of an active session that is
    not ready, a request that decodes as a valid request whose method is
    neither [initialize] nor [ping], and a notification whose method is not
    [notifications/initialized], is rejected with
    [ErrSessionHasNotInitialized]: the server is left as it was and no
    handler is invoked.  Once the session is ready only the request is
    admitted: it is handed to its handler task (unless the server is
    shutting down).  The notification passes the readiness check and is
    then refused all the same, by the method switch of [receiveNotify],
    with an error that wraps [ErrMethodNotSupport] and not
    [ErrSessionHasNotInitialized]; the server is left as it was. *)
Theorem readiness_gate ctx now sessionID msg server s :
  sessionID ≠ "" →
  activeSessions (server.sessionManager server) !! sessionID = Some s →
  (∀ req,
     frameKind msg = Request →
     unmarshalRequest msg = inr req →
     IsValid req = true →
     req_Method req ≠ Initialize → req_Method req ≠ Ping →
     (ready s = false →
      receive h ctx now sessionID msg server
        = Returns (RecvErr (Sentinel ErrSessionHasNotInitialized), server, [])) ∧
     (ready s = true → inShutdown server = false →
      ∃ ch server' events,
        receive h ctx now sessionID msg server
          = Returns (RecvChan ch, server', Dispatched Request :: events)
        ∧ (ch, server', events)
          = handlerTask h (NewCancelShieldContext ctx) now sessionID req
              (with_inFlyRequest (inFlyRequest server + 1) server))) ∧
  (∀ notify,
     frameKind msg = Notification →
     unmarshalNotification msg = inr notify →
     notif_Method notify ≠ NotificationInitialized →
     (ready s = false →
      receive h ctx now sessionID msg server
        = Returns (RecvErr (Sentinel ErrSessionHasNotInitialized), server,
                   [Dispatched Notification])) ∧
     (ready s = true →
      ∃ err,
        receive h ctx now sessionID msg server
          = Returns (RecvErr err, server, [Dispatched Notification])
        ∧ errors_Is err ErrSessionHasNotInitialized = false
        ∧ errors_Is err ErrMethodNotSupport = true)).
Proof.
  intros Hsid Hs.
  assert (IsActiveSession sessionID (server.sessionManager server) = true) as Hact.
  { unfold IsActiveSession. apply bool_decide_eq_true. by rewrite Hs. }
  assert (GetSession sessionID (server.sessionManager server) = Some s) as Hget.
  { unfold GetSession. by case_decide. }
  split.
  - intros req Hkind Hdec Hvalid Hinit Hping.
    apply frameKind_cases in Hkind as [Hid Hmethod].
    unfold receive. rewrite Hact, andb_false_r, Hid, Hmethod, Hdec, Hvalid. simpl.
    rewrite !bool_decide_eq_true_2 by done. simpl. rewrite Hget. unfold GetReady.
    split.
    + by intros ->.
    + intros -> Hshut. simpl. rewrite Hshut.
      destruct (handlerTask h _ _ _ _ _) as [[ch sv'] evs]. by do 3 eexists.
  - intros notify Hkind Hdec Hmethod.
    apply frameKind_cases in Hkind as Hid.
    unfold receive. rewrite Hact, andb_false_r, Hid, Hdec. simpl.
    unfold receiveNotify. rewrite decide_True by done. rewrite Hget. unfold GetReady.
    rewrite bool_decide_eq_true_2 by done. simpl.
    split.
    + by intros ->.
    + intros ->. simpl. rewrite decide_False by done. by eexists.
Qed.

(** *** Reply slots (server) *)

Lemma replySlot_lookup sessionID key server s :
  sessionID ≠ "" →
  activeSessions (server.sessionManager server) !! sessionID = Some s →
  replySlot sessionID key server = reqID2respChan s !! key.
Proof.
  intros Hsid Hs. unfold replySlot, GetSession. rewrite decide_False by done.
  by rewrite Hs.
Qed.

(** [callClient] registers an empty slot of capacity one under the id it
    allocates. *)
Lemma callClient_register_slot sessionID server requestID server1 :
  callClient_register sessionID server = inr (requestID, server1) →
  replySlot sessionID requestID server1 = Some (make_chan 1).
Proof.
  unfold callClient_register, replySlot.
  destruct (GetSession sessionID (server.sessionManager server)) as [s|] eqn:Hget;
    [|discriminate].
  intros [= <- <-]. unfold GetSession in *. case_decide; [discriminate|].
  simpl. rewrite lookup_insert_eq. simpl. by rewrite lookup_insert_eq.
Qed.

(** The first response delivered to a fresh slot is stored in it; a second
    delivery under the same id is refused as a duplicate and changes
    nothing. *)
Lemma server_slot_single_shot sessionID key server r1 r2 :
  replySlot sessionID key server = Some (make_chan 1) →
  fmt_Sprint (resp_ID r1) = key →
  fmt_Sprint (resp_ID r2) = key →
  ∃ server1,
    receiveResponse sessionID r1 server = Returns (None, server1) ∧
    replySlot sessionID key server1 = Some (mkChan [r1] 1 false) ∧
    ∃ err,
      receiveResponse sessionID r2 server1 = Returns (Some err, server1) ∧
      errors_Is err ErrDuplicateResponseReceived = true.
Proof.
  unfold replySlot. intros Hslot H1 H2.
  destruct (GetSession sessionID (server.sessionManager server)) as [s|] eqn:Hget;
    [|discriminate].
  simpl in Hslot.
  assert (sessionID ≠ "") as Hsid.
  { intros ->. unfold GetSession in Hget. by case_decide. }
  eexists. split.
  - unfold receiveResponse. rewrite Hget, H1, Hslot. simpl. reflexivity.
  - assert (∀ (s' : State any) m,
              GetSession sessionID (store_state sessionID s' m) = Some s') as Hget'.
    { intros s' m. unfold GetSession. rewrite decide_False by done.
      simpl. apply lookup_insert_eq. }
    split.
    + simpl. rewrite Hget'. simpl. apply lookup_insert_eq.
    + eexists. unfold receiveResponse. simpl. rewrite Hget', H2. simpl.
      rewrite lookup_insert_eq. simpl. done.
Qed.

Lemma GetSession_store_state sessionID (s' : State any) (m : Manager any) :
  sessionID ≠ "" → GetSession sessionID (store_state sessionID s' m) = Some s'.
Proof.
  intros Hsid. unfold GetSession. rewrite decide_False by done.
  simpl. apply lookup_insert_eq.
Qed.

Lemma GetSession_nonempty sessionID (m : Manager any) s :
  GetSession sessionID m = Some s → sessionID ≠ "".
Proof. intros Hget ->. unfold GetSession in Hget. by case_decide. Qed.

(** The receive of [callClient] followed by its deferred [Remove] is what
    [callClient_await] does in one step: the same response is taken and the
    same server is left. *)
Lemma callClient_receive_then_remove sessionID key server response server2 :
  callClient_receive sessionID key server = Some (response, server2) →
  (recv_chan (default (make_chan 1) (replySlot sessionID key server))).1.1 = Some response ∧
  callClient_remove sessionID key server2 = callClient_remove sessionID key server.
Proof.
  unfold callClient_receive, replySlot, callClient_remove.
  destruct (GetSession sessionID (server.sessionManager server)) as [s|] eqn:Hget;
    [|discriminate].
  pose proof (GetSession_nonempty _ _ _ Hget) as Hsid. simpl.
  destruct (GetReqID2respChan s !! key) as [ch|] eqn:Hch; [|discriminate]. simpl.
  destruct (recv_chan ch) as [[[r|] ok] ch'] eqn:Hrecv; [|discriminate].
  intros [= <- <-]. split; [done|]. simpl.
  rewrite GetSession_store_state by done. simpl.
  unfold GetReqID2respChan. simpl. rewrite delete_insert_eq.
  by rewrite store_state_twice.
Qed.

(** Between the caller's receive and its deferred [Remove] the slot is
    registered and empty again: a second response under the same id is
    stored in it; the [Remove] then drops the slot. *)
Lemma server_slot_window sessionID key server1 r1 r2 :
  replySlot sessionID key server1 = Some (mkChan [r1] 1 false) →
  fmt_Sprint (resp_ID r2) = key →
  ∃ server2 server3,
    callClient_receive sessionID key server1 = Some (r1, server2) ∧
    replySlot sessionID key server2 = Some (make_chan 1) ∧
    receiveResponse sessionID r2 server2 = Returns (None, server3) ∧
    replySlot sessionID key server3 = Some (mkChan [r2] 1 false) ∧
    replySlot sessionID key (callClient_remove sessionID key server3) = None.
Proof.
  unfold replySlot. intros Hslot H2.
  destruct (GetSession sessionID (server.sessionManager server1)) as [s|] eqn:Hget;
    [|discriminate].
  pose proof (GetSession_nonempty _ _ _ Hget) as Hsid. simpl in Hslot.
  eexists _, _. split.
  { unfold callClient_receive. rewrite Hget. simpl. rewrite Hslot. simpl. reflexivity. }
  split.
  { simpl. rewrite GetSession_store_state by done. simpl. apply lookup_insert_eq. }
  split.
  { unfold receiveResponse. simpl. rewrite GetSession_store_state by done. rewrite H2.
    simpl. rewrite lookup_insert_eq. simpl. reflexivity. }
  split.
  { simpl. rewrite GetSession_store_state by done. simpl. apply lookup_insert_eq. }
  unfold callClient_remove. simpl. rewrite !GetSession_store_state by done. simpl.
  rewrite GetSession_store_state by done. simpl. apply lookup_delete_eq.
Qed.

(** After the deferred [Remove] the id names no slot: a response under it is
    refused for the lack of a response channel (of a session, if the session
    is gone too), never as a duplicate, and changes nothing. *)
Lemma server_slot_removed sessionID key server r2 :
  fmt_Sprint (resp_ID r2) = key →
  replySlot sessionID key (callClient_remove sessionID key server) = None ∧
  ∃ err,
    receiveResponse sessionID r2 (callClient_remove sessionID key server)
      = Returns (Some err, callClient_remove sessionID key server) ∧
    errors_Is err ErrDuplicateResponseReceived = false ∧
    errors_Is err (match GetSession sessionID (server.sessionManager server) with
                   | Some _ => ErrLackResponseChan
                   | None => ErrLackSession
                   end) = true.
Proof.
  intros H2. unfold replySlot, callClient_remove, receiveResponse.
  destruct (GetSession sessionID (server.sessionManager server)) as [s|] eqn:Hget.
  - pose proof (GetSession_nonempty _ _ _ Hget) as Hsid. simpl.
    rewrite !GetSession_store_state by done. simpl. rewrite H2.
    unfold GetReqID2respChan. simpl. rewrite lookup_delete_eq.
    split; [done|]. by eexists.
  - rewrite Hget. simpl. split; [done|]. by eexists.
Qed.

End server_properties.

(** ** Content decoding of [CallToolResult] *)
Section content_properties.
Import pkg pkg_json content.
Context {any : Type} `{!Codec}.

Lemma JSONUnmarshal_inl {A} (unmarshal : bytes → string + A) data text :
  unmarshal data = inl text →
  ∃ err, JSONUnmarshal (any := any) unmarshal data = inl err.
Proof. intros Hu. unfold JSONUnmarshal. rewrite Hu. by eexists. Qed.

Lemma JSONUnmarshal_inr {A} (unmarshal : bytes → string + A) data v :
  unmarshal data = inr v → JSONUnmarshal (any := any) unmarshal data = inr v.
Proof. intros Hu. unfold JSONUnmarshal. by rewrite Hu. Qed.

Lemma insert_at_end {A} (done : list A) (x y : A) (rest : list A) :
  <[length done := x]> (done ++ y :: rest) = (done ++ [x]) ++ rest.
Proof.
  rewrite insert_app_r_alt by lia. rewrite Nat.sub_diag. simpl.
  by rewrite <- app_assoc.
Qed.

(** The loop over a run of text, image and audio elements decodes each of
    them into its slot and goes on with what follows. *)
Lemma CallToolResult_range_plain (pre tail : list bytes) (done : list (option Content)) :
  Forall plainContent pre →
  CallToolResult_range (any := any) (length done) (pre ++ tail)
      (done ++ replicate (length (pre ++ tail)) None) =
    CallToolResult_range (length (done ++ (decodeContent <$> pre))) tail
      ((done ++ (decodeContent <$> pre)) ++ replicate (length tail) None).
Proof.
  intros Hpre. revert done. induction Hpre as [|content pre Hc _ IH]; intros done.
  - simpl. by rewrite app_nil_r.
  - destruct Hc as (c & Hdec & Hplain).
    assert (CallToolResult_range (any := any) (length done) ((content :: pre) ++ tail)
              (done ++ replicate (length ((content :: pre) ++ tail)) None)
            = CallToolResult_range (S (length done)) (pre ++ tail)
                ((done ++ [Some c]) ++ replicate (length (pre ++ tail)) None)) as ->.
    { simpl. unfold decodeContent in Hdec. unfold JSONUnmarshal.
      destruct (json_Unmarshal_TextContent content).
      2:{ injection Hdec as <-. by rewrite insert_at_end. }
      destruct (json_Unmarshal_ImageContent content).
      2:{ injection Hdec as <-. by rewrite insert_at_end. }
      destruct (json_Unmarshal_AudioContent content).
      2:{ injection Hdec as <-. by rewrite insert_at_end. }
      destruct (json_Unmarshal_EmbeddedResource content); [discriminate|].
      injection Hdec as <-. discriminate. }
    replace (S (length done)) with (length (done ++ [Some c]))
      by (rewrite length_app; simpl; lia).
    rewrite IH. simpl. rewrite Hdec. by rewrite <- !app_assoc.
Qed.

(** What the code does on an array whose elements all decode as text, image
    or audio: every element is decoded, in order, and the call succeeds. *)
Lemma CallToolResult_range_all_plain (contents : list bytes) :
  Forall plainContent contents →
  CallToolResult_range (any := any) 0 contents (replicate (length contents) None)
    = (decodeContent <$> contents, None).
Proof.
  intros Hall.
  pose proof (CallToolResult_range_plain contents [] [] Hall) as Hr.
  rewrite app_nil_r in Hr. simpl in Hr. rewrite Hr. by rewrite app_nil_r.
Qed.

(** An element that matches none of the four variants, after elements that
    decode as text, image or audio, makes the call fail at its index. *)
Lemma CallToolResult_range_unknown (pre : list bytes) (content : bytes) (rest : list bytes) :
  Forall plainContent pre →
  decodeContent content = None →
  CallToolResult_range (any := any) 0 (pre ++ content :: rest)
      (replicate (length (pre ++ content :: rest)) None)
    = ((decodeContent <$> pre) ++ replicate (S (length rest)) None,
       Some (errors_New ("unknown content type at index " +:+ pretty (length pre)))).
Proof.
  intros Hpre Hnone.
  pose proof (CallToolResult_range_plain pre (content :: rest) [] Hpre) as Hr.
  simpl in Hr. rewrite Hr. clear Hr. rewrite length_fmap.
  simpl. unfold decodeContent in Hnone. unfold JSONUnmarshal.
  destruct (json_Unmarshal_TextContent content); [|discriminate].
  destruct (json_Unmarshal_ImageContent content); [|discriminate].
  destruct (json_Unmarshal_AudioContent content); [|discriminate].
  destruct (json_Unmarshal_EmbeddedResource content); [|discriminate].
  done.
Qed.

(** C9 (the behaviour of the code). An element that decodes
    only as an embedded resource ends the decoding: the call returns nil at
    once, whatever follows; the elements after it are left as nil entries of
    [Content], and an element among them that matches no variant raises no
    error. *)
Theorem CallToolResult_embedded_resource_ends_decoding
    (pre : list bytes) (content : bytes) (rest : list bytes) (v : EmbeddedResource) :
  Forall plainContent pre →
  decodeContent content = Some (ContentEmbedded v) →
  CallToolResult_range (any := any) 0 (pre ++ content :: rest)
      (replicate (length (pre ++ content :: rest)) None)
    = ((decodeContent <$> pre) ++ Some (ContentEmbedded v) :: replicate (length rest) None,
       None).
Proof.
  intros Hpre Hemb.
  pose proof (CallToolResult_range_plain pre (content :: rest) [] Hpre) as Hr.
  simpl in Hr. rewrite Hr. clear Hr.
  simpl. unfold decodeContent in Hemb. unfold JSONUnmarshal.
  destruct (json_Unmarshal_TextContent content); [|discriminate].
  destruct (json_Unmarshal_ImageContent content); [|discriminate].
  destruct (json_Unmarshal_AudioContent content); [|discriminate].
  destruct (json_Unmarshal_EmbeddedResource content); [discriminate|].
  injection Hemb as <-. f_equal.
  rewrite insert_at_end. by rewrite <- app_assoc.
Qed.

End content_properties.

(** Witness of C9: the array [resource, bogus].  The second element matches no
    variant, yet the call succeeds and leaves its slot nil. *)
Lemma CallToolResult_embedded_resource_ends_decoding_witness :
  content.CallToolResult_range (any := unit) 0 ["resource"; "bogus"] [None; None]
    = ([Some (content.ContentEmbedded (content.scenario_embedded "resource")); None], None)
  ∧ content.decodeContent "bogus" = None.
Proof.
  split; [|reflexivity].
  apply (CallToolResult_embedded_resource_ends_decoding (any := unit)
           [] "resource" ["bogus"] (content.scenario_embedded "resource")).
  - constructor.
  - reflexivity.
Defined.

Example CallToolResult_UnmarshalJSON_resource_then_text :
  content.CallToolResult_UnmarshalJSON (any := unit) "resource,text"
      (content.mkCallToolResult [] false)
    = (content.mkCallToolResult
         [Some (content.ContentEmbedded (content.scenario_embedded "resource")); None] false,
       None).
Proof. reflexivity. Qed.

Example CallToolResult_UnmarshalJSON_text_then_image :
  content.CallToolResult_UnmarshalJSON (any := unit) "text,image"
      (content.mkCallToolResult [] false)
    = (content.mkCallToolResult
         [Some (content.ContentText (content.scenario_text "text"));
          Some (content.ContentImage (content.scenario_image "image"))] false,
       None).
Proof. reflexivity. Qed.

(** ** Client dispatch and peer calls *)
Section client_properties.
Import pkg pkg_json protocol protocol_json client.
Import server (FrameKind, Notification, Response, Request, frameKind).
Context {any T : Type} `{!JSON any} (env : Env any T).
Implicit Types (c : Client any T) (ctx : Context any).

(** Every run of the client's [receive] starts at most one goroutine, and
    only the one the shape of the frame selects. *)
Lemma client_receive_classifies (msg : bytes) :
  (receive (any := any) msg).2 = []
  ∨ ∃ task, (receive (any := any) msg).2 = [task] ∧ taskKind task = frameKind msg.
Proof.
  unfold receive, frameKind.
  destruct (gjson_Exists msg "id"); simpl.
  2:{ destruct (JSONUnmarshal _ msg); [by left|right; by eexists]. }
  destruct (gjson_Exists msg "method"); simpl.
  2:{ destruct (JSONUnmarshal _ msg); [by left|right; by eexists]. }
  destruct (JSONUnmarshal _ msg) as [|req]; [by left|].
  destruct (negb (IsValid req)); [by left|right; by eexists].
Qed.

(** A frame that decodes in its shape does start its goroutine. *)
Lemma client_receive_dispatches (msg : bytes) :
  match frameKind msg with
  | Notification =>
      ∀ notify,
        JSONUnmarshal (any := any) (json_Unmarshal_via JSONRPCNotification_UnmarshalJSON) msg
          = inr notify →
        receive msg = (None, [TaskReceiveNotify notify])
  | Response =>
      ∀ resp,
        JSONUnmarshal (any := any) (json_Unmarshal_via JSONRPCResponse_UnmarshalJSON) msg
          = inr resp →
        receive msg = (None, [TaskReceiveResponse resp])
  | Request =>
      ∀ req,
        JSONUnmarshal (any := any) (json_Unmarshal_via JSONRPCRequest_UnmarshalJSON) msg
          = inr req →
        IsValid req = true →
        receive msg = (None, [TaskReceiveRequest req])
  end.
Proof.
  unfold receive, frameKind.
  destruct (gjson_Exists msg "id"); simpl; [|by intros ? ->].
  destruct (gjson_Exists msg "method"); simpl; [|by intros ? ->].
  by intros ? -> ->.
Qed.

(** *** Reply slots (client) *)

Lemma callServer_register_slot c :
  reqID2respChan (callServer_register c).2 !! (callServer_register c).1
    = Some (make_chan 1).
Proof. unfold callServer_register. simpl. apply lookup_insert_eq. Qed.

Lemma client_slot_single_shot key c (r1 r2 : JSONRPCResponse any) :
  reqID2respChan c !! key = Some (make_chan 1) →
  fmt_Sprint (resp_ID r1) = key →
  fmt_Sprint (resp_ID r2) = key →
  ∃ c1,
    receiveResponse r1 c = Returns (None, c1) ∧
    reqID2respChan c1 !! key = Some (mkChan [r1] 1 false) ∧
    ∃ err,
      receiveResponse r2 c1 = Returns (Some err, c1) ∧
      errors_Is err ErrDuplicateResponseReceived = true.
Proof.
  intros Hslot H1 H2. eexists. split.
  - unfold receiveResponse. rewrite H1, Hslot. simpl. reflexivity.
  - split; [simpl; apply lookup_insert_eq|].
    eexists. unfold receiveResponse. rewrite H2. simpl.
    rewrite lookup_insert_eq. simpl. done.
Qed.

Lemma callServer_receive_then_remove key c response c2 :
  callServer_receive key c = Some (response, c2) →
  (recv_chan (default (make_chan 1) (reqID2respChan c !! key))).1.1 = Some response ∧
  callServer_remove key c2 = callServer_remove key c.
Proof.
  unfold callServer_receive, callServer_remove.
  destruct (reqID2respChan c !! key) as [ch|] eqn:Hch; [|discriminate]. simpl.
  destruct (recv_chan ch) as [[[r|] ok] ch'] eqn:Hrecv; [|discriminate].
  intros [= <- <-]. split; [done|]. simpl. by rewrite delete_insert_eq.
Qed.

Lemma client_slot_window key c1 (r1 r2 : JSONRPCResponse any) :
  reqID2respChan c1 !! key = Some (mkChan [r1] 1 false) →
  fmt_Sprint (resp_ID r2) = key →
  ∃ c2 c3,
    callServer_receive key c1 = Some (r1, c2) ∧
    reqID2respChan c2 !! key = Some (make_chan 1) ∧
    receiveResponse r2 c2 = Returns (None, c3) ∧
    reqID2respChan c3 !! key = Some (mkChan [r2] 1 false) ∧
    reqID2respChan (callServer_remove key c3) !! key = None.
Proof.
  intros Hslot H2. eexists _, _. split.
  { unfold callServer_receive. rewrite Hslot. simpl. reflexivity. }
  split; [simpl; apply lookup_insert_eq|].
  split.
  { unfold receiveResponse. rewrite H2. simpl. rewrite lookup_insert_eq. simpl.
    reflexivity. }
  split; [simpl; apply lookup_insert_eq|].
  simpl. apply lookup_delete_eq.
Qed.

Lemma client_slot_removed key c (r2 : JSONRPCResponse any) :
  fmt_Sprint (resp_ID r2) = key →
  reqID2respChan (callServer_remove key c) !! key = None ∧
  ∃ err,
    receiveResponse r2 (callServer_remove key c)
      = Returns (Some err, callServer_remove key c) ∧
    errors_Is err ErrDuplicateResponseReceived = false ∧
    errors_Is err ErrLackResponseChan = true.
Proof.
  intros H2. split; [simpl; apply lookup_delete_eq|].
  unfold receiveResponse. rewrite H2. simpl. rewrite lookup_delete_eq. by eexists.
Qed.

(** *** [sendMsgWithRequest] and re-initialization *)

Local Abbreviation sendT :=
  (Context any → RequestID → Method → option any → Client any T
   → result (any := any) (T := T) (option (error any))).

(** With the mutex held, [againInitialization] parks before it calls
    anything. *)
Lemma againInitialization_held (send : sendT) ctx c :
  initializationMu c = true → againInitialization env send ctx c = Blocks.
Proof. intros Hmu. unfold againInitialization. simpl. by rewrite Hmu. Qed.

Lemma sendMsgWithRequest_body_held (send1 send2 : sendT) ctx requestID method params c :
  initializationMu c = true →
  sendMsgWithRequest_body env send1 ctx requestID method params c
    = sendMsgWithRequest_body env send2 ctx requestID method params c.
Proof.
  intros Hmu. unfold sendMsgWithRequest_body.
  case_decide; [done|]. destruct (json_Marshal_request _); [done|].
  destruct (transport_Send env ctx _ (world c)) as [[err|] w]; [|done].
  destruct (negb _); [done|].
  by rewrite !againInitialization_held.
Qed.

Lemma callServer_ext (send1 send2 : sendT) ctx method params c :
  (∀ ctx requestID method params c,
     initializationMu c = true →
     send1 ctx requestID method params c = send2 ctx requestID method params c) →
  initializationMu c = true →
  callServer env send1 ctx method params c = callServer env send2 ctx method params c.
Proof.
  intros Hsend Hmu. unfold callServer. destruct (negb (ready c) && _); [done|].
  unfold callServer_register. by rewrite Hsend.
Qed.

Lemma againInitialization_ext (send1 send2 : sendT) ctx c :
  (∀ ctx requestID method params c,
     initializationMu c = true →
     send1 ctx requestID method params c = send2 ctx requestID method params c) →
  againInitialization env send1 ctx c = againInitialization env send2 ctx c.
Proof.
  intros Hsend. unfold againInitialization. simpl.
  destruct (initializationMu c); [done|].
  unfold initialization. by rewrite (callServer_ext send1 send2) by done.
Qed.

Lemma sendMsgWithRequest_body_ext (send1 send2 : sendT) ctx requestID method params c :
  (∀ ctx c, againInitialization env send1 ctx c = againInitialization env send2 ctx c) →
  sendMsgWithRequest_body env send1 ctx requestID method params c
    = sendMsgWithRequest_body env send2 ctx requestID method params c.
Proof.
  intros Hagain. unfold sendMsgWithRequest_body.
  case_decide; [done|]. destruct (json_Marshal_request _); [done|].
  destruct (transport_Send env ctx _ (world c)) as [[err|] w]; [|done].
  destruct (negb _); [done|]. by rewrite Hagain.
Qed.

(** Two levels of [sendMsgWithRequest] are all a run can reach: a larger
    bound gives the same result. *)
Lemma sendMsgWithRequest_depth_enough n ctx requestID method params c :
  sendMsgWithRequest_depth env (2 + n) ctx requestID method params c
    = sendMsgWithRequest_depth env 2 ctx requestID method params c.
Proof.
  change (sendMsgWithRequest_body env (sendMsgWithRequest_depth env (S n))
            ctx requestID method params c
          = sendMsgWithRequest_body env (sendMsgWithRequest_depth env 1)
              ctx requestID method params c).
  apply sendMsgWithRequest_body_ext. intros ctx' c'.
  apply againInitialization_ext. intros ctx'' rid m p c'' Hmu.
  by apply sendMsgWithRequest_body_held.
Qed.

(** [sendMsgWithRequest] is the function its source text defines: it
    satisfies the recursive equation of its body. *)
Lemma sendMsgWithRequest_unfold ctx requestID method params c :
  sendMsgWithRequest env ctx requestID method params c
    = sendMsgWithRequest_body env (sendMsgWithRequest env) ctx requestID method params c.
Proof.
  unfold sendMsgWithRequest.
  change (sendMsgWithRequest_body env (sendMsgWithRequest_depth env 2)
            ctx requestID method params c)
    with (sendMsgWithRequest_depth env (2 + 1) ctx requestID method params c).
  by rewrite sendMsgWithRequest_depth_enough.
Qed.

(** *** What a successful re-initialization does *)

Lemma receiveResponse_other_key (r : JSONRPCResponse any) c res id :
  fmt_Sprint (resp_ID r) ≠ id →
  receiveResponse r c = Returns res →
  reqID2respChan res.2 !! id = reqID2respChan c !! id.
Proof.
  intros Hkey. unfold receiveResponse.
  destruct (reqID2respChan c !! fmt_Sprint (resp_ID r)) as [respChan|];
    [|by intros [= <-]].
  destruct (send_ready respChan); [|by intros [= <-]].
  destruct (send_chan r respChan) as [ch'| |]; simpl; try discriminate.
  intros [= <-]. simpl. by rewrite lookup_insert_ne.
Qed.

Lemma deliver_not_returns (f : outcome (Client any T) → JSONRPCResponse any
                               → outcome (Client any T))
    (responses : list (JSONRPCResponse any)) (acc : outcome (Client any T)) :
  (∀ r acc, (∀ c, acc ≠ Returns c) → ∀ c, f acc r ≠ Returns c) →
  (∀ c, acc ≠ Returns c) →
  ∀ c, foldl f acc responses ≠ Returns c.
Proof.
  intros Hf. revert acc. induction responses as [|r rs IH]; intros acc Hacc c; simpl.
  - apply Hacc.
  - apply IH. by apply Hf.
Qed.

Lemma deliver_cons (r : JSONRPCResponse any) rs c c' :
  deliver (r :: rs) c = Returns c' →
  ∃ res, receiveResponse r c = Returns res ∧ deliver rs res.2 = Returns c'.
Proof.
  unfold deliver. simpl.
  destruct (receiveResponse r c) as [res| |] eqn:Hr; simpl.
  - intros Hd. by exists res.
  - intros Hd. exfalso. revert Hd. apply deliver_not_returns; [|done].
    intros r' acc Hacc c''. destruct acc; simpl; try done. by destruct (Hacc a).
  - intros Hd. exfalso. revert Hd. apply deliver_not_returns; [|done].
    intros r' acc Hacc c''. destruct acc; simpl; try done. by destruct (Hacc a).
Qed.

Lemma deliver_other_keys (responses : list (JSONRPCResponse any)) c c' id :
  Forall (λ r, fmt_Sprint (resp_ID r) ≠ id) responses →
  deliver responses c = Returns c' →
  reqID2respChan c' !! id = reqID2respChan c !! id.
Proof.
  intros Hall. revert c. induction Hall as [|r rs Hr _ IH]; intros c Hd.
  - by injection Hd as <-.
  - apply deliver_cons in Hd as (res & Hres & Hd).
    rewrite (IH _ Hd). by eapply receiveResponse_other_key.
Qed.

(** A caller whose request id no response carries leaves its [select] only
    through the context. *)
Lemma callServer_await_unanswered ctx id c r c' :
  Forall (λ r, fmt_Sprint (resp_ID r) ≠ id) (deliveries env (world c)).1 →
  reqID2respChan c !! id = Some (make_chan 1) →
  callServer_await env ctx id c = Returns (r, c') →
  ∃ e, ctx_Err ctx = Some e ∧ r = inl e.
Proof.
  intros Hall Hslot. unfold callServer_await.
  destruct (deliveries env (world c)) as [responses w]. simpl in Hall.
  destruct (deliver responses (with_world w c)) as [c1| |] eqn:Hd; simpl;
    try discriminate.
  rewrite (deliver_other_keys _ _ _ _ Hall Hd). simpl. rewrite Hslot. simpl.
  unfold ctx_done. destruct (ctx_Err ctx) as [e|].
  - rewrite bool_decide_eq_true_2 by (by eexists). simpl.
    intros [= <- <-]. by eexists.
  - rewrite bool_decide_eq_false_2 by (by intros [? ?]). simpl. discriminate.
Qed.

Lemma callServer_await_slots ctx id' c r c' id :
  id ≠ id' →
  Forall (λ r, fmt_Sprint (resp_ID r) ≠ id) (deliveries env (world c)).1 →
  callServer_await env ctx id' c = Returns (r, c') →
  reqID2respChan c' !! id = reqID2respChan c !! id.
Proof.
  intros Hne Hall. unfold callServer_await.
  destruct (deliveries env (world c)) as [responses w]. simpl in Hall.
  destruct (deliver responses (with_world w c)) as [c1| |] eqn:Hd; simpl;
    try discriminate.
  pose proof (deliver_other_keys _ _ _ _ Hall Hd) as Hsame. simpl in Hsame.
  assert (reqID2respChan (callServer_remove id' c1) !! id = reqID2respChan c !! id)
    as Hrem.
  { simpl. by rewrite lookup_delete_ne. }
  destruct (select2 _ _ _); [| |discriminate].
  - by intros [= <- <-].
  - destruct (recv_chan _) as [[[response|] ok] ch]; [|discriminate].
    destruct (resp_Error response); by intros [= <- <-].
Qed.

Lemma againInitialization_success ctx c0 c2 sent2 :
  againInitialization env (sendMsgWithRequest env) ctx c0 = Returns (None, c2, sent2) →
  let id' := FormatInt (wrapInt64 (requestID c0 + 1)) in
  ∃ ireq m1 m2,
    sent2 =
      [mkSent (FrameRequest (NewJSONRPCRequest (IDString id') Initialize (Some ireq)))
         m1 None;
       mkSent (FrameNotification
                 (NewJSONRPCNotification NotificationInitialized
                    (Some (box_InitializedNotification env))))
         m2 None]
    ∧ ready c2 = true
    ∧ ∀ id, id ≠ id' →
        (∀ w, Forall (λ r, fmt_Sprint (resp_ID r) ≠ id) (deliveries env w).1) →
        reqID2respChan c2 !! id = reqID2respChan c0 !! id.
Proof.
  intros Hagain id'. unfold againInitialization in Hagain. simpl in Hagain.
  destruct (initializationMu c0) eqn:Hmu; [discriminate|].
  unfold initialization, callServer in Hagain. simpl in Hagain.
  rewrite sendMsgWithRequest_unfold in Hagain.
  unfold sendMsgWithRequest_body in Hagain. simpl in Hagain.
  fold id' in Hagain.
  destruct (json_Marshal_request _) as [text|m1] eqn:Hm1; [discriminate|].
  destruct (transport_Send env ctx m1 _) as [[err|] w1] eqn:Hsend1.
  { destruct (negb _); discriminate. }
  simpl in Hagain.
  destruct (callServer_await env ctx id' _) as [[[err|response] c1]| |] eqn:Hawait;
    simpl in Hagain; try discriminate.
  destruct (JSONUnmarshal _ response) as [err|result]; [discriminate|].
  destruct (negb (SupportedVersion env _)); [discriminate|].
  unfold sendNotification4Initialized, sendMsgWithNotification in Hagain.
  destruct (json_Marshal_notification _) as [text|m2]; [discriminate|].
  destruct (transport_Send env ctx m2 _) as [[err|] w2]; [discriminate|].
  simpl in Hagain. injection Hagain as <- <-.
  do 3 eexists. split; [reflexivity|]. split; [reflexivity|].
  intros id Hne Hquiet. simpl.
  rewrite (callServer_await_slots _ _ _ _ _ id Hne (Hquiet _) Hawait). simpl.
  by rewrite lookup_insert_ne.
Qed.

Lemma wrapInt64_range z : (minInt64 ≤ wrapInt64 z ≤ maxInt64)%Z.
Proof. unfold wrapInt64, minInt64, maxInt64. pose proof (Z.mod_pos_bound (z + 2 ^ 63) (2 ^ 64)). lia. Qed.

Lemma wrapInt64_succ_ne z : (minInt64 ≤ z ≤ maxInt64)%Z → wrapInt64 (z + 1) ≠ z.
Proof.
  unfold wrapInt64, minInt64, maxInt64. intros Hz.
  destruct (decide (z = 2 ^ 63 - 1)%Z) as [->|Hne].
  - vm_compute. discriminate.
  - rewrite Z.mod_small by lia. lia.
Qed.

(** C10. When the transport answers the send of a request with
    [ErrSessionClosed] and the re-initialization that follows succeeds,
    [sendMsgWithRequest] returns nil; what the re-initialization handed to
    the transport is the [initialize] request and the initialized
    notification, not the original request, which is therefore never handed
    to the transport again after the refused attempt; and as long as the
    peer, which never got the request, sends no response under its id, the
    reply slot stays empty and the caller leaves the [select] of [callServer]
    only with the error of its context. *)
Theorem reinitialization_drops_the_request ctx method params c message err w1 c2 sent2 :
  let id := (callServer_register c).1 in
  let c1 := (callServer_register c).2 in
  let req := NewJSONRPCRequest (IDString id) method params in
  json_Marshal_request req = inr message →
  transport_Send env ctx message (world c1) = (Some err, w1) →
  errors_Is err ErrSessionClosed = true →
  againInitialization env (sendMsgWithRequest env) ctx (with_world w1 c1)
    = Returns (None, c2, sent2) →
  sendMsgWithRequest env ctx (IDString id) method params c1
    = Returns (None, c2, mkSent (FrameRequest req) message (Some err) :: sent2) ∧
  Forall (λ s, sent_frame s ≠ FrameRequest req) sent2 ∧
  ((∀ w, Forall (λ r, fmt_Sprint (resp_ID r) ≠ id) (deliveries env w).1) →
   reqID2respChan c2 !! id = Some (make_chan 1) ∧
   (∀ ctx' r c',
      callServer_await env ctx' id c2 = Returns (r, c') →
      ∃ e, ctx_Err ctx' = Some e ∧ r = inl e) ∧
   (∀ r c' sent,
      callServer env (sendMsgWithRequest env) ctx method params c = Returns (r, c', sent) →
      (ready c = false ∧ method ≠ Initialize ∧ method ≠ Ping)
      ∨ ∃ e, ctx_Err ctx = Some e ∧ r = inl e)).
Proof.
  intros id c1 req Hmarshal Hsend Hclosed Hagain.
  assert (sendMsgWithRequest env ctx (IDString id) method params c1
          = Returns (None, c2, mkSent (FrameRequest req) message (Some err) :: sent2))
    as Hnil.
  { rewrite sendMsgWithRequest_unfold. unfold sendMsgWithRequest_body.
    rewrite decide_False by done. fold req. rewrite Hmarshal, Hsend, Hclosed. simpl.
    by rewrite Hagain. }
  destruct (againInitialization_success _ _ _ _ Hagain)
    as (ireq & m1 & m2 & -> & Hready & Hslots).
  assert (FormatInt (wrapInt64 (requestID (with_world w1 c1) + 1)) ≠ id) as Hfresh.
  { subst id c1. unfold callServer_register, FormatInt. simpl.
    intros Heq. apply (inj pretty) in Heq.
    by apply wrapInt64_succ_ne in Heq; [|apply wrapInt64_range]. }
  split; [exact Hnil|]. split.
  { repeat constructor; simpl; [|discriminate].
    intros [= Heq]. by apply Hfresh. }
  intros Hquiet.
  assert (reqID2respChan c2 !! id = Some (make_chan 1)) as Hslot.
  { rewrite (Hslots id) by done. subst id c1. apply callServer_register_slot. }
  split; [exact Hslot|]. split.
  { intros ctx' r c'. by apply callServer_await_unanswered. }
  intros r c' sent. unfold callServer.
  destruct (negb (ready c) && _) eqn:Hgate.
  { intros _. left. apply andb_true_iff in Hgate as [Hr Hm].
    apply andb_true_iff in Hm as [Hi Hp].
    apply negb_true_iff in Hr. apply bool_decide_eq_true in Hi, Hp. done. }
  change (callServer_register c) with (id, c1). simpl. rewrite Hnil. simpl.
  destruct (callServer_await env ctx id c2) as [[r0 c0]| |] eqn:Hawait; simpl;
    try discriminate.
  intros [= <- <- <-]. right. by eapply callServer_await_unanswered.
Qed.

End client_properties.

(** ** Properties that span both peers *)
Section both_peers.
Import pkg pkg_json protocol protocol_json session.
Import server (FrameKind, Notification, Response, Request, frameKind, dispatched,
               Dispatched, HandlerCalled, RecvChan).
Context {any App T : Type} `{!JSON any} (h : server.Handlers any App).

(** C1. The shape of a frame is exactly one of notification (no [id]
    member), response ([id] but no [method]) and request (both).  A run of
    the server's [receive] enters at most one of its three branches, and a
    run of the client's [receive] starts at most one goroutine: the one of
    the frame's shape.  The branch is entered whenever the frame decodes in
    its shape and, on the server, the session check passes and, for a
    request, the envelope is valid, the readiness gate passes and the server
    is not shutting down. *)
Theorem inbound_frames_are_classified ctx now sessionID (msg : bytes)
    (sv : server.Server any App) :
  ((frameKind msg = Notification ↔ gjson_Exists msg "id" = false) ∧
   (frameKind msg = Response ↔
      gjson_Exists msg "id" = true ∧ gjson_Exists msg "method" = false) ∧
   (frameKind msg = Request ↔
      gjson_Exists msg "id" = true ∧ gjson_Exists msg "method" = true)) ∧
  (∀ res sv' events,
     server.receive h ctx now sessionID msg sv = Returns (res, sv', events) →
     dispatched events = [] ∨ dispatched events = [frameKind msg]) ∧
  (sessionID = "" ∨ IsActiveSession sessionID (server.sessionManager sv) = true →
   match frameKind msg with
   | Notification =>
       ∀ notify,
         JSONUnmarshal (any := any)
           (json_Unmarshal_via JSONRPCNotification_UnmarshalJSON) msg = inr notify →
         ∃ res sv' events,
           server.receive h ctx now sessionID msg sv = Returns (res, sv', events)
           ∧ dispatched events = [Notification]
   | Response =>
       ∀ resp r,
         JSONUnmarshal (any := any)
           (json_Unmarshal_via JSONRPCResponse_UnmarshalJSON) msg = inr resp →
         server.receiveResponse sessionID resp sv = Returns r →
         ∃ res,
           server.receive h ctx now sessionID msg sv
             = Returns (res, r.2, [Dispatched Response])
   | Request =>
       ∀ req,
         JSONUnmarshal (any := any)
           (json_Unmarshal_via JSONRPCRequest_UnmarshalJSON) msg = inr req →
         IsValid req = true →
         (sessionID = "" ∨ req_Method req = Initialize ∨ req_Method req = Ping ∨
          ∃ s, GetSession sessionID (server.sessionManager sv) = Some s
               ∧ GetReady s = true) →
         server.inShutdown sv = false →
         ∃ ch sv' events,
           server.receive h ctx now sessionID msg sv = Returns (RecvChan ch, sv', events)
           ∧ dispatched events = [Request]
   end) ∧
  ((client.receive (any := any) msg).2 = []
   ∨ ∃ task, (client.receive (any := any) msg).2 = [task]
             ∧ client.taskKind task = frameKind msg) ∧
  match frameKind msg with
  | Notification =>
      ∀ notify,
        JSONUnmarshal (any := any)
          (json_Unmarshal_via JSONRPCNotification_UnmarshalJSON) msg = inr notify →
        client.receive msg = (None, [client.TaskReceiveNotify notify])
  | Response =>
      ∀ resp,
        JSONUnmarshal (any := any)
          (json_Unmarshal_via JSONRPCResponse_UnmarshalJSON) msg = inr resp →
        client.receive msg = (None, [client.TaskReceiveResponse resp])
  | Request =>
      ∀ req,
        JSONUnmarshal (any := any)
          (json_Unmarshal_via JSONRPCRequest_UnmarshalJSON) msg = inr req →
        IsValid req = true →
        client.receive msg = (None, [client.TaskReceiveRequest req])
  end.
Proof.
  split; [apply frameKind_cases|].
  split; [intros res sv' events; apply server_receive_classifies|].
  split; [apply server_receive_dispatches|].
  split; [apply client_receive_classifies|apply client_receive_dispatches].
Qed.

(** C3 (amended). The slot that [callClient] or [callServer] registers under
    the id it allocates is empty and has room for one response.  The first
    response delivered under that id is stored in the slot.  What happens
    to a second delivery under the same id depends on how far the caller
    has come.  While the first response still sits in the slot, the
    delivery is refused with [ErrDuplicateResponseReceived] and leaves the
    server, respectively the client, and so the slot, as it was.  Once the
    caller has received the first response, and until its deferred
    [Remove] runs, the slot is registered and empty again: the delivery is
    accepted and stored, and the [Remove] drops it with the slot (receive
    and [Remove] together are the step of [callClient_await], respectively
    [callServer_await]).  After the
    [Remove] the id names no slot: the delivery is refused, with the state
    unchanged, for the lack of a response channel (on the server for the
    lack of a session, if the session is gone), never as a duplicate. *)
Theorem reply_slot_is_single_shot sessionID (key : string)
    (sv : server.Server any App) (c : client.Client any T)
    (r1 r2 : JSONRPCResponse any) :
  fmt_Sprint (resp_ID r1) = key →
  fmt_Sprint (resp_ID r2) = key →
  (∀ requestID sv1,
     server.callClient_register sessionID sv = inr (requestID, sv1) →
     server.replySlot sessionID requestID sv1 = Some (make_chan 1)) ∧
  client.reqID2respChan (client.callServer_register c).2
    !! (client.callServer_register c).1 = Some (make_chan 1) ∧
  (server.replySlot sessionID key sv = Some (make_chan 1) →
   ∃ sv1,
     server.receiveResponse sessionID r1 sv = Returns (None, sv1) ∧
     server.replySlot sessionID key sv1 = Some (mkChan [r1] 1 false) ∧
     (∃ err,
        server.receiveResponse sessionID r2 sv1 = Returns (Some err, sv1) ∧
        errors_Is err ErrDuplicateResponseReceived = true) ∧
     ∃ sv2 sv3,
       server.callClient_receive sessionID key sv1 = Some (r1, sv2) ∧
       server.callClient_remove sessionID key sv2
         = server.callClient_remove sessionID key sv1 ∧
       server.replySlot sessionID key sv2 = Some (make_chan 1) ∧
       server.receiveResponse sessionID r2 sv2 = Returns (None, sv3) ∧
       server.replySlot sessionID key sv3 = Some (mkChan [r2] 1 false) ∧
       server.replySlot sessionID key (server.callClient_remove sessionID key sv3) = None) ∧
  (client.reqID2respChan c !! key = Some (make_chan 1) →
   ∃ c1,
     client.receiveResponse r1 c = Returns (None, c1) ∧
     client.reqID2respChan c1 !! key = Some (mkChan [r1] 1 false) ∧
     (∃ err,
        client.receiveResponse r2 c1 = Returns (Some err, c1) ∧
        errors_Is err ErrDuplicateResponseReceived = true) ∧
     ∃ c2 c3,
       client.callServer_receive key c1 = Some (r1, c2) ∧
       client.callServer_remove key c2 = client.callServer_remove key c1 ∧
       client.reqID2respChan c2 !! key = Some (make_chan 1) ∧
       client.receiveResponse r2 c2 = Returns (None, c3) ∧
       client.reqID2respChan c3 !! key = Some (mkChan [r2] 1 false) ∧
       client.reqID2respChan (client.callServer_remove key c3) !! key = None) ∧
  (server.replySlot sessionID key (server.callClient_remove sessionID key sv) = None ∧
   ∃ err,
     server.receiveResponse sessionID r2 (server.callClient_remove sessionID key sv)
       = Returns (Some err, server.callClient_remove sessionID key sv) ∧
     errors_Is err ErrDuplicateResponseReceived = false ∧
     errors_Is err (match GetSession sessionID (server.sessionManager sv) with
                    | Some _ => ErrLackResponseChan
                    | None => ErrLackSession
                    end) = true) ∧
  (client.reqID2respChan (client.callServer_remove key c) !! key = None ∧
   ∃ err,
     client.receiveResponse r2 (client.callServer_remove key c)
       = Returns (Some err, client.callServer_remove key c) ∧
     errors_Is err ErrDuplicateResponseReceived = false ∧
     errors_Is err ErrLackResponseChan = true).
Proof.
  intros H1 H2.
  split; [intros requestID sv1; apply callClient_register_slot|].
  split; [apply callServer_register_slot|].
  split; [|split; [|split]].
  - intros Hslot.
    destruct (server_slot_single_shot sessionID key sv r1 r2 Hslot H1 H2)
      as (sv1 & Hfirst & Hheld & Hdup).
    exists sv1. split; [done|]. split; [done|]. split; [done|].
    destruct (server_slot_window sessionID key sv1 r1 r2 Hheld H2)
      as (sv2 & sv3 & Hrecv & Hempty & Hsecond & Hstored & Hgone).
    exists sv2, sv3. split; [done|]. split; [|done].
    by destruct (callClient_receive_then_remove _ _ _ _ _ Hrecv).
  - intros Hslot.
    destruct (client_slot_single_shot key c r1 r2 Hslot H1 H2)
      as (c1 & Hfirst & Hheld & Hdup).
    exists c1. split; [done|]. split; [done|]. split; [done|].
    destruct (client_slot_window key c1 r1 r2 Hheld H2)
      as (c2 & c3 & Hrecv & Hempty & Hsecond & Hstored & Hgone).
    exists c2, c3. split; [done|]. split; [|done].
    by destruct (callServer_receive_then_remove _ _ _ _ Hrecv).
  - by apply server_slot_removed.
  - by apply client_slot_removed.
Qed.

End both_peers.

(** ** The theorems on the frames of the examples *)

(** Witness of C2: session [S1] is active and not ready; a [tools/call]
    request and a [notifications/cancelled] notification are both turned away
    as not initialized, and no handler runs. *)
Lemma readiness_gate_witness :
  let ctx := context_Background (any := unit) in
  server.receive scenario_peers.handlers ctx 5 "S1" scenario.toolsCallFrame
      scenario_peers.server1
    = Returns (server.RecvErr (pkg.Sentinel pkg.ErrSessionHasNotInitialized),
               scenario_peers.server1, [])
  ∧ server.receive scenario_peers.handlers ctx 5 "S1" scenario.cancelledFrame
      scenario_peers.server1
    = Returns (server.RecvErr (pkg.Sentinel pkg.ErrSessionHasNotInitialized),
               scenario_peers.server1, [server.Dispatched server.Notification]).
Proof.
  intros ctx. split.
  - destruct (readiness_gate scenario_peers.handlers ctx 5 "S1" scenario.toolsCallFrame
                scenario_peers.server1 (session.NewState 0)) as [Hreq _];
      [discriminate | reflexivity |].
    apply (Hreq (protocol.mkRequest "2.0" (protocol.IDValue "2") "tools/call" (Some tt)
                   scenario.toolsCallParams));
      [reflexivity | reflexivity | reflexivity | discriminate | discriminate | reflexivity].
  - destruct (readiness_gate scenario_peers.handlers ctx 5 "S1" scenario.cancelledFrame
                scenario_peers.server1 (session.NewState 0)) as [_ Hnotify];
      [discriminate | reflexivity |].
    apply (Hnotify (protocol.mkNotification "2.0" "notifications/cancelled" (Some tt)
                      scenario.cancelledParams));
      [reflexivity | reflexivity | discriminate | reflexivity].
Defined.

(** Counterexample to C2 as stated: session [S1] is active and ready, the
    frame is a [notifications/cancelled] notification, and [receive] still
    returns an error: a ready session's notifications other than
    [notifications/initialized] are not admitted. *)
Lemma ready_notification_is_not_admitted :
  ¬ (∀ (ctx : Context unit) (now : Time) (sessionID : string) (msg : bytes)
       (sv : server.Server unit unit) (s : session.State unit)
       (notify : protocol.JSONRPCNotification unit),
       sessionID ≠ "" →
       session.activeSessions (server.sessionManager sv) !! sessionID = Some s →
       session.ready s = true →
       server.frameKind msg = server.Notification →
       pkg_json.JSONUnmarshal (any := unit)
         (protocol_json.json_Unmarshal_via protocol_json.JSONRPCNotification_UnmarshalJSON) msg
         = inr notify →
       protocol.notif_Method notify ≠ protocol.NotificationInitialized →
       ∀ err sv' events,
         server.receive scenario_peers.handlers ctx now sessionID msg sv
           ≠ Returns (server.RecvErr err, sv', events)).
Proof.
  intros Hall.
  refine (Hall context_Background 5%Z "S1" scenario.cancelledFrame
            scenario_peers.server1_ready (session.SetReady (session.NewState 0))
            (protocol.mkNotification "2.0" "notifications/cancelled" (Some tt)
               scenario.cancelledParams)
            _ eq_refl eq_refl eq_refl eq_refl _ _ _ _ eq_refl);
    discriminate.
Qed.

(** Once [S1] is ready the same request is handed to its handler and answered
    on the reply channel. *)
Example receive_ready_request :
  server.receive scenario_peers.handlers (context_Background (any := unit)) 5 "S1"
      scenario.toolsCallFrame scenario_peers.server1_ready
    = Returns (server.RecvChan (mkChan ["{'jsonrpc':'2.0','id':'2','result':{}}"] 1 true),
               server.with_sessionManager
                 (session.UpdateSessionLastActiveAt 5 "S1"
                    (server.sessionManager scenario_peers.server1_ready))
                 scenario_peers.server1_ready,
               [server.Dispatched server.Request; server.HandlerCalled "tools/call"]).
Proof. vm_compute. reflexivity. Qed.

(** A request for a method outside the table is answered with code -32601. *)
Example receiveRequest_unknown_method :
  (server.receiveRequest scenario_peers.handlers (context_Background (any := unit)) 5 "S1"
     (protocol.mkRequest "2.0" (protocol.IDString "7") "no/such" None "")
     scenario_peers.server1_ready).1.1
    = protocol.mkResponse "2.0" (protocol.IDString "7") None ""
        (Some (protocol.mkResponseErr (-32601) "method not support: method=no/such" None)).
Proof. vm_compute. reflexivity. Qed.

(** Witness of C3: the server registers a call to the client of [S1] under the
    id 1; the response with the string id and a second one with the number 1
    both address that slot; the ready client registers its first call under
    the same id.  The second response is a duplicate while the first one
    waits in the slot, is swallowed by the emptied slot before the
    [Remove], and finds no slot after it. *)
Lemma reply_slot_is_single_shot_witness :
  let r1 := protocol.mkResponse (any := unit) "2.0" (protocol.IDString "1") (Some tt) "{}" None in
  let r2 := protocol.mkResponse (any := unit) "2.0" (protocol.IDValue "1") (Some tt) "{}" None in
  ∃ sv c sv1 c1 e e' sv2 sv3 c2 c3 e2 e2',
    server.callClient_register "S1" scenario_peers.server1 = inr ("1", sv) ∧
    client.callServer_register scenario_peers.client0 = ("1", c) ∧
    server.receiveResponse "S1" r1 sv = Returns (None, sv1) ∧
    server.replySlot "S1" "1" sv1 = Some (mkChan [r1] 1 false) ∧
    server.receiveResponse "S1" r2 sv1 = Returns (Some e, sv1) ∧
    pkg.errors_Is e pkg.ErrDuplicateResponseReceived = true ∧
    client.receiveResponse r1 c = Returns (None, c1) ∧
    client.reqID2respChan c1 !! "1" = Some (mkChan [r1] 1 false) ∧
    client.receiveResponse r2 c1 = Returns (Some e', c1) ∧
    pkg.errors_Is e' pkg.ErrDuplicateResponseReceived = true ∧
    server.callClient_receive "S1" "1" sv1 = Some (r1, sv2) ∧
    server.receiveResponse "S1" r2 sv2 = Returns (None, sv3) ∧
    client.callServer_receive "1" c1 = Some (r1, c2) ∧
    client.receiveResponse r2 c2 = Returns (None, c3) ∧
    server.receiveResponse "S1" r2 (server.callClient_remove "S1" "1" sv)
      = Returns (Some e2, server.callClient_remove "S1" "1" sv) ∧
    pkg.errors_Is e2 pkg.ErrDuplicateResponseReceived = false ∧
    client.receiveResponse r2 (client.callServer_remove "1" c)
      = Returns (Some e2', client.callServer_remove "1" c) ∧
    pkg.errors_Is e2' pkg.ErrLackResponseChan = true.
Proof.
  intros r1 r2.
  destruct (server.callClient_register "S1" scenario_peers.server1)
    as [|[requestID sv]] eqn:Hreg; [discriminate|].
  assert (requestID = "1") as -> by (vm_compute in Hreg; congruence).
  pose (c := (client.callServer_register scenario_peers.client0).2).
  destruct (reply_slot_is_single_shot (T := nat) "S1" "1" sv c r1 r2 eq_refl eq_refl)
    as (_ & _ & Hserver & Hclient & Hsgone & Hcgone).
  destruct Hserver
    as (sv1 & Hs1 & Hs2 & (e & Hs3 & Hs4) & sv2 & sv3 & Hs5 & _ & _ & Hs6 & _).
  { injection Hreg as <-. reflexivity. }
  destruct Hclient
    as (c1 & Hc1 & Hc2 & (e' & Hc3 & Hc4) & c2 & c3 & Hc5 & _ & _ & Hc6 & _);
    [reflexivity|].
  destruct Hsgone as (_ & e2 & Hg1 & Hg2 & _).
  destruct Hcgone as (_ & e2' & Hg3 & _ & Hg4).
  exists sv, c, sv1, c1, e, e', sv2, sv3, c2, c3, e2, e2'. repeat split; done.
Defined.

(** Counterexample to C3 as stated: the server registers a call to the
    client of [S1], the response arrives, and the caller takes it and
    returns, its deferred [Remove] dropping the slot.  A second response
    under the same id is then refused for the lack of a response channel;
    it is not reported as a duplicate. *)
Lemma late_response_is_not_a_duplicate :
  ¬ (∀ (ctx : Context unit) (sessionID requestID : string)
       (sv sv1 sv2 sv3 : server.Server unit unit)
       (r1 r2 : protocol.JSONRPCResponse unit) (res : pkg.error unit + bytes),
       server.callClient_register sessionID sv = inr (requestID, sv1) →
       protocol.fmt_Sprint (protocol.resp_ID r1) = requestID →
       protocol.fmt_Sprint (protocol.resp_ID r2) = requestID →
       server.receiveResponse sessionID r1 sv1 = Returns (None, sv2) →
       server.callClient_await scenario_peers.handlers ctx sessionID requestID sv2
         = Returns (res, sv3) →
       ∃ err,
         server.receiveResponse sessionID r2 sv3 = Returns (Some err, sv3) ∧
         pkg.errors_Is err pkg.ErrDuplicateResponseReceived = true).
Proof.
  intros Hall.
  pose (r1 := protocol.mkResponse (any := unit) "2.0" (protocol.IDString "1") (Some tt)
                "{}" None).
  pose (r2 := protocol.mkResponse (any := unit) "2.0" (protocol.IDValue "1") (Some tt)
                "{}" None).
  destruct (server.callClient_register "S1" scenario_peers.server1)
    as [|[requestID sv1]] eqn:Hreg; [discriminate|].
  assert (requestID = "1") as -> by (vm_compute in Hreg; congruence).
  destruct (server.receiveResponse "S1" r1 sv1) as [[[e|] sv2]| |] eqn:Hfirst;
    try (vm_compute in Hreg; injection Hreg as <-; vm_compute in Hfirst; discriminate).
  destruct (server.callClient_await scenario_peers.handlers context_Background "S1" "1" sv2)
    as [[res sv3]| |] eqn:Hawait;
    try (vm_compute in Hreg; injection Hreg as <-; vm_compute in Hfirst;
         injection Hfirst as <-; vm_compute in Hawait; discriminate).
  destruct (Hall context_Background "S1" "1" scenario_peers.server1 sv1 sv2 sv3 r1 r2 res
              Hreg eq_refl eq_refl Hfirst Hawait) as (err & Hlate & Hdup).
  vm_compute in Hreg. injection Hreg as <-. vm_compute in Hfirst. injection Hfirst as <-.
  vm_compute in Hawait. injection Hawait as <- <-.
  vm_compute in Hlate. injection Hlate as <-. vm_compute in Hdup. discriminate.
Qed.

(** Counterexample to C7 as stated: the ready session [S1] sends a
    [tools/call] request, its handler returns a result, and [json.Marshal]
    refuses the response: the handler task closes the reply channel with no
    message on it, so no response reaches the peer. *)
Lemma unmarshallable_response_is_not_sent :
  ¬ (∀ (J : JSON unit) (h : server.Handlers unit unit) (ctx : Context unit) (now : Time)
       (sessionID : string) (request : protocol.JSONRPCRequest unit)
       (sv : server.Server unit unit),
       protocol.req_Method request = protocol.ToolsCall →
       ∃ message,
         chan_buf (@server.handlerTask unit unit J h ctx now sessionID request sv).1.1
           = [message]).
Proof.
  intros Hall.
  destruct (Hall scenario_more.json_unsupported scenario_peers.handlers context_Background
              5%Z "S1"
              (protocol.mkRequest "2.0" (protocol.IDValue "2") "tools/call" (Some tt)
                 scenario.toolsCallParams)
              scenario_peers.server1_ready eq_refl) as [message Hsent].
  vm_compute in Hsent. discriminate.
Qed.

(** Witness of C10: the ready client calls [tools/call]; the transport refuses
    the request (id 1) with [ErrSessionClosed], the re-initialization (request
    id 2 and the notification) succeeds, and the request is not sent again. *)
Lemma reinitialization_drops_the_request_witness :
  let env := scenario_peers.env in
  let ctx := context_Background (any := unit) in
  let c1 := (client.callServer_register scenario_peers.client0).2 in
  let req := protocol.NewJSONRPCRequest (protocol.IDString "1") "tools/call" (Some tt) in
  let message := "{'jsonrpc':'2.0','id':'1','method':'tools/call'}" in
  let err := pkg.Sentinel pkg.ErrSessionClosed in
  let c2 :=
    client.mkClient 3%nat {["1" := make_chan 1]} 2 true false
      (protocol.mkImplementation "c" "0") (protocol.mkClientCapabilities None)
      (Some (protocol.mkServerCapabilities None None None))
      (Some (protocol.mkImplementation "s" "0")) "" in
  let sent2 :=
    [client.mkSent
       (client.FrameRequest
          (protocol.NewJSONRPCRequest (protocol.IDString "2") "initialize" (Some tt)))
       "{'jsonrpc':'2.0','id':'2','method':'initialize'}" None;
     client.mkSent
       (client.FrameNotification
          (protocol.NewJSONRPCNotification "notifications/initialized" (Some tt)))
       "{'jsonrpc':'2.0','method':'notifications/initialized'}" None] in
  client.sendMsgWithRequest env ctx (protocol.IDString "1") "tools/call" (Some tt) c1
    = Returns (None, c2, client.mkSent (client.FrameRequest req) message (Some err) :: sent2)
  ∧ Forall (λ s, client.sent_frame s ≠ client.FrameRequest req) sent2
  ∧ client.reqID2respChan c2 !! "1" = Some (make_chan 1)
  ∧ (∀ ctx' r c',
       client.callServer_await env ctx' "1" c2 = Returns (r, c') →
       ∃ e, ctx_Err ctx' = Some e ∧ r = inl e).
Proof.
  intros env ctx c1 req message err c2 sent2.
  destruct (reinitialization_drops_the_request env ctx "tools/call" (Some tt)
              scenario_peers.client0 message err 1%nat c2 sent2)
    as (Hnil & Hnot & Hwait);
    [reflexivity | reflexivity | reflexivity | vm_compute; reflexivity |].
  destruct Hwait as (Hslot & Hctx & _).
  { intros w. simpl. case_decide; repeat constructor. discriminate. }
  split; [exact Hnil|]. split; [exact Hnot|]. by split.
Defined.

(** The whole call on the same run: with a context that never completes the
    caller stays parked, and with a completed context it returns the
    context's error. *)
Example callServer_after_reinitialization_parks :
  client.callServer scenario_peers.env (client.sendMsgWithRequest scenario_peers.env)
    (context_Background (any := unit)) "tools/call" (Some tt) scenario_peers.client0
    = Blocks.
Proof. vm_compute. reflexivity. Qed.

(** The client's [receive] on a response frame starts the one goroutine that
    runs [receiveResponse]; an undecodable frame starts none. *)
Example client_receive_response :
  client.receive (any := unit) scenario.responseFrame
    = (None, [client.TaskReceiveResponse
                (protocol.mkResponse "2.0" (protocol.IDString "1") (Some tt) "{}" None)]).
Proof. vm_compute. reflexivity. Qed.

Example client_receive_garbage :
  (client.receive (any := unit) "][").2 = [].
Proof. vm_compute. reflexivity. Qed.

(** Once the caller has taken the response and its deferred [Remove] has run,
    a late response under the same id finds no slot and is reported as
    lacking a response channel. *)
Example late_response_after_removal :
  let r1 := protocol.mkResponse (any := unit) "2.0" (protocol.IDString "1") (Some tt) "{}" None in
  let c := client.callServer_remove "1" (client.callServer_register scenario_peers.client0).2 in
  ∃ e, client.receiveResponse r1 c = Returns (Some e, c)
       ∧ pkg.errors_Is e pkg.ErrLackResponseChan = true.
Proof. eexists. split; vm_compute; reflexivity. Qed.

(** * Further properties of the session manager *)
Section session_more.
Import pkg protocol session session_runs.
Context {any W : Type}
        (detection : string → State any → W → option (error any) * State any * W).
Implicit Types (m : Manager any) (s st : State any) (w : W).

(** X1. [CloseSession] is idempotent: once it has returned, a second call for
    the same id returns the manager it is given, whether the id was active
    before the first call or not. *)
Theorem CloseSession_idempotent sessionID m m1 :
  CloseSession sessionID m = Returns m1 →
  CloseSession sessionID m1 = Returns m1.
Proof.
  intros Hclose. unfold CloseSession in *.
  destruct (activeSessions m !! sessionID) as [st|] eqn:Hst.
  - destruct (Close st) as [st'| |]; simpl in Hclose; try discriminate.
    injection Hclose as <-. simpl. by rewrite lookup_delete_eq.
  - injection Hclose as <-. by rewrite Hst.
Qed.

(** Closing the sessions of a list of distinct active entries, one after the
    other. *)
Lemma close_each (l : list (string * State any)) m :
  NoDup l.*1 →
  (∀ k v, (k, v) ∈ l → activeSessions m !! k = Some v ∧ outboxUnclosed v) →
  ∃ m',
    foldl (λ acc kv, m' ← acc; CloseSession kv.1 m') (mret m) l = Returns m' ∧
    (∀ k, k ∈ l.*1 → activeSessions m' !! k = None) ∧
    (∀ k, k ∉ l.*1 → activeSessions m' !! k = activeSessions m !! k) ∧
    closedSessions m' = list_to_set l.*1 ∪ closedSessions m ∧
    maxIdleTime m' = maxIdleTime m.
Proof.
  revert m. induction l as [|[k v] l IH]; intros m Hnd Hin.
  - exists m. split; [done|]. split; [by intros k ?%elem_of_nil|].
    split; [done|]. split; [|done]. rewrite fmap_nil. clear. set_solver.
  - rewrite fmap_cons in *. apply NoDup_cons in Hnd as [Hk Hnd].
    change ((k, v).1) with k in *.
    destruct (Hin k v) as [Hkv Hopen]; [apply list_elem_of_here|].
    destruct (CloseSession_active_returns detection _ _ _ Hkv Hopen) as (m1 & Hm1 & _).
    assert (activeSessions m1 = delete k (activeSessions m)
            ∧ closedSessions m1 = {[k]} ∪ closedSessions m
            ∧ maxIdleTime m1 = maxIdleTime m) as (Ha1 & Hc1 & Hi1).
    { unfold CloseSession in Hm1. rewrite Hkv in Hm1.
      destruct (Close v); simpl in Hm1; try discriminate. by injection Hm1 as <-. }
    destruct (IH m1) as (m' & Hfold & Hin' & Hout' & Hcl & Hidle); [done| |].
    { intros k' v' Hkv'.
      destruct (Hin k' v') as [Hk' Hopen']; [by apply list_elem_of_further|].
      split; [|done]. rewrite Ha1, lookup_delete_ne; [done|].
      intros ->. apply Hk. apply list_elem_of_fmap. by exists (k', v'). }
    exists m'. split.
    { rewrite <- Hfold. cbn [foldl].
      change (mret m ≫= λ m'0, CloseSession (k, v).1 m'0) with (CloseSession k m).
      by rewrite Hm1. }
    split.
    { intros k' Hk'. destruct (decide (k' ∈ l.*1)) as [Hl|Hl]; [by apply Hin'|].
      apply elem_of_cons in Hk' as [->|?]; [|done].
      rewrite Hout', Ha1 by done. apply lookup_delete_eq. }
    split.
    { intros k' Hk'. apply not_elem_of_cons in Hk' as [Hne Hl].
      rewrite Hout', Ha1 by done. by apply lookup_delete_ne. }
    split; [|congruence].
    rewrite Hcl, Hc1. clear. set_solver.
Qed.

(** X2. When no outbox of an active session has been closed behind the
    manager's back, [CloseAllSessions] returns, leaves no session active and
    adds exactly the ids that were active to the closed set. *)
Theorem CloseAllSessions_closes_all m :
  (∀ sessionID st, activeSessions m !! sessionID = Some st → outboxUnclosed st) →
  ∃ m',
    CloseAllSessions m = Returns m' ∧
    activeSessions m' = ∅ ∧
    IsEmpty m' = true ∧
    closedSessions m' = dom (activeSessions m) ∪ closedSessions m.
Proof.
  intros Hopen.
  destruct (close_each (map_to_list (activeSessions m)) m)
    as (m' & Hfold & Hin & Hout & Hcl & _).
  { apply NoDup_fst_map_to_list. }
  { intros k v Hkv. apply elem_of_map_to_list in Hkv. split; [done|]. by eapply Hopen. }
  assert (activeSessions m' = ∅) as Hempty.
  { apply map_eq. intros k. rewrite lookup_empty.
    destruct (decide (k ∈ (map_to_list (activeSessions m)).*1)) as [Hk|Hk];
      [by apply Hin|].
    rewrite Hout by done.
    destruct (activeSessions m !! k) as [v|] eqn:Hkv; [|done].
    exfalso. apply Hk. apply list_elem_of_fmap. exists (k, v).
    split; [done|]. by apply elem_of_map_to_list. }
  exists m'. split; [exact Hfold|]. split; [exact Hempty|]. split.
  - unfold IsEmpty. rewrite Hempty, map_to_list_empty. by apply bool_decide_eq_true.
  - rewrite Hcl. f_equal. apply set_eq. intros k.
    rewrite elem_of_list_to_set, elem_of_dom, list_elem_of_fmap. split.
    + intros [[k' v] [-> Hkv]]. apply elem_of_map_to_list in Hkv. by eexists.
    + intros [v Hv]. exists (k, v). split; [done|]. by apply elem_of_map_to_list.
Qed.

(** *** What a run of manager operations can do to the two maps *)

Lemma evolves_refl m : evolves m ∅ m.
Proof. unfold evolves. clear. set_solver. Qed.

Lemma evolves_trans m n1 m1 n2 m2 :
  evolves m n1 m1 → evolves m1 n2 m2 → evolves m (n1 ∪ n2) m2.
Proof. unfold evolves. clear. set_solver. Qed.

Lemma evolves_weaken m n n' m1 : n ⊆ n' → evolves m n m1 → evolves m n' m1.
Proof. unfold evolves. clear. set_solver. Qed.

Lemma store_state_evolves sessionID st s' m :
  activeSessions m !! sessionID = Some st →
  evolves m ∅ (store_state sessionID s' m).
Proof.
  intros Hst. unfold evolves, store_state. simpl.
  rewrite dom_insert_L. apply (elem_of_dom_2 (D := gset string)) in Hst.
  revert Hst. clear. set_solver.
Qed.

Lemma store_state_disjoint sessionID st s' m :
  activeSessions m !! sessionID = Some st →
  disjointSets m → disjointSets (store_state sessionID s' m).
Proof.
  intros Hst Hdis k Hk. simpl in *.
  destruct (decide (k = sessionID)) as [->|Hne].
  - rewrite (Hdis _ Hk) in Hst. discriminate.
  - rewrite lookup_insert_ne by done. by apply Hdis.
Qed.

Lemma CloseSession_evolves sessionID m m1 :
  CloseSession sessionID m = Returns m1 → evolves m ∅ m1.
Proof.
  unfold CloseSession. destruct (activeSessions m !! sessionID) as [st|] eqn:Hst.
  - destruct (Close st); simpl; try discriminate. intros [= <-].
    unfold evolves. simpl. rewrite dom_delete_L.
    apply (elem_of_dom_2 (D := gset string)) in Hst. revert Hst. clear.
    intros Hst. repeat split; try set_solver.
    intros k Hk. destruct (decide (k = sessionID)); set_solver.
  - intros [= <-]. apply evolves_refl.
Qed.

Lemma CloseSession_disjoint sessionID m m1 :
  CloseSession sessionID m = Returns m1 → disjointSets m → disjointSets m1.
Proof.
  unfold CloseSession. destruct (activeSessions m !! sessionID) as [st|] eqn:Hst.
  - destruct (Close st); simpl; try discriminate. intros [= <-] Hdis k Hk. simpl in *.
    destruct (decide (k = sessionID)) as [->|Hne]; [apply lookup_delete_eq|].
    rewrite lookup_delete_ne by done. apply Hdis.
    apply elem_of_union in Hk as [Hk|Hk]; [|done].
    apply elem_of_singleton in Hk. done.
  - by intros [= <-].
Qed.

Lemma detectionLoop_evolves n sessionID st err m w :
  evolves m ∅ (detectionLoop detection n sessionID st err (m, w)).2.1 ∧
  (disjointSets m → disjointSets (detectionLoop detection n sessionID st err (m, w)).2.1).
Proof.
  destruct (detectionLoop_shape detection n sessionID st err m w)
    as [->|(st0 & st' & Hst & ->)].
  - split; [apply evolves_refl|done].
  - split; [by eapply store_state_evolves|by eapply store_state_disjoint].
Qed.

Lemma heartbeatVisit_evolves now sessionID st m w m1 w1 :
  heartbeatVisit detection now sessionID st (m, w) = Returns (m1, w1) →
  evolves m ∅ m1 ∧ (disjointSets m → disjointSets m1).
Proof.
  unfold heartbeatVisit.
  destruct (bool_decide _ && bool_decide _).
  - destruct (CloseSession sessionID m) as [m'| |] eqn:Hc; simpl; try discriminate.
    intros [= <- <-]. split; [by eapply CloseSession_evolves|by eapply CloseSession_disjoint].
  - destruct (detectionLoop_evolves 3 sessionID st None m w) as [Hev Hdis].
    destruct (detectionLoop detection 3 sessionID st None (m, w)) as [[e|] [m' w']];
      simpl in Hev, Hdis.
    + destruct (CloseSession sessionID m') as [m''| |] eqn:Hc; simpl; try discriminate.
      intros [= <- <-]. split.
      * eapply evolves_weaken; [|eapply evolves_trans; [exact Hev|]].
        2: by eapply CloseSession_evolves. clear; set_solver.
      * intros Hd. eapply CloseSession_disjoint; [exact Hc|auto].
    + intros [= <- <-]. done.
Qed.

Lemma step_evolves op m w m1 w1 :
  step detection op (m, w) = Returns (m1, w1) →
  evolves m (list_to_set (createdIDs [op])) m1 ∧
  ((∀ id, created op = Some id → id ∉ closedSessions m) →
   disjointSets m → disjointSets m1).
Proof.
  assert (∀ m m', evolves m ∅ m' → evolves m (list_to_set (createdIDs [op])) m') as Hw.
  { intros ??. apply evolves_weaken. clear. set_solver. }
  intros Hstep. destruct op; simpl in Hstep.
  - injection Hstep as <- <-. split.
    + unfold evolves, createdIDs. simpl. rewrite dom_insert_L. clear. set_solver.
    + intros Hfresh Hdis k Hk. simpl in *.
      rewrite lookup_insert_ne; [by apply Hdis|].
      intros <-. by eapply Hfresh.
  - injection Hstep as <- <-. split; [apply Hw; unfold evolves; simpl; clear; set_solver|done].
  - injection Hstep as <- <-. unfold OpenMessageQueueForSend.
    destruct (GetSession sessionID m) as [st|] eqn:Hget; simpl;
      [|split; [apply Hw, evolves_refl|done]].
    apply GetSession_Some in Hget.
    split; [by eapply Hw, store_state_evolves|intros _; by eapply store_state_disjoint].
  - unfold EnqueueMessageForSend in Hstep.
    destruct (GetSession sessionID m) as [st|] eqn:Hget.
    + destruct (enqueueMessage ctx pick_second message st) as [[err st']| |];
        simpl in Hstep; try discriminate.
      injection Hstep as <- <-. simpl. apply GetSession_Some in Hget.
      split; [by eapply Hw, store_state_evolves|intros _; by eapply store_state_disjoint].
    + injection Hstep as <- <-. split; [apply Hw, evolves_refl|done].
  - unfold DequeueMessageForSend in Hstep.
    destruct (GetSession sessionID m) as [st|] eqn:Hget.
    + destruct (dequeueMessage ctx pick_second st) as [[[msg err] st']| |];
        simpl in Hstep; try discriminate.
      injection Hstep as <- <-. simpl. apply GetSession_Some in Hget.
      split; [by eapply Hw, store_state_evolves|intros _; by eapply store_state_disjoint].
    + injection Hstep as <- <-. split; [apply Hw, evolves_refl|done].
  - injection Hstep as <- <-. unfold UpdateSessionLastActiveAt.
    destruct (activeSessions m !! sessionID) as [st|] eqn:Hget;
      [|split; [apply Hw, evolves_refl|done]].
    split; [by eapply Hw, store_state_evolves|intros _; by eapply store_state_disjoint].
  - destruct (GetSession sessionID m) as [st|] eqn:Hget.
    + injection Hstep as <- <-. apply GetSession_Some in Hget.
      split; [by eapply Hw, store_state_evolves|intros _; by eapply store_state_disjoint].
    + injection Hstep as <- <-. split; [apply Hw, evolves_refl|done].
  - destruct (CloseSession sessionID m) as [m'| |] eqn:Hc; simpl in Hstep; try discriminate.
    injection Hstep as <- <-.
    split; [by eapply Hw, CloseSession_evolves|intros _; by eapply CloseSession_disjoint].
  - destruct (CloseAllSessions m) as [m'| |] eqn:Hc; simpl in Hstep; try discriminate.
    injection Hstep as <- <-. unfold CloseAllSessions in Hc.
    cut (evolves m ∅ m' ∧ (disjointSets m → disjointSets m')).
    { intros [??]. split; [by apply Hw|auto]. }
    eapply (foldl_outcome_invariant
              (λ a, evolves m ∅ a ∧ (disjointSets m → disjointSets a))
              (λ kv a, CloseSession kv.1 a)); [| |exact Hc].
    + intros kv a a1 [Hev Hdis] Hclose. split.
      * eapply evolves_weaken; [|eapply evolves_trans; [exact Hev|]].
        2: by eapply CloseSession_evolves. clear; set_solver.
      * intros Hd. eapply CloseSession_disjoint; [exact Hclose|auto].
    + intros a [= <-]. split; [apply evolves_refl|done].
  - unfold heartbeatTick in Hstep. simpl in Hstep.
    cut (evolves m ∅ (m1, w1).1 ∧ (disjointSets m → disjointSets (m1, w1).1)).
    { intros [??]. split; [by apply Hw|auto]. }
    eapply (foldl_outcome_invariant
              (λ a, evolves m ∅ a.1 ∧ (disjointSets m → disjointSets a.1))
              (λ kv a, heartbeatVisit detection now kv.1 kv.2 a)); [| |exact Hstep].
    + intros kv [a wa] [a1 wa1] [Hev Hdis] Hvisit. simpl in *.
      apply heartbeatVisit_evolves in Hvisit as [Hev1 Hdis1]. split.
      * eapply evolves_weaken; [|eapply evolves_trans; [exact Hev|exact Hev1]].
        clear; set_solver.
      * auto.
    + intros a [= <-]. split; [apply evolves_refl|done].
Qed.

Lemma run_evolves ops m w m1 w1 :
  run detection ops (m, w) = Returns (m1, w1) →
  evolves m (list_to_set (createdIDs ops)) m1.
Proof.
  revert m w. induction ops as [|op ops IH]; intros m w Hrun.
  - injection Hrun as <- <-. apply evolves_refl.
  - change (step detection op (m, w) ≫= run detection ops = Returns (m1, w1)) in Hrun.
    destruct (step detection op (m, w)) as [[m' w']| |] eqn:Hstep; try discriminate.
    simpl in Hrun. apply IH in Hrun. apply step_evolves in Hstep as [Hev _].
    eapply evolves_weaken; [|eapply evolves_trans; [exact Hev|exact Hrun]].
    unfold createdIDs. simpl. destruct (created op); clear; set_solver.
Qed.

(** X3. No session is lost without a trace: after any run of manager
    operations that returns, every id that was active or closed at the
    start is active or closed at the end, the closed set has only grown,
    and every id that is active at the end was active at the start or was
    handed out by [CreateSession] during the run. *)
Theorem run_conserves_sessions ops m w m1 w1 :
  run detection ops (m, w) = Returns (m1, w1) →
  closedSessions m ⊆ closedSessions m1 ∧
  dom (activeSessions m) ⊆ dom (activeSessions m1) ∪ closedSessions m1 ∧
  dom (activeSessions m1) ⊆ dom (activeSessions m) ∪ list_to_set (createdIDs ops).
Proof.
  intros Hrun. apply run_evolves in Hrun as (H1 & _ & H3 & H4). done.
Qed.

(** X4. The active map and the closed set stay disjoint: if no id is both
    active and closed, and the ids handed out by [uuid.NewString()] during a
    run are distinct and new (neither active nor closed at the start), then
    no id is both active and closed after the run. *)
Theorem run_keeps_disjoint ops m w m1 w1 :
  disjointSets m →
  NoDup (createdIDs ops) →
  (∀ id, id ∈ createdIDs ops →
         (id ∉ closedSessions m) ∧ activeSessions m !! id = None) →
  run detection ops (m, w) = Returns (m1, w1) →
  disjointSets m1.
Proof.
  revert m w. induction ops as [|op ops IH]; intros m w Hdis Hnd Hfresh Hrun.
  - by injection Hrun as <- <-.
  - change (step detection op (m, w) ≫= run detection ops = Returns (m1, w1)) in Hrun.
    destruct (step detection op (m, w)) as [[m' w']| |] eqn:Hstep; try discriminate.
    simpl in Hrun. apply step_evolves in Hstep as [Hev Hdis'].
    assert (createdIDs (op :: ops)
            = match created op with Some id => [id] | None => [] end ++ createdIDs ops)
      as Hids by (unfold createdIDs; simpl; by destruct (created op)).
    rewrite Hids in Hnd, Hfresh.
    eapply IH; [| | |exact Hrun].
    + apply Hdis'; [|done]. intros id Hid. apply Hfresh. rewrite Hid.
      apply list_elem_of_here.
    + by apply NoDup_app in Hnd as (_ & _ & Hnd).
    + intros id Hid.
      assert ((id ∉ closedSessions m) ∧ activeSessions m !! id = None) as [Hc Ha].
      { apply Hfresh. apply elem_of_app. by right. }
      assert (id ∉ (list_to_set (createdIDs [op]) : gset string)) as Hop.
      { unfold createdIDs. simpl. destruct (created op) as [id'|]; [|clear; set_solver].
        apply NoDup_app in Hnd as (_ & Hnd & _).
        intros Hin. apply (Hnd id'); [apply list_elem_of_here|].
        revert Hin. clear -Hid. simpl. intros Hin.
        assert (id = id') as -> by set_solver. done. }
      apply (not_elem_of_dom (D := gset string)) in Ha.
      destruct Hev as (_ & H2 & H3 & _).
      split; [|apply (not_elem_of_dom (D := gset string))];
        revert Hc Ha Hop H2 H3; clear; set_solver.
Qed.

(** *** The outbox as a bounded queue *)

Lemma ctx_live_not_done (ctx : Context any) : ctx_Err ctx = None → ctx_done ctx = false.
Proof.
  intros Hctx. unfold ctx_done. rewrite Hctx. apply bool_decide_eq_false. by intros [? ?].
Qed.

Lemma ctx_err_done (ctx : Context any) e : ctx_Err ctx = Some e → ctx_done ctx = true.
Proof. intros Hctx. unfold ctx_done. rewrite Hctx. by apply bool_decide_eq_true. Qed.

Lemma enqueueAll_room (ctx : Context any) pick messages buf cap s :
  ctx_Err ctx = None →
  closed s = false →
  sendChan s = Some (mkChan buf cap false) →
  (length buf + length messages ≤ cap)%nat →
  enqueueAll ctx pick messages s =
    Returns (replicate (length messages) None,
             with_sendChan (Some (mkChan (buf ++ messages) cap false)) s).
Proof.
  intros Hctx. apply ctx_live_not_done in Hctx.
  revert buf s. induction messages as [|msg messages IH]; intros buf s Hopen Hs Hlen.
  - simpl. rewrite app_nil_r. f_equal. f_equal. destruct s; simpl in *. by subst.
  - simpl in Hlen. cbn [enqueueAll]. unfold enqueueMessage. rewrite Hopen, Hs.
    unfold send_ready. simpl.
    rewrite (bool_decide_eq_true_2 (length buf < cap)%nat) by lia.
    rewrite Hctx. simpl.
    rewrite (IH (buf ++ [msg])).
    + simpl. rewrite with_sendChan_twice, <- app_assoc. done.
    + by destruct s.
    + apply sendChan_with_sendChan.
    + rewrite length_app. simpl. lia.
Qed.

Lemma dequeueN_buffered (ctx : Context any) pick buf cap cl s :
  ctx_Err ctx = None →
  sendChan s = Some (mkChan buf cap cl) →
  dequeueN ctx pick (length buf) s =
    Returns ((λ msg, (msg, None)) <$> buf, with_sendChan (Some (mkChan [] cap cl)) s).
Proof.
  intros Hctx. apply ctx_live_not_done in Hctx.
  revert s. induction buf as [|msg buf IH]; intros s Hs.
  - simpl. f_equal. f_equal. destruct s; simpl in *. by subst.
  - simpl. unfold dequeueMessage. rewrite Hs, Hctx. simpl.
    rewrite IH by apply sendChan_with_sendChan.
    simpl. by rewrite with_sendChan_twice.
Qed.

(** X5. The outbox is a first-in first-out queue: on an open session whose
    outbox has room, under a context that has not completed, a series of
    [enqueueMessage] calls all return nil, and as many [dequeueMessage]
    calls as there are messages then return what was already waiting
    followed by the new messages, in the order they were enqueued, and leave
    the outbox empty. *)
Theorem outbox_is_first_in_first_out (ctx : Context any) pick messages s ch :
  ctx_Err ctx = None →
  closed s = false →
  sendChan s = Some ch →
  chan_closed ch = false →
  (length (chan_buf ch) + length messages ≤ chan_cap ch)%nat →
  ∃ s1 s2,
    enqueueAll ctx pick messages s = Returns (replicate (length messages) None, s1) ∧
    queued s1 = chan_buf ch ++ messages ∧
    dequeueN ctx pick (length (chan_buf ch ++ messages)) s1
      = Returns ((λ msg, (msg, None)) <$> (chan_buf ch ++ messages), s2) ∧
    queued s2 = [].
Proof.
  intros Hctx Hopen Hs Hcl Hlen. destruct ch as [buf cap cl]. simpl in *. subst cl.
  eexists _, _. split; [by apply enqueueAll_room|].
  split; [unfold queued; by rewrite sendChan_with_sendChan|].
  split; [apply dequeueN_buffered; [done|apply sendChan_with_sendChan]|].
  unfold queued. by rewrite sendChan_with_sendChan.
Qed.

(** X6. The outbox holds 64 messages and never drops one: after
    [openMessageQueueForSend] on a session that had no outbox, 64 calls of
    [enqueueMessage] return nil; a further call suspends while the context
    is live, and returns the context's error, leaving the queue as it is,
    once the context is done. *)
Theorem outbox_capacity (ctx : Context any) pick messages message s :
  ctx_Err ctx = None →
  closed s = false →
  sendChan s = None →
  length messages = 64%nat →
  ∃ s1,
    enqueueAll ctx pick messages (openMessageQueueForSend s)
      = Returns (replicate 64 None, s1) ∧
    queued s1 = messages ∧
    enqueueMessage ctx pick message s1 = Blocks ∧
    ∀ (ctx' : Context any) pick' e,
      ctx_Err ctx' = Some e →
      enqueueMessage ctx' pick' message s1 = Returns (Some e, s1).
Proof.
  intros Hctx Hopen Hs Hlen. unfold openMessageQueueForSend. rewrite Hs.
  eexists. split.
  { rewrite (enqueueAll_room ctx pick messages [] 64 _ Hctx).
    - by rewrite Hlen.
    - by destruct s.
    - apply sendChan_with_sendChan.
    - simpl. lia. }
  split; [unfold queued; by rewrite sendChan_with_sendChan|].
  assert (∀ c : Context any, ∀ p,
            enqueueMessage c p message
              (with_sendChan (Some (mkChan ([] ++ messages) 64 false))
                 (with_sendChan (Some (make_chan 64)) s))
            = if ctx_done c
              then Returns (ctx_Err c,
                            with_sendChan (Some (mkChan ([] ++ messages) 64 false))
                              (with_sendChan (Some (make_chan 64)) s))
              else Blocks) as Henq.
  { intros c p. unfold enqueueMessage.
    replace (closed (with_sendChan _ (with_sendChan _ s))) with false by (by destruct s).
    rewrite sendChan_with_sendChan. unfold send_ready. simpl.
    rewrite (bool_decide_eq_false_2 (length messages < 64)%nat) by lia.
    by destruct (ctx_done c). }
  split.
  - rewrite Henq, (ctx_live_not_done _ Hctx). done.
  - intros ctx' pick' e He. rewrite Henq, (ctx_err_done _ _ He), He. done.
Qed.

(** *** One tick of the heartbeat *)

Lemma foldl_outcome_start {A B} (f : B → A → outcome A) (l : list B)
    (acc : outcome A) (a' : A) :
  foldl (λ acc b, a ← acc; f b a) acc l = Returns a' → ∃ a, acc = Returns a.
Proof.
  revert acc. induction l as [|b l IH]; intros acc Hfold; [by eexists|].
  simpl in Hfold. apply IH in Hfold as [a Ha].
  destruct acc as [a0| |]; simpl in Ha; try discriminate. by eexists.
Qed.

(** A visit that finds the session neither expired nor unreachable leaves
    the two id sets and [maxIdleTime] as they were. *)
Lemma heartbeatVisit_healthy now sessionID state m w :
  is_Some (activeSessions m !! sessionID) →
  maxIdleTime m = 0%Z ∨ (Time_Sub now (lastActiveAt state) ≤ maxIdleTime m)%Z →
  (∀ id st w', ¬ three_failures detection id st w') →
  ∃ m1 w1,
    heartbeatVisit detection now sessionID state (m, w) = Returns (m1, w1) ∧
    dom (activeSessions m1) = dom (activeSessions m) ∧
    closedSessions m1 = closedSessions m ∧
    maxIdleTime m1 = maxIdleTime m.
Proof.
  intros [st Hst] Hidle Hprobe. unfold heartbeatVisit.
  assert (bool_decide (maxIdleTime m ≠ 0%Z)
          && bool_decide (Time_Sub now (lastActiveAt state) > maxIdleTime m)%Z = false)
    as ->.
  { apply andb_false_iff. rewrite !bool_decide_eq_false.
    destruct Hidle as [Hz|Hle]; [left; by intros ?|right; lia]. }
  pose proof (detectionLoop_three detection sessionID state st m w Hst) as Hloop.
  destruct (detectionLoop_shape detection 3 sessionID state None m w) as [Hm|Hm].
  - destruct (detectionLoop detection 3 sessionID state None (m, w)) as [[e|] [m1 w1]];
      simpl in *.
    + exfalso. apply (Hprobe sessionID st w). apply Hloop. by eexists.
    + subst m1. by eexists _, _.
  - destruct Hm as (st0 & st' & Hst0 & Hm).
    destruct (detectionLoop detection 3 sessionID state None (m, w)) as [[e|] [m1 w1]];
      simpl in *.
    + exfalso. apply (Hprobe sessionID st w). apply Hloop. by eexists.
    + subst m1. eexists _, _. split; [done|]. simpl. split; [|done].
      rewrite dom_insert_L. apply (elem_of_dom_2 (D := gset string)) in Hst0.
      revert Hst0. clear. set_solver.
Qed.

Lemma visits_healthy now (l : list (string * State any)) m ma w :
  (∀ sessionID st w', ¬ three_failures detection sessionID st w') →
  dom (activeSessions ma) = dom (activeSessions m) →
  closedSessions ma = closedSessions m →
  maxIdleTime ma = maxIdleTime m →
  (∀ kv, kv ∈ l →
     kv.1 ∈ dom (activeSessions m) ∧
     (maxIdleTime m = 0%Z ∨ (Time_Sub now (lastActiveAt kv.2) ≤ maxIdleTime m)%Z)) →
  ∃ m1 w1,
    foldl (λ acc kv, mw' ← acc; heartbeatVisit detection now kv.1 kv.2 mw')
          (mret (ma, w)) l = Returns (m1, w1) ∧
    dom (activeSessions m1) = dom (activeSessions m) ∧
    closedSessions m1 = closedSessions m ∧
    maxIdleTime m1 = maxIdleTime m.
Proof.
  intros Hprobe. revert ma w.
  induction l as [|[k st] l IH]; intros ma w Hd Hc Hi Hl; [by eexists _, _|].
  cbn [foldl].
  destruct (Hl (k, st)) as [Hk Hidle']; [apply list_elem_of_here|]. simpl in Hk, Hidle'.
  destruct (heartbeatVisit_healthy now k st ma w) as (m1 & w1 & Hv & Hd1 & Hc1 & Hi1).
  { apply elem_of_dom. by rewrite Hd. }
  { by rewrite Hi. }
  { done. }
  change (mret (ma, w) ≫= λ mw', heartbeatVisit detection now (k, st).1 (k, st).2 mw')
    with (heartbeatVisit detection now k st (ma, w)).
  rewrite Hv.
  apply (IH m1 w1); [congruence..|].
  intros kv Hkv. apply Hl. by apply list_elem_of_further.
Qed.

(** X7. A tick of the heartbeat closes nothing when nothing calls for it:
    if no active session has been idle longer than a non-zero
    [maxIdleTime], and the liveness probe never fails three times in a row,
    the tick returns with the same active ids, the same closed set and the
    same [maxIdleTime]; the state of each session is as the probes left
    it. *)
Theorem heartbeatTick_healthy now m w :
  (∀ sessionID st, activeSessions m !! sessionID = Some st →
     maxIdleTime m = 0%Z ∨ (Time_Sub now (lastActiveAt st) ≤ maxIdleTime m)%Z) →
  (∀ sessionID st w', ¬ three_failures detection sessionID st w') →
  ∃ m1 w1,
    heartbeatTick detection now (m, w) = Returns (m1, w1) ∧
    dom (activeSessions m1) = dom (activeSessions m) ∧
    closedSessions m1 = closedSessions m ∧
    maxIdleTime m1 = maxIdleTime m.
Proof.
  intros Hidle Hprobe. unfold heartbeatTick. cbn [fst].
  apply visits_healthy; try done.
  intros [k st] Hkv. apply elem_of_map_to_list in Hkv. split; [by eapply elem_of_dom_2|].
  by eapply Hidle.
Qed.

Lemma detectionLoop_other n sessionID other st err m w :
  other ≠ sessionID →
  activeSessions (detectionLoop detection n other st err (m, w)).2.1 !! sessionID
    = activeSessions m !! sessionID ∧
  maxIdleTime (detectionLoop detection n other st err (m, w)).2.1 = maxIdleTime m.
Proof.
  intros Hne.
  destruct (detectionLoop_shape detection n other st err m w) as [->|(st0 & st' & _ & ->)];
    [done|].
  simpl. by rewrite lookup_insert_ne.
Qed.

Lemma heartbeatVisit_other now sessionID other st m w m1 w1 :
  other ≠ sessionID →
  heartbeatVisit detection now other st (m, w) = Returns (m1, w1) →
  activeSessions m1 !! sessionID = activeSessions m !! sessionID ∧
  maxIdleTime m1 = maxIdleTime m.
Proof.
  intros Hne Hv.
  assert (∀ m0 m', CloseSession other m0 = Returns m' →
            activeSessions m' !! sessionID = activeSessions m0 !! sessionID ∧
            maxIdleTime m' = maxIdleTime m0) as Hclose.
  { intros m0 m'. unfold CloseSession. destruct (activeSessions m0 !! other) as [so|].
    - destruct (Close so); simpl; try discriminate. intros [= <-]. simpl.
      by rewrite lookup_delete_ne.
    - by intros [= <-]. }
  unfold heartbeatVisit in Hv. destruct (_ && _).
  - destruct (CloseSession other m) as [m'| |] eqn:Hc; simpl in Hv; try discriminate.
    injection Hv as <- <-. by apply Hclose.
  - destruct (detectionLoop_other 3 sessionID other st None m w Hne) as [Hl Hi].
    destruct (detectionLoop detection 3 other st None (m, w)) as [[e|] [m' w']];
      simpl in Hl, Hi.
    + destruct (CloseSession other m') as [m''| |] eqn:Hc; simpl in Hv; try discriminate.
      injection Hv as <- <-. destruct (Hclose _ _ Hc) as [-> ->]. done.
    + by injection Hv as <- <-.
Qed.

Lemma visits_reap now sessionID st (l : list (string * State any)) m w m1 w1 :
  NoDup l.*1 →
  (sessionID, st) ∈ l →
  is_Some (activeSessions m !! sessionID) →
  maxIdleTime m ≠ 0%Z →
  (Time_Sub now (lastActiveAt st) > maxIdleTime m)%Z →
  foldl (λ acc kv, mw' ← acc; heartbeatVisit detection now kv.1 kv.2 mw') (mret (m, w)) l
    = Returns (m1, w1) →
  retired sessionID m1.
Proof.
  revert m w. induction l as [|[k0 st0] l IH]; intros m w Hnd Hin Hact Hnz Hgt Hfold.
  - by apply elem_of_nil in Hin.
  - rewrite fmap_cons in Hnd. apply NoDup_cons in Hnd as [Hk0 Hnd].
    change ((k0, st0).1) with k0 in Hk0. cbn [foldl] in Hfold.
    change (mret (m, w) ≫= λ mw', heartbeatVisit detection now (k0, st0).1 (k0, st0).2 mw')
      with (heartbeatVisit detection now k0 st0 (m, w)) in Hfold.
    destruct (foldl_outcome_start _ _ _ _ Hfold) as [[ma wa] Hvisit].
    rewrite Hvisit in Hfold.
    apply elem_of_cons in Hin as [[= <- <-]|Hin].
    + assert (retired sessionID ma) as Hret.
      { unfold heartbeatVisit in Hvisit.
        rewrite (bool_decide_eq_true_2 _ Hnz), (bool_decide_eq_true_2 _ Hgt) in Hvisit.
        simpl in Hvisit.
        destruct (CloseSession sessionID m) as [m'| |] eqn:Hc; simpl in Hvisit;
          try discriminate.
        injection Hvisit as <- <-. by eapply (CloseSession_retires detection). }
      change (retired sessionID (m1, w1).1).
      eapply (foldl_outcome_invariant (λ mw : Manager any * W, retired sessionID mw.1)
                (λ kv mw', heartbeatVisit detection now kv.1 kv.2 mw')); [| |exact Hfold].
      * intros kv [a wa'] [a1 wa1] Ha Hc. by eapply heartbeatVisit_keeps_retired.
      * by intros a [= <-].
    + assert (k0 ≠ sessionID) as Hne.
      { intros ->. apply Hk0. apply list_elem_of_fmap. by exists (sessionID, st). }
      destruct (heartbeatVisit_other _ sessionID _ _ _ _ _ _ Hne Hvisit) as [Hsame Hidle].
      eapply (IH ma wa); try done; by rewrite ?Hsame, ?Hidle.
Qed.

(** X8. One tick of the heartbeat reaps every expired session: with a
    non-zero [maxIdleTime], each session that was active when the tick
    started and had been idle for longer than that is, once the tick has
    returned, no longer active and in the closed set. *)
Theorem heartbeatTick_reaps_expired now sessionID st m w m1 w1 :
  activeSessions m !! sessionID = Some st →
  maxIdleTime m ≠ 0%Z →
  (Time_Sub now (lastActiveAt st) > maxIdleTime m)%Z →
  heartbeatTick detection now (m, w) = Returns (m1, w1) →
  IsActiveSession sessionID m1 = false ∧ IsClosedSession sessionID m1 = true.
Proof.
  intros Hst Hnz Hgt Htick. apply retired_spec.
  eapply visits_reap; [| | | | |exact Htick]; try done.
  - apply NoDup_fst_map_to_list.
  - by apply elem_of_map_to_list.
Qed.

End session_more.

(** * Further properties of the server's dispatcher *)
Section server_more.
Import pkg pkg_json protocol protocol_json session session_runs server.
Context {any App W : Type} `{!JSON any} (h : Handlers any App).
Context (detection : string → State any → W → option (error any) * State any * W).
Implicit Types (server : Server any App) (ctx : Context any).

(** X9. Every frame that names a closed session is refused with
    [ErrSessionClosed] before it is looked at: once [CloseSession] has
    returned for a session, and whatever the manager has done since short of
    being handed the same id again by the id generator, [receive] returns
    that error for any message under that session id, leaves the server as
    it is and dispatches nothing. *)
Theorem closed_session_frames_are_refused ctx now sessionID msg server m0 m1 ops w w2 :
  sessionID ≠ "" →
  is_Some (activeSessions m0 !! sessionID) →
  CloseSession sessionID m0 = Returns m1 →
  Forall (λ op, created op ≠ Some sessionID) ops →
  run detection ops (m1, w) = Returns (server.sessionManager server, w2) →
  receive h ctx now sessionID msg server
    = Returns (RecvErr (Sentinel ErrSessionClosed), server, []).
Proof.
  intros Hsid Hact Hclose Hfresh Hrun.
  pose proof (CloseSession_retires detection _ _ _ Hact Hclose) as Hret.
  pose proof (run_keeps_retired detection _ _ _ _ _ _ Hfresh Hret Hrun) as Hret2.
  apply retired_spec in Hret2 as [Hina Hcl].
  unfold receive. rewrite Hina, Hcl.
  by rewrite (bool_decide_eq_true_2 _ Hsid).
Qed.

Lemma with_inFlyRequest_balanced server :
  with_inFlyRequest
    (inFlyRequest (with_inFlyRequest (inFlyRequest server + 1) server) - 1)
    (with_inFlyRequest (inFlyRequest server + 1) server) = server.
Proof. destruct server as [m sh n a]. unfold with_inFlyRequest. simpl. f_equal. lia. Qed.

Lemma with_inFlyRequest_undone server :
  with_inFlyRequest (inFlyRequest server + 1 - 1)
    (with_inFlyRequest (inFlyRequest server + 1) server) = server.
Proof. destruct server as [m sh n a]. unfold with_inFlyRequest. simpl. f_equal. lia. Qed.

(** X10. While the server is shutting down no request is started: every
    frame that has the shape of a request is answered with an error, no
    handler runs, and the server, its count of requests in flight included,
    is as it was; a request that would have been admitted is refused with
    the error "server already shutdown". *)
Theorem shutdown_refuses_requests ctx now sessionID msg server :
  inShutdown server = true →
  frameKind msg = Request →
  (∃ err, receive h ctx now sessionID msg server = Returns (RecvErr err, server, [])) ∧
  (∀ req s,
     JSONUnmarshal (any := any) (json_Unmarshal_via JSONRPCRequest_UnmarshalJSON) msg
       = inr req →
     IsValid req = true →
     GetSession sessionID (server.sessionManager server) = Some s →
     GetReady s = true →
     receive h ctx now sessionID msg server
       = Returns (RecvErr (errors_New "server already shutdown"), server, [])).
Proof.
  intros Hdown Hkind.
  apply (frameKind_cases (any := any)) in Hkind as [Hid Hmethod].
  assert (inShutdown (with_inFlyRequest (inFlyRequest server + 1) server) = true)
    as Hdown' by (by destruct server).
  split.
  - unfold receive. destruct (_ && negb _).
    { destruct (IsClosedSession _ _); by eexists. }
    rewrite Hid, Hmethod. simpl.
    destruct (JSONUnmarshal _ msg) as [err|req]; [by eexists|].
    destruct (negb (IsValid req)); [by eexists|].
    match goal with |- context [match ?g with Some _ => _ | None => _ end] =>
      destruct g as [err|] end; [by eexists|].
    rewrite ?Hdown', ?Hdown, ?with_inFlyRequest_balanced, ?with_inFlyRequest_undone.
    by eexists.
  - intros req s Hreq Hvalid Hget Hready.
    assert (is_Some (activeSessions (server.sessionManager server) !! sessionID)) as Hact.
    { unfold GetSession in Hget. case_decide; [discriminate|]. by eexists. }
    unfold receive. unfold IsActiveSession. rewrite (bool_decide_eq_true_2 _ Hact).
    rewrite andb_false_r, Hid, Hmethod. simpl. rewrite Hreq, Hvalid. simpl.
    rewrite Hget, Hready. simpl.
    destruct (_ && _ && _);
      rewrite ?Hdown', ?Hdown, ?with_inFlyRequest_balanced, ?with_inFlyRequest_undone;
      done.
Qed.

(** X11. Pings do not keep a session alive.  A [ping] request is answered
    without touching the session's time of last activity, so with a ping
    handler that leaves the server alone the session is reaped by a
    heartbeat visit as soon as it has been idle for longer than a non-zero
    [maxIdleTime], whenever the ping came in.  For every other request the
    time of last activity of its session is set to the time of the request
    before the method switch runs: the switch, and so the handler of the
    method, is given the refreshed server, and the server [receiveRequest]
    leaves is the one the switch leaves.  So the session has the new time
    whenever the handler leaves the session manager alone, and always for
    a method outside the table, which is answered with code -32601 on the
    refreshed server. *)
Theorem pings_do_not_keep_a_session_alive ctx now later sessionID request server st w :
  activeSessions (server.sessionManager server) !! sessionID = Some st →
  outboxUnclosed st →
  (req_Method request = Ping →
   (handleRequestWithPing h server).2 = server →
   maxIdleTime (server.sessionManager server) ≠ 0%Z →
   (Time_Sub later (lastActiveAt st) > maxIdleTime (server.sessionManager server))%Z →
   (receiveRequest h ctx now sessionID request server).1.2 = server ∧
   ∃ m1 w1,
     heartbeatVisit detection later sessionID st
       (server.sessionManager (receiveRequest h ctx now sessionID request server).1.2, w)
       = Returns (m1, w1) ∧
     IsActiveSession sessionID m1 = false ∧ IsClosedSession sessionID m1 = true) ∧
  (req_Method request ≠ Ping →
   let refreshed :=
     with_sessionManager
       (UpdateSessionLastActiveAt now sessionID (server.sessionManager server)) server in
   let switch :=
     dispatchRequest h (setSessionIDToCtx ctx sessionID) sessionID request refreshed in
   activeSessions (server.sessionManager refreshed) !! sessionID
     = Some (updateLastActiveAt now st) ∧
   lastActiveAt (updateLastActiveAt now st) = now ∧
   (receiveRequest h ctx now sessionID request server).1.2 = switch.1.2 ∧
   (receiveRequest h ctx now sessionID request server).2 = switch.2 ∧
   (server.sessionManager switch.1.2 = server.sessionManager refreshed →
    ∃ st',
      activeSessions
        (server.sessionManager (receiveRequest h ctx now sessionID request server).1.2)
        !! sessionID = Some st' ∧
      lastActiveAt st' = now) ∧
   (req_Method request ∉
      [Ping; Initialize; PromptsList; PromptsGet; ResourcesList; ResourceListTemplates;
       ResourcesRead; ResourcesSubscribe; ResourcesUnsubscribe; ToolsList; ToolsCall] →
    ∃ message,
      receiveRequest h ctx now sessionID request server
        = (NewJSONRPCErrorResponse (req_ID request) MethodNotFound message, refreshed, []))).
Proof.
  intros Hst Hopen. split.
  - intros Hping Hpure Hnz Hgt.
    assert ((receiveRequest h ctx now sessionID request server).1.2 = server) as Hsame.
    { unfold receiveRequest, dispatchRequest. rewrite Hping.
      rewrite (decide_False (P := Ping ≠ Ping)) by (by intros ?).
      rewrite (decide_True (P := Ping = Ping)) by done.
      destruct (handleRequestWithPing h server) as [[r|e] sv] eqn:Hh; simpl in *; by subst. }
    split; [exact Hsame|]. rewrite Hsame.
    destruct (CloseSession_active_returns detection _ _ _ Hst Hopen) as (mc & Hmc & Hret).
    unfold heartbeatVisit.
    rewrite (bool_decide_eq_true_2 _ Hnz), (bool_decide_eq_true_2 _ Hgt). simpl.
    rewrite Hmc. simpl. exists mc, w. split; [done|]. by apply retired_spec.
  - intros Hnp refreshed switch.
    assert (activeSessions (server.sessionManager refreshed) !! sessionID
              = Some (updateLastActiveAt now st)) as Hnew.
    { subst refreshed. simpl. unfold UpdateSessionLastActiveAt. rewrite Hst. simpl.
      apply lookup_insert_eq. }
    assert (receiveRequest h ctx now sessionID request server
              = match switch.1.1 with
                | inr err =>
                    (NewJSONRPCErrorResponse (req_ID request) (errorCode err) (Error err),
                     switch.1.2, switch.2)
                | inl result =>
                    (NewJSONRPCSuccessResponse (req_ID request) (Some result),
                     switch.1.2, switch.2)
                end) as Hrecv.
    { unfold receiveRequest. rewrite (decide_True _ _ Hnp). fold refreshed. fold switch.
      by destruct switch as [[[result|err] sv] events]. }
    split; [exact Hnew|]. split; [done|].
    split; [rewrite Hrecv; by destruct (switch.1.1)|].
    split; [rewrite Hrecv; by destruct (switch.1.1)|].
    split.
    + intros Hkeeps. exists (updateLastActiveAt now st). split; [|done].
      replace ((receiveRequest h ctx now sessionID request server).1.2) with (switch.1.2)
        by (rewrite Hrecv; by destruct (switch.1.1)).
      by rewrite Hkeeps.
    + intros Hunknown. rewrite Hrecv.
      destruct (dispatchRequest_unknown_method h (setSessionIDToCtx ctx sessionID) sessionID
                  request refreshed Hunknown) as (err & Hd & Hcode).
      subst switch. rewrite Hd. simpl. rewrite Hcode. by eexists.
Qed.

Lemma errors_Is_wrapped (texts : list string) (err : error any) target :
  errors_Is (foldr fmt_Errorf_w err texts) target = errors_Is err target.
Proof. induction texts as [|t texts IH]; [done|]. by simpl. Qed.

(** X12. The error code of a response sees through [%w] wrapping: however
    many times a handler has wrapped an error with [fmt.Errorf("...%w")],
    the code is that of the innermost error; so a failure of
    [pkg.JSONUnmarshal] always yields the parse-error code -32700, and an
    error that wraps none of the three sentinels of the switch yields the
    internal-error code -32603. *)
Theorem errorCode_sees_through_wrapping (texts : list string) (err : error any) :
  errorCode (foldr fmt_Errorf_w err texts) = errorCode err ∧
  (∀ A (unmarshal : bytes → string + A) data (e : error any),
     JSONUnmarshal unmarshal data = inl e →
     errorCode (foldr fmt_Errorf_w e texts) = ParseError) ∧
  (∀ text code message (data : option any),
     errorCode (any := any) (foldr fmt_Errorf_w (errors_New text) texts) = InternalError ∧
     errorCode (foldr fmt_Errorf_w (ResponseError code message data) texts)
       = InternalError).
Proof.
  assert (∀ e : error any, errorCode (foldr fmt_Errorf_w e texts) = errorCode e) as Hw.
  { intros e. unfold errorCode. by rewrite !errors_Is_wrapped. }
  split; [apply Hw|]. split.
  - intros A unmarshal data e He. rewrite Hw. unfold JSONUnmarshal in He.
    destruct (unmarshal data); [|discriminate]. by injection He as <-.
  - intros. by rewrite !Hw.
Qed.

Lemma callClient_remove_slot sessionID requestID server :
  replySlot sessionID requestID (callClient_remove sessionID requestID server) = None.
Proof.
  unfold callClient_remove, replySlot.
  destruct (GetSession sessionID (server.sessionManager server)) as [s|] eqn:Hget.
  - unfold GetSession in *. case_decide; [discriminate|]. simpl.
    rewrite lookup_insert_eq. simpl. apply lookup_delete_eq.
  - by rewrite Hget.
Qed.

(** X13. A call to the peer leaves no reply slot behind: whenever
    [callClient] returns, be it with the result, with an error response,
    with a send failure or because the context was done, the slot it had
    registered under the request id it allocated is gone. *)
Theorem callClient_leaves_no_slot ctx sessionID method params server
    requestID server0 r server' :
  callClient_register sessionID server = inr (requestID, server0) →
  callClient h ctx sessionID method params server = Returns (r, server') →
  replySlot sessionID requestID server' = None.
Proof.
  intros Hreg Hcall. unfold callClient in Hcall. rewrite Hreg in Hcall.
  destruct (sendMsgWithRequest h ctx sessionID (IDString requestID) method params server0)
    as [[err|] sv1].
  - injection Hcall as <- <-. apply callClient_remove_slot.
  - unfold callClient_await in Hcall.
    destruct (deliver sessionID (deliveries h sv1) sv1) as [sv2| |]; simpl in Hcall;
      try discriminate.
    destruct (select2 _ _ _); try discriminate.
    + injection Hcall as <- <-. apply callClient_remove_slot.
    + destruct (recv_chan _) as [[[resp|] ok] ch']; try discriminate.
      destruct (resp_Error resp); injection Hcall as <- <-; apply callClient_remove_slot.
Qed.

End server_more.

(** * Notifications sent to every session *)
Section server_call_properties.
Import pkg protocol session server server_call.
Context {any App : Type} `{!JSON any} (h : Handlers any App).
Context (capabilities : Server any App → ServerCapabilities).
Context (toolListChanged promptListChanged resourceListChanged : any).
Implicit Types (server : Server any App) (ctx : Context any).

Lemma notifySession_fold ctx method params (ids : list string) errs0 server0
    (log0 : list (Attempt (any := any))) :
  let r := foldl (notifySession h ctx method params) (errs0, server0, log0) ids in
  r.2.*1 = log0.*1 ++ ids ∧
  ((errs0 = [] ↔ Forall (λ a, a.2 = None) log0) →
   (r.1.1 = [] ↔ Forall (λ a, a.2 = None) r.2)).
Proof.
  revert errs0 server0 log0. induction ids as [|id ids IH]; intros errs0 server0 log0.
  - simpl. by rewrite app_nil_r.
  - destruct (sendMsgWithNotification h ctx id method params server0) as [[err|] server1]
      eqn:Hsend.
    + assert (notifySession h ctx method params (errs0, server0, log0) id
              = (errs0 ++ [fmt_Errorf_w ("sessionID=" +:+ id +:+ ", err: " +:+ Error err)
                             err],
                 server1, log0 ++ [(id, Some err)])) as Hacc
        by (unfold notifySession; by rewrite Hsend).
      cbn [foldl]. rewrite Hacc.
      destruct (IH (errs0 ++ [fmt_Errorf_w ("sessionID=" +:+ id +:+ ", err: " +:+ Error err)
                                 err]) server1 (log0 ++ [(id, Some err)])) as [Hlog Hok].
      split.
      * rewrite Hlog, fmap_app. simpl. by rewrite <- app_assoc.
      * intros _. apply Hok. split.
        -- intros Hnil. by apply app_eq_nil in Hnil as [_ ?].
        -- intros Hall. apply Forall_app in Hall as [_ Hall].
           apply Forall_cons in Hall as [Hall _]. discriminate.
    + assert (notifySession h ctx method params (errs0, server0, log0) id
              = (errs0, server1, log0 ++ [(id, None)])) as Hacc
        by (unfold notifySession; by rewrite Hsend).
      cbn [foldl]. rewrite Hacc.
      destruct (IH errs0 server1 (log0 ++ [(id, None)])) as [Hlog Hok].
      split.
      * rewrite Hlog, fmap_app. simpl. by rewrite <- app_assoc.
      * intros H0. apply Hok. rewrite Forall_app, <- H0.
        split; [intros ?; split; [done|by repeat constructor]|by intros [? _]].
Qed.

Lemma notifySessions_spec ctx method params server :
  let r := notifySessions h ctx method params server in
  r.2.*1 = (map_to_list (activeSessions (server.sessionManager server))).*1 ∧
  (r.1.1 = None ↔ Forall (λ a, a.2 = None) r.2).
Proof.
  unfold notifySessions.
  pose proof (notifySession_fold ctx method params
                (map_to_list (activeSessions (server.sessionManager server))).*1
                [] server []) as [Hlog Hok].
  destruct (foldl _ _ _) as [[errs sv] log]. simpl in *.
  split; [exact Hlog|].
  rewrite <- Hok by (split; [constructor|done]).
  unfold JoinErrors. destruct errs; split; intros; done.
Qed.

(** X14. A list-change notification is attempted for every session: when the
    server has declared the matching [listChanged] capability, each of the
    three senders calls [sendMsgWithNotification] once for each session that
    was active when it started, in the order of the iteration, whether or
    not earlier attempts failed, and returns nil exactly when every attempt
    succeeded. *)
Theorem list_change_notifications_reach_every_session ctx server :
  let ids := (map_to_list (activeSessions (server.sessionManager server))).*1 in
  let reached (r : option (error any) * Server any App * list (Attempt (any := any))) :=
    r.2.*1 = ids ∧ (r.1.1 = None ↔ Forall (λ a, a.2 = None) r.2) in
  (∀ tools, Tools (capabilities server) = Some tools → tools_ListChanged tools = true →
     reached (sendNotification4ToolListChanges h capabilities toolListChanged ctx server)) ∧
  (∀ prompts, Prompts (capabilities server) = Some prompts →
     prompts_ListChanged prompts = true →
     reached (sendNotification4PromptListChanges h capabilities promptListChanged ctx
                server)) ∧
  (∀ resources, Resources (capabilities server) = Some resources →
     resources_ListChanged resources = true →
     reached (sendNotification4ResourceListChanges h capabilities resourceListChanged ctx
                server)).
Proof.
  intros ids reached. split; [|split]; intros c Hc Hl; unfold reached, ids.
  - unfold sendNotification4ToolListChanges. rewrite Hc, Hl. apply notifySessions_spec.
  - unfold sendNotification4PromptListChanges. rewrite Hc, Hl. apply notifySessions_spec.
  - unfold sendNotification4ResourceListChanges. rewrite Hc, Hl.
    apply notifySessions_spec.
Qed.

Lemma notifySubscriber_fold ctx uri notify (kvs : list (string * State any))
    (acc : list (error any) * Server any App * list (Attempt (any := any))) :
  foldl (notifySubscriber h ctx uri notify) acc kvs
  = foldl (notifySession h ctx NotificationResourcesUpdated (Some notify)) acc
      (filter (λ kv, uri ∈ GetSubscribedResources kv.2) kvs).*1.
Proof.
  revert acc. induction kvs as [|kv kvs IH]; intros acc; [done|].
  cbn [foldl]. rewrite IH. unfold notifySubscriber at 1.
  destruct (decide (uri ∈ GetSubscribedResources kv.2)) as [Hsub|Hsub].
  - by rewrite filter_cons_True by done.
  - by rewrite filter_cons_False by done.
Qed.

(** X15. A resource-updated notification goes to the subscribers and to no
    one else: when the server has declared the [subscribe] capability,
    [SendNotification4ResourcesUpdated] calls [sendMsgWithNotification]
    once for each active session whose subscriptions contain the URI, for no
    other session, and returns nil exactly when every attempt succeeded. *)
Theorem resource_updates_reach_subscribers_only ctx uri notify server resources :
  Resources (capabilities server) = Some resources →
  resources_Subscribe resources = true →
  let r := SendNotification4ResourcesUpdated h capabilities ctx uri notify server in
  r.2.*1 = (filter (λ kv, uri ∈ GetSubscribedResources kv.2)
              (map_to_list (activeSessions (server.sessionManager server)))).*1 ∧
  (r.1.1 = None ↔ Forall (λ a, a.2 = None) r.2).
Proof.
  intros Hres Hsub. unfold SendNotification4ResourcesUpdated. rewrite Hres, Hsub.
  rewrite notifySubscriber_fold.
  pose proof (notifySession_fold ctx NotificationResourcesUpdated (Some notify)
                (filter (λ kv, uri ∈ GetSubscribedResources kv.2)
                   (map_to_list (activeSessions (server.sessionManager server)))).*1
                [] server []) as [Hlog Hok].
  destruct (foldl _ _ _) as [[errs sv] log]. simpl in *.
  split; [exact Hlog|].
  rewrite <- Hok by (split; [constructor|done]).
  unfold JoinErrors. destruct errs; split; intros; done.
Qed.

End server_call_properties.

(** * The HTTP endpoint: POST, GET and [Send] *)
Section transport_http_properties.
Import pkg pkg_json protocol protocol_json session session_runs transport transport_http.
Context {any App : Type} `{!JSON any} (h : server.Handlers any App) (now : Time).
Context (Receive : Context any → bool → string → bytes → server.Server any App →
                   outcome (server.ReceiveResult any * string * server.Server any App)).
Context (io_ReadAll : Request → string + bytes).
Implicit Types (t : streamableHTTPServerTransport any) (w : ResponseWriter) (r : Request).
Implicit Types (sv : server.Server any App).

Lemma receiverIsServer_returns ctx forReturn sessionID msg sv res sv' events :
  receiverIsServer Receive h now →
  server.receive h ctx now sessionID msg sv = Returns (res, sv', events) →
  ∃ sid, Receive ctx forReturn sessionID msg sv = Returns (res, sid, sv').
Proof.
  intros Hrecv Hr. specialize (Hrecv ctx forReturn sessionID msg sv).
  rewrite Hr in Hrecv. simpl in Hrecv.
  destruct (Receive ctx forReturn sessionID msg sv) as [[[res0 sid] sv0]| |];
    simpl in Hrecv; try discriminate.
  injection Hrecv as -> ->. by eexists.
Qed.

(** X16. DELETE then POST: once a DELETE for an active session has been
    answered, a POST that names the same session is answered with status 404
    and a JSON-RPC error body, whatever its message is, and the server is
    left as it was.  The session manager is the one object the transport
    and the server share. *)
Theorem post_after_delete_is_404 t t1 w1 rdel r rctx sv bs body :
  let sessionID := Header_Get sessionIDHeader (http_Header rdel) in
  receiverIsServer Receive h now →
  sessionID ≠ "" →
  is_Some (activeSessions (sessionManager t) !! sessionID) →
  handleDelete t newResponseWriter rdel = Returns (t1, w1) →
  server.sessionManager sv = sessionManager t1 →
  Header_Get sessionIDHeader (http_Header r) = sessionID →
  Header_Get "Accept" (http_Header r) ≠ "" →
  io_ReadAll r = inr bs →
  json_Marshal_response
    (NewJSONRPCErrorResponse (any := any) IDNil InternalError
       ("Failed to receive: " +:+ sentinel_text ErrSessionClosed))
    = inr body →
  rw_Status w1 = Some StatusOK ∧
  ∃ w', handlePost Receive io_ReadAll t1 newResponseWriter r rctx sv = Returns (sv, w') ∧
        rw_Status w' = Some StatusNotFound ∧ rw_Body w' = body.
Proof.
  intros sessionID Hrecv Hsid Hact Hdel Hshared Hhdr Haccept Hbs Hbody.
  unfold handleDelete in Hdel.
  change (Header_Get "Mcp-Session-Id" (http_Header rdel)) with sessionID in Hdel.
  rewrite decide_False in Hdel by done.
  destruct (CloseSession sessionID (sessionManager t)) as [m1| |] eqn:Hclose;
    simpl in Hdel; try discriminate.
  injection Hdel as <- <-. split; [done|].
  assert (IsActiveSession sessionID m1 = false ∧ IsClosedSession sessionID m1 = true)
    as [Hina Hcl].
  { apply retired_spec.
    exact (CloseSession_retires (λ (_ : string) (st : State any) (u : unit), (None, st, u)) _ _ _ Hact Hclose). }
  assert (server.receive h (NewCancelShieldContext rctx) now sessionID bs sv
          = Returns (server.RecvErr (Sentinel ErrSessionClosed), sv, [])) as Hr.
  { unfold server.receive. rewrite Hshared. simpl. rewrite Hina, Hcl.
    by rewrite (bool_decide_eq_true_2 _ Hsid). }
  unfold handlePost. rewrite decide_False by done. rewrite Hbs, Hhdr.
  destruct (receiverIsServer_returns _
              (match stateMode (with_sessionManager m1 t) with
               | Stateful => true | Stateless => false end) _ _ _ _ _ _ Hrecv Hr)
    as [sid ->].
  simpl. unfold writeError. simpl in Hbody. rewrite Hbody. by eexists.
Qed.

(** X17. A POST carrying a request comes back with the response to it: for
    a valid request frame on a ready session of a server that is not
    shutting down, whose response marshals to a non-empty message, the POST
    is answered with status 200 and content type [application/json], and
    the body is that marshalled response, which carries the id of the
    request. *)
Theorem post_request_round_trip t r rctx sv sessionID s bs req message :
  receiverIsServer Receive h now →
  Header_Get "Accept" (http_Header r) ≠ "" →
  io_ReadAll r = inr bs →
  Header_Get sessionIDHeader (http_Header r) = sessionID →
  sessionID ≠ "" →
  activeSessions (server.sessionManager sv) !! sessionID = Some s →
  GetReady s = true →
  server.inShutdown sv = false →
  server.frameKind bs = server.Request →
  JSONUnmarshal (any := any) (json_Unmarshal_via JSONRPCRequest_UnmarshalJSON) bs = inr req →
  IsValid req = true →
  let resp :=
    (server.receiveRequest h (NewCancelShieldContext (NewCancelShieldContext rctx)) now
       sessionID req
       (server.with_inFlyRequest (server.inFlyRequest sv + 1) sv)).1.1 in
  json_Marshal_response resp = inr message →
  message ≠ "" →
  resp_ID resp = req_ID req ∧
  ∃ sv' w',
    handlePost Receive io_ReadAll t newResponseWriter r rctx sv = Returns (sv', w') ∧
    rw_Status w' = Some StatusOK ∧
    rw_Body w' = message ∧
    rw_Header w' !! "Content-Type" = Some "application/json".
Proof.
  intros Hrecv Haccept Hbs Hhdr Hsid Hs Hready Hup Hkind Hreq Hvalid resp Hmsg Hne.
  split.
  { unfold resp, server.receiveRequest.
    destruct (server.dispatchRequest _ _ _ _ _) as [[[res|err] sv1] ev]; done. }
  apply (frameKind_cases (any := any)) in Hkind as [Hid Hmethod].
  assert (is_Some (activeSessions (server.sessionManager sv) !! sessionID)) as Hact
    by (by eexists).
  assert (∃ sv' events,
            server.receive h (NewCancelShieldContext rctx) now sessionID bs sv
            = Returns (server.RecvChan (mkChan [message] 1 true), sv', events))
    as (sv' & events & Hr).
  { unfold server.receive, IsActiveSession. rewrite (bool_decide_eq_true_2 _ Hact).
    rewrite andb_false_r, Hid, Hmethod. simpl. rewrite Hreq, Hvalid. simpl.
    unfold GetSession. rewrite decide_False by done. rewrite Hs, Hready. simpl.
    rewrite Hup.
    assert (∃ sv' events,
              server.handlerTask h
                (NewCancelShieldContext (NewCancelShieldContext rctx)) now sessionID req
                (server.with_inFlyRequest (server.inFlyRequest sv + 1) sv)
              = (mkChan [message] 1 true, sv', events)) as (sv' & events & ->).
    { unfold server.handlerTask. subst resp.
      destruct (server.receiveRequest h _ now sessionID req _) as [[resp0 sv0] ev0].
      simpl in Hmsg. rewrite Hmsg. by eexists _, _. }
    destruct (_ && _ && _); by eexists _, _. }
  destruct (receiverIsServer_returns _
              (match stateMode t with Stateful => true | Stateless => false end)
              _ _ _ _ _ _ Hrecv Hr) as [sid Hrcv].
  exists sv'. unfold handlePost. rewrite decide_False by done. rewrite Hbs, Hhdr, Hrcv.
  simpl. rewrite decide_False by done.
  destruct (_ && _); eexists; (split; [reflexivity|]); simpl; repeat split; try done.
Qed.

(** *** The event stream *)

Lemma with_sessionManager_twice (m m' : Manager any) t :
  with_sessionManager m (with_sessionManager m' t) = with_sessionManager m t.
Proof. by destruct t. Qed.

Lemma with_sendChan_same (s : State any) : with_sendChan (sendChan s) s = s.
Proof. by destruct s. Qed.

Lemma GetSession_active sessionID (s : State any) (m : Manager any) :
  sessionID ≠ "" → activeSessions m !! sessionID = Some s →
  GetSession sessionID m = Some s.
Proof. intros Hsid Hs. unfold GetSession. by rewrite decide_False. Qed.

Lemma SendAll_room (tctx ctx : Context any) pick sessionID msgs t s buf cap :
  ctx_Err tctx = None →
  ctx_Err ctx = None →
  sessionID ≠ "" →
  activeSessions (sessionManager t) !! sessionID = Some s →
  closed s = false →
  sendChan s = Some (mkChan buf cap false) →
  (length buf + length msgs ≤ cap)%nat →
  SendAll tctx ctx pick sessionID msgs t =
    Returns (replicate (length msgs) None,
             with_sessionManager
               (store_state sessionID
                  (with_sendChan (Some (mkChan (buf ++ msgs) cap false)) s)
                  (sessionManager t)) t).
Proof.
  intros Htctx Hctx Hsid.
  pose proof (ctx_live_not_done _ Htctx) as Htdone.
  pose proof (ctx_live_not_done _ Hctx) as Hdone.
  revert t s buf. induction msgs as [|msg msgs IH]; intros t s buf Hs Hopen Hch Hlen.
  - simpl. rewrite app_nil_r, <- Hch, with_sendChan_same, store_state_same by done.
    by destruct t.
  - simpl in Hlen. cbn [SendAll]. unfold Send. rewrite Htdone.
    unfold EnqueueMessageForSend. rewrite (GetSession_active _ _ _ Hsid Hs).
    unfold enqueueMessage. rewrite Hopen, Hch. unfold send_ready. simpl.
    rewrite (bool_decide_eq_true_2 (length buf < cap)%nat) by lia.
    rewrite Hdone. simpl.
    rewrite (IH _ (with_sendChan (Some (mkChan (buf ++ [msg]) cap false)) s)
               (buf ++ [msg])).
    + simpl. rewrite with_sendChan_twice, store_state_twice, with_sessionManager_twice.
      by rewrite <- app_assoc.
    + simpl. apply lookup_insert_eq.
    + by destruct s.
    + apply sendChan_with_sendChan.
    + rewrite length_app. simpl. lia.
Qed.

Lemma handleGet_loop_buffered (rctx : Context any) picks sessionID t w s buf cap code :
  ctx_Err rctx = None →
  sessionID ≠ "" →
  activeSessions (sessionManager t) !! sessionID = Some s →
  sendChan s = Some (mkChan buf cap false) →
  rw_Status w = Some code →
  length picks = length buf →
  handleGet_loop rctx picks sessionID t w =
    Returns (false,
             with_sessionManager
               (store_state sessionID (with_sendChan (Some (mkChan [] cap false)) s)
                  (sessionManager t)) t,
             mkResponseWriter (rw_Header w) (Some code)
               (foldl (λ body msg, body +:+ sseFrame msg) (rw_Body w) buf)) ∧
  ∀ p, handleGet_loop rctx (picks ++ [p]) sessionID t w = Blocks.
Proof.
  intros Hctx Hsid. pose proof (ctx_live_not_done _ Hctx) as Hdone.
  revert t w s buf. induction picks as [|pick picks IH]; intros t w s buf Hs Hch Hw Hlen.
  - destruct buf; [|discriminate]. split.
    + simpl. rewrite <- Hch, with_sendChan_same, store_state_same by done.
      destruct t, w; simpl in *; by subst.
    + intros p. simpl. unfold DequeueMessageForSend.
      rewrite (GetSession_active _ _ _ Hsid Hs). unfold dequeueMessage.
      rewrite Hch, Hdone. done.
  - destruct buf as [|msg buf]; [discriminate|]. simpl in Hlen.
    assert (DequeueMessageForSend rctx pick sessionID (sessionManager t)
            = Returns (msg, None,
                       store_state sessionID (with_sendChan (Some (mkChan buf cap false)) s)
                         (sessionManager t))) as Hdeq.
    { unfold DequeueMessageForSend. rewrite (GetSession_active _ _ _ Hsid Hs).
      unfold dequeueMessage. rewrite Hch, Hdone. done. }
    destruct (IH (with_sessionManager
                    (store_state sessionID
                       (with_sendChan (Some (mkChan buf cap false)) s) (sessionManager t)) t)
                 (Write (sseFrame msg) w)
                 (with_sendChan (Some (mkChan buf cap false)) s) buf) as [IH1 IH2].
    + simpl. apply lookup_insert_eq.
    + apply sendChan_with_sendChan.
    + unfold Write, WriteHeader. rewrite Hw. simpl. exact Hw.
    + lia.
    + split.
      * cbn [handleGet_loop]. rewrite Hdeq. simpl. rewrite IH1. simpl.
        rewrite with_sendChan_twice, store_state_twice, with_sessionManager_twice.
        unfold Write, WriteHeader. rewrite Hw. done.
      * intros p. cbn [handleGet_loop app]. rewrite Hdeq. simpl. apply IH2.
Qed.

(** X18. What the server sends reaches the event stream, in order.  On a
    stateful transport that has not been shut down, for a session whose
    outbox is open and empty: [Send] accepts up to 64 messages; a GET for
    the session is answered with status 200 and content type
    [text/event-stream], and its loop writes one frame [data: <message>]
    followed by an empty line for each message, in the order they were sent;
    when the outbox is empty the loop waits for the next message. *)
Theorem sent_messages_are_streamed_in_order t r (tctx ctx rctx : Context any)
    pick picks p sessionID s msgs :
  stateMode t = Stateful →
  strings_Contains (Header_Get "Accept" (http_Header r)) "text/event-stream" = true →
  Header_Get sessionIDHeader (http_Header r) = sessionID →
  sessionID ≠ "" →
  activeSessions (sessionManager t) !! sessionID = Some s →
  closed s = false →
  sendChan s = Some (make_chan 64) →
  ctx_Err tctx = None → ctx_Err ctx = None → ctx_Err rctx = None →
  (length msgs ≤ 64)%nat →
  length picks = length msgs →
  ∃ t1 t2 w',
    SendAll tctx ctx pick sessionID msgs t = Returns (replicate (length msgs) None, t1) ∧
    handleGet t1 newResponseWriter r rctx true picks = Returns (false, t2, w') ∧
    rw_Status w' = Some StatusOK ∧
    rw_Header w' !! "Content-Type" = Some "text/event-stream" ∧
    rw_Body w' = sseStream msgs ∧
    activeSessions (sessionManager t2) !! sessionID
      = Some (with_sendChan (Some (make_chan 64)) s) ∧
    handleGet t1 newResponseWriter r rctx true (picks ++ [p]) = Blocks.
Proof.
  intros Hmode Haccept Hhdr Hsid Hs Hopen Hch Htctx Hctx Hrctx Hlen Hpicks.
  eexists. 
  rewrite (SendAll_room tctx ctx pick sessionID msgs t s [] 64 Htctx Hctx Hsid Hs Hopen Hch)
    by (simpl; lia).
  set (s1 := with_sendChan (Some (mkChan ([] ++ msgs) 64 false)) s).
  set (t1 := with_sessionManager (store_state sessionID s1 (sessionManager t)) t).
  assert (activeSessions (sessionManager t1) !! sessionID = Some s1) as Hs1
    by (simpl; apply lookup_insert_eq).
  assert (stateMode t1 = Stateful) as Hmode1 by done.
  assert (∀ pk,
            handleGet t1 newResponseWriter r rctx true pk
            = handleGet_loop rctx pk sessionID t1
                (WriteHeader StatusOK
                   (rw_SetHeader "Connection" "keep-alive"
                      (rw_SetHeader "Cache-Control" "no-cache"
                         (rw_SetHeader "Content-Type" "text/event-stream"
                            newResponseWriter))))) as Hget.
  { intros pk. unfold handleGet. rewrite Hmode1, Haccept, Hhdr. simpl negb. cbv iota.
    rewrite decide_False by done.
    unfold OpenMessageQueueForSend. rewrite (GetSession_active _ _ _ Hsid Hs1).
    unfold openMessageQueueForSend. unfold s1 at 1. rewrite sendChan_with_sendChan.
    rewrite store_state_same by done. by destruct t. }
  destruct (handleGet_loop_buffered rctx picks sessionID t1
              (WriteHeader StatusOK
                 (rw_SetHeader "Connection" "keep-alive"
                    (rw_SetHeader "Cache-Control" "no-cache"
                       (rw_SetHeader "Content-Type" "text/event-stream"
                          newResponseWriter))))
              s1 msgs 64 StatusOK Hrctx Hsid Hs1) as [Hloop Hblock];
    [apply sendChan_with_sendChan|done|done|].
  eexists _, _. split; [done|]. rewrite !Hget. rewrite Hloop.
  split; [done|]. split; [done|]. split; [done|]. split; [done|].
  split; [|apply Hblock].
  simpl. rewrite lookup_insert_eq. unfold s1. by rewrite with_sendChan_twice.
Qed.

End transport_http_properties.

(** * Further properties of the client *)
Section client_more.
Import pkg pkg_json protocol protocol_json client client_dispatch.
Context {any T CreateMessageRequest : Type} `{!JSON any} (env : Env any T).
Context (NewPingResult : any).
Context (json_Unmarshal_CreateMessageRequest : bytes → string + CreateMessageRequest).
Context (samplingHandler_CreateMessage :
           Context any → CreateMessageRequest → T → (any + error any) * T).
Implicit Types (c : Client any T) (ctx : Context any).

(** X19. A call to the server leaves no reply slot behind: whenever
    [callServer] gets past its readiness check and returns, with the result,
    an error response, a send failure or the error of its context, the slot
    it had registered under the request id it allocated has been removed. *)
Theorem callServer_leaves_no_slot
    (send : Context any → RequestID → Method → option any → Client any T →
            result (T := T) (option (error any)))
    ctx method params c r c' sent :
  ready c = true ∨ method = Initialize ∨ method = Ping →
  callServer env send ctx method params c = Returns (r, c', sent) →
  reqID2respChan c' !! (callServer_register c).1 = None.
Proof.
  intros Hgo Hcall. unfold callServer in Hcall.
  assert (negb (ready c)
          && (bool_decide (method ≠ Initialize) && bool_decide (method ≠ Ping)) = false)
    as Hgate.
  { destruct Hgo as [-> | [-> | ->]]; [done| |].
    - rewrite (bool_decide_eq_false_2 (Initialize ≠ Initialize)) by (by intros ?).
      by rewrite ?andb_false_r.
    - rewrite (bool_decide_eq_false_2 (Ping ≠ Ping)) by (by intros ?).
      by rewrite ?andb_false_r. }
  rewrite Hgate in Hcall.
  destruct (callServer_register c) as [id c1]. simpl.
  destruct (send ctx (IDString id) method params c1) as [[[[err|] c2] sent1]| |];
    simpl in Hcall; try discriminate.
  - injection Hcall as <- <- <-. simpl. apply lookup_delete_eq.
  - unfold callServer_await in Hcall.
    destruct (deliveries env (world c2)) as [responses w].
    destruct (deliver responses (with_world w c2)) as [c3| |]; simpl in Hcall;
      try discriminate.
    destruct (select2 _ _ _); simpl in Hcall; try discriminate.
    + injection Hcall as <- <- <-. simpl. apply lookup_delete_eq.
    + destruct (recv_chan _) as [[[resp|] ok] ch']; simpl in Hcall; try discriminate.
      destruct (resp_Error resp); simpl in Hcall; injection Hcall as <- <- <-;
        simpl; apply lookup_delete_eq.
Qed.

(** X20. A session that stays closed parks the caller for ever.  When the
    transport refuses a request with [ErrSessionClosed], the client
    re-initializes under [initializationMu]; if the transport refuses the
    [initialize] request with [ErrSessionClosed] as well, the nested
    re-initialization waits for the mutex its own caller holds, and
    [sendMsgWithRequest] does not return. *)
Theorem session_closed_twice_never_returns ctx id method params c
    message err w1 message2 err2 w2 :
  id ≠ IDNil →
  initializationMu c = false →
  json_Marshal_request (NewJSONRPCRequest id method params) = inr message →
  transport_Send env ctx message (world c) = (Some err, w1) →
  errors_Is err ErrSessionClosed = true →
  json_Marshal_request
    (NewJSONRPCRequest (IDString (FormatInt (wrapInt64 (requestID c + 1)))) Initialize
       (Some (box_InitializeRequest env
                (mkInitializeRequest (clientInfo c) (clientCapabilities c) (Version env)))))
    = inr message2 →
  transport_Send env ctx message2 w1 = (Some err2, w2) →
  errors_Is err2 ErrSessionClosed = true →
  sendMsgWithRequest env ctx id method params c = Blocks.
Proof.
  intros Hid Hmu Hm1 Hs1 Hc1 Hm2 Hs2 Hc2.
  set (cb := with_initializationMu true (with_ready false (with_world w1 c))).
  set (ireq := mkInitializeRequest (clientInfo c) (clientCapabilities c) (Version env)) in *.
  assert (sendMsgWithRequest env ctx (IDString (callServer_register cb).1) Initialize
            (Some (box_InitializeRequest env ireq)) (callServer_register cb).2 = Blocks)
    as Hinner.
  { rewrite sendMsgWithRequest_unfold. unfold sendMsgWithRequest_body.
    rewrite decide_False by done.
    change (callServer_register cb).1 with (FormatInt (wrapInt64 (requestID c + 1))).
    rewrite Hm2.
    change (world (callServer_register cb).2) with w1. rewrite Hs2, Hc2.
    simpl negb. cbv iota. by rewrite againInitialization_held. }
  assert (callServer env (sendMsgWithRequest env) ctx Initialize
            (Some (box_InitializeRequest env ireq)) cb = Blocks) as Hcall.
  { unfold callServer.
    rewrite (bool_decide_eq_false_2 (Initialize ≠ Initialize)) by (by intros ?).
    rewrite andb_false_r.
    rewrite (surjective_pairing (callServer_register cb)). by rewrite Hinner. }
  assert (againInitialization env (sendMsgWithRequest env) ctx (with_world w1 c) = Blocks)
    as Hagain.
  { unfold againInitialization.
    change (initializationMu (with_ready false (with_world w1 c)))
      with (initializationMu c).
    rewrite Hmu.
    change (ready (with_initializationMu true (with_ready false (with_world w1 c))))
      with false.
    cbv iota. fold cb. unfold initialization, NewInitializeRequest.
    change (mkInitializeRequest _ _ (Version env)) with ireq.
    by rewrite Hcall. }
  rewrite sendMsgWithRequest_unfold. unfold sendMsgWithRequest_body.
  rewrite decide_False by done. rewrite Hm1, Hs1, Hc1. simpl negb. cbv iota.
  by rewrite Hagain.
Qed.

(** X21. The client answers every request of the server with one response
    under the id of the request.  When the id is not nil, [receiveRequest]
    builds one envelope, whose id is the request's, and passes it on to be
    marshalled and sent: for [ping] it is the success envelope around the
    ping result; for [sampling/createMessage] on a client without the
    sampling capability it is an error with code -32603; for any other
    method it is an error with code -32601.  If [json.Marshal] accepts the
    envelope, exactly one message is handed to the transport, the
    marshalled envelope, and the returned error is nil exactly when the
    transport accepted it; if [json.Marshal] refuses the envelope, nothing
    is handed to the transport and the error of [json.Marshal] is
    returned. *)
Theorem client_answers_each_request_once ctx request c :
  req_ID request ≠ IDNil →
  ∃ resp c1,
    receiveRequest env NewPingResult json_Unmarshal_CreateMessageRequest
      samplingHandler_CreateMessage ctx request c
      = sendResponse env ctx resp c1 ∧
    resp_ID resp = req_ID request ∧
    resp_JSONRPC resp = "2.0" ∧
    (req_Method request = Ping →
     resp = NewJSONRPCSuccessResponse (req_ID request) (Some NewPingResult) ∧ c1 = c) ∧
    (req_Method request = SamplingCreateMessage →
     Sampling (clientCapabilities c) = None →
     ∃ message', resp = NewJSONRPCErrorResponse (req_ID request) InternalError message') ∧
    (req_Method request ≠ Ping → req_Method request ≠ SamplingCreateMessage →
     c1 = c ∧
     ∃ message', resp = NewJSONRPCErrorResponse (req_ID request) MethodNotFound message') ∧
    (∀ message,
       json_Marshal_response resp = inr message →
       ∃ err c' senderr,
         receiveRequest env NewPingResult json_Unmarshal_CreateMessageRequest
           samplingHandler_CreateMessage ctx request c
           = (err, c', [mkSentResponse resp message senderr]) ∧
         (err = None ↔ senderr = None)) ∧
    (∀ text,
       json_Marshal_response resp = inl text →
       receiveRequest env NewPingResult json_Unmarshal_CreateMessageRequest
         samplingHandler_CreateMessage ctx request c
         = (Some (errors_New text), c1, [])).
Proof.
  intros Hid.
  assert (∃ resp c1,
            receiveRequest env NewPingResult json_Unmarshal_CreateMessageRequest
              samplingHandler_CreateMessage ctx request c
              = sendResponse env ctx resp c1 ∧
            resp_ID resp = req_ID request ∧
            resp_JSONRPC resp = "2.0" ∧
            (req_Method request = Ping →
             resp = NewJSONRPCSuccessResponse (req_ID request) (Some NewPingResult)
             ∧ c1 = c) ∧
            (req_Method request = SamplingCreateMessage →
             Sampling (clientCapabilities c) = None →
             ∃ message',
               resp = NewJSONRPCErrorResponse (req_ID request) InternalError message') ∧
            (req_Method request ≠ Ping → req_Method request ≠ SamplingCreateMessage →
             c1 = c ∧
             ∃ message',
               resp = NewJSONRPCErrorResponse (req_ID request) MethodNotFound message'))
    as (resp & c1 & Hrecv & Hrid & Hver & Hping & Hsamp & Hother).
  { unfold receiveRequest.
    destruct (decide (req_Method request = Ping)) as [Hping|Hnping].
    { unfold handleRequestWithPing, sendMsgWithResponse. rewrite decide_False by done.
      eexists _, _. split; [reflexivity|]. split_and!; try done.
      intros Hs. rewrite Hs in Hping. discriminate. }
    destruct (decide (req_Method request = SamplingCreateMessage)) as [Hsamp|Hnsamp].
    { destruct (handleRequestWithCreateMessagesSampling _ _ ctx (req_RawParams request) c)
        as [[result|e] c1] eqn:Hh.
      - unfold sendMsgWithResponse. rewrite decide_False by done.
        eexists _, _. split; [reflexivity|]. split_and!; try done.
        intros _ Hnone. unfold handleRequestWithCreateMessagesSampling in Hh.
        rewrite Hnone in Hh. discriminate.
      - assert (∃ code,
                  (if errors_Is e ErrMethodNotSupport
                   then sendMsgWithError env ctx (req_ID request) MethodNotFound (Error e) c1
                   else if errors_Is e ErrRequestInvalid
                   then sendMsgWithError env ctx (req_ID request) InvalidRequest (Error e) c1
                   else if errors_Is e ErrJSONUnmarshal
                   then sendMsgWithError env ctx (req_ID request) ParseError (Error e) c1
                   else sendMsgWithError env ctx (req_ID request) InternalError (Error e) c1)
                  = sendResponse env ctx
                      (NewJSONRPCErrorResponse (req_ID request) code (Error e)) c1
                  ∧ (Sampling (clientCapabilities c) = None → code = InternalError))
          as (code & -> & Hcode).
        { unfold sendMsgWithError.
          destruct (decide (req_ID request = IDNil)) as [?|_]; [done|].
          destruct (Sampling (clientCapabilities c)) eqn:Hcap.
          - destruct (errors_Is e ErrMethodNotSupport); [by eexists|].
            destruct (errors_Is e ErrRequestInvalid); [by eexists|].
            destruct (errors_Is e ErrJSONUnmarshal); by eexists.
          - unfold handleRequestWithCreateMessagesSampling in Hh. rewrite Hcap in Hh.
            injection Hh as <- <-. simpl. by eexists. }
        eexists _, _. split; [reflexivity|]. split_and!; try done.
        intros _ Hnone. rewrite (Hcode Hnone). by eexists. }
    simpl. unfold sendMsgWithError. rewrite decide_False by done.
    eexists _, _. split; [reflexivity|]. split_and!; try done.
    intros _ _. split; [done|]. by eexists. }
  exists resp, c1. split_and!; try done.
  - intros message Hm. rewrite Hrecv. unfold sendResponse. rewrite Hm.
    destruct (transport_Send env ctx message (world c1)) as [[e|] w];
      eexists _, _, _; (split; [reflexivity|]); done.
  - intros text Hm. rewrite Hrecv. unfold sendResponse. by rewrite Hm.
Qed.

End client_more.

(** * Further properties of the content decoders *)
Section content_more.
Import pkg pkg_json content content_sampling.
Context {any : Type} `{!Codec}.
Context (json_Unmarshal_SamplingMessageAux : bytes → string + (bytes * Role)).

(** X22. A tool result whose content elements are all text, image or audio
    decodes in full: [CallToolResult.UnmarshalJSON] returns nil and leaves
    in [Content] the decoded elements, one for each element of the array
    and in its order, next to the [isError] flag. *)
Theorem CallToolResult_decodes_plain_content data contents isError (r : CallToolResult) :
  json_Unmarshal_CallToolResultAux data = inr (contents, isError) →
  Forall plainContent contents →
  CallToolResult_UnmarshalJSON (any := any) data r
    = (mkCallToolResult (decodeContent <$> contents) isError, None) ∧
  length (decodeContent <$> contents) = length contents ∧
  Forall (λ c, is_Some c ∧ isEmbedded c = false) (decodeContent <$> contents).
Proof.
  intros Haux Hall. unfold CallToolResult_UnmarshalJSON, JSONUnmarshal. rewrite Haux.
  rewrite (CallToolResult_range_all_plain (any := any) contents Hall).
  split; [done|]. split; [apply length_fmap|].
  apply Forall_fmap. eapply Forall_impl; [exact Hall|].
  intros content (c & Hdec & Hplain). simpl. rewrite Hdec. by split.
Qed.

(** X23. An element that matches none of the four content types fails the
    whole tool result: when it comes after elements that are text, image or
    audio, [CallToolResult.UnmarshalJSON] returns the error
    "unknown content type at index i" with [i] its position, having decoded
    the elements before it and left nil in its slot and in those after
    it. *)
Theorem CallToolResult_unknown_content_fails_at_its_index
    data pre content rest isError (r : CallToolResult) :
  json_Unmarshal_CallToolResultAux data = inr (pre ++ content :: rest, isError) →
  Forall plainContent pre →
  decodeContent content = None →
  CallToolResult_UnmarshalJSON (any := any) data r
    = (mkCallToolResult ((decodeContent <$> pre) ++ replicate (S (length rest)) None)
         isError,
       Some (errors_New ("unknown content type at index " +:+ pretty (length pre)))).
Proof.
  intros Haux Hpre Hnone. unfold CallToolResult_UnmarshalJSON, JSONUnmarshal.
  rewrite Haux.
  by rewrite (CallToolResult_range_unknown (any := any) pre content rest Hpre Hnone).
Qed.

Lemma CallToolResult_range_shape (i : nat) (contents : list bytes)
    (rContent : list (option Content)) :
  let r := CallToolResult_range (any := any) i contents rContent in
  length r.1 = length rContent ∧
  (r.2 = None ∨
   ∃ j, (i ≤ j < i + length contents)%nat ∧
        r.2 = Some (errors_New ("unknown content type at index " +:+ pretty j))).
Proof.
  revert i rContent. induction contents as [|content rest IH]; intros i rContent.
  - simpl. by split; [|left].
  - simpl. unfold JSONUnmarshal.
    destruct (json_Unmarshal_TextContent content).
    2:{ destruct (IH (S i) (<[i:=Some (ContentText t)]> rContent)) as [Hlen Herr].
        split; [by rewrite Hlen, length_insert|].
        destruct Herr as [?|(j & Hj & ?)]; [by left|]. right. exists j. split; [lia|done]. }
    destruct (json_Unmarshal_ImageContent content).
    2:{ destruct (IH (S i) (<[i:=Some (ContentImage i0)]> rContent)) as [Hlen Herr].
        split; [by rewrite Hlen, length_insert|].
        destruct Herr as [?|(j & Hj & ?)]; [by left|]. right. exists j. split; [lia|done]. }
    destruct (json_Unmarshal_AudioContent content).
    2:{ destruct (IH (S i) (<[i:=Some (ContentAudio a)]> rContent)) as [Hlen Herr].
        split; [by rewrite Hlen, length_insert|].
        destruct Herr as [?|(j & Hj & ?)]; [by left|]. right. exists j. split; [lia|done]. }
    destruct (json_Unmarshal_EmbeddedResource content); simpl.
    + split; [done|]. right. exists i. split; [lia|done].
    + split; [apply length_insert|by left].
Qed.

(** X24. Whatever the array holds, [CallToolResult.UnmarshalJSON] leaves one
    slot in [Content] for each element of the array, takes the [isError]
    flag from the input, and returns either nil or the error
    "unknown content type at index i" for a position [i] of the array. *)
Theorem CallToolResult_content_has_one_slot_per_element
    data contents isError (r : CallToolResult) :
  json_Unmarshal_CallToolResultAux data = inr (contents, isError) →
  let out := CallToolResult_UnmarshalJSON (any := any) data r in
  length (ctr_Content out.1) = length contents ∧
  ctr_IsError out.1 = isError ∧
  (out.2 = None ∨
   ∃ i, (i < length contents)%nat ∧
        out.2 = Some (errors_New ("unknown content type at index " +:+ pretty i))).
Proof.
  intros Haux. unfold CallToolResult_UnmarshalJSON, JSONUnmarshal. rewrite Haux.
  pose proof (CallToolResult_range_shape 0 contents (replicate (length contents) None))
    as [Hlen Herr].
  destruct (CallToolResult_range 0 contents _) as [rContent err]. simpl in *.
  split; [by rewrite Hlen, length_replicate|]. split; [done|].
  destruct Herr as [?|(j & Hj & ?)]; [by left|]. right. exists j. split; [lia|done].
Qed.

(** X25. A sampling message decodes as a prompt message does, except that
    it refuses an embedded resource: on the same raw content and role, when
    the content is text, image or audio both decoders store the same value
    and return nil; when it decodes only as an embedded resource,
    [PromptMessage.UnmarshalJSON] stores it and returns nil while
    [SamplingMessage.UnmarshalJSON] returns the error "unknown content type"
    and stores no content. *)
Theorem SamplingMessage_refuses_embedded_resources data data' content role
    (m : PromptMessage) (r : SamplingMessage) :
  json_Unmarshal_PromptMessageAux data = inr (content, role) →
  json_Unmarshal_SamplingMessageAux data' = inr (content, role) →
  let pm := PromptMessage_UnmarshalJSON (any := any) data m in
  let sm := SamplingMessage_UnmarshalJSON (any := any) json_Unmarshal_SamplingMessageAux
              data' r in
  pm_Role pm.1 = Some role ∧ sm_Role sm.1 = Some role ∧
  (∀ c, decodeContent content = Some c → isEmbedded (Some c) = false →
        pm = (mkPromptMessage (Some role) (Some c), None) ∧
        sm = (mkSamplingMessage (Some role) (Some c), None)) ∧
  (∀ v, decodeContent content = Some (ContentEmbedded v) →
        pm = (mkPromptMessage (Some role) (Some (ContentEmbedded v)), None) ∧
        sm = (mkSamplingMessage (Some role) (sm_Content r),
              Some (errors_New ("unknown content type, content=" +:+ content)))).
Proof.
  intros Hp Hs pm sm. subst pm sm.
  unfold PromptMessage_UnmarshalJSON, SamplingMessage_UnmarshalJSON, JSONUnmarshal,
    decodeContent.
  rewrite Hp, Hs. simpl.
  destruct (json_Unmarshal_TextContent content).
  2:{ simpl. split_and!; try done; intros ? [= <-]; done. }
  destruct (json_Unmarshal_ImageContent content).
  2:{ simpl. split_and!; try done; intros ? [= <-]; done. }
  destruct (json_Unmarshal_AudioContent content).
  2:{ simpl. split_and!; try done; intros ? [= <-]; done. }
  destruct (json_Unmarshal_EmbeddedResource content); simpl.
  - split_and!; try done; intros ? [=].
  - split_and!; try done.
    + intros ? [= <-]. done.
    + intros ? [= <-]. done.
Qed.

End content_more.

(** * The event stream and the life of a session *)
Section transport_stream_properties.
Import pkg protocol session session_runs transport transport_http.
Context {any : Type} `{!JSON any}.
Implicit Types (t : streamableHTTPServerTransport any) (w : ResponseWriter) (r : Request).

(** X26. DELETE then GET: once a DELETE for an active session has been
    answered, a GET that asks for the event stream of the same session is
    answered with status 400 and a JSON-RPC error body (a POST is answered
    404), no stream is started and the transport is left as it was. *)
Theorem get_after_delete_is_400 t t1 w1 rdel r (rctx : Context any) picks body :
  let sessionID := Header_Get sessionIDHeader (http_Header rdel) in
  sessionID ≠ "" →
  is_Some (activeSessions (sessionManager t) !! sessionID) →
  handleDelete t newResponseWriter rdel = Returns (t1, w1) →
  stateMode t = Stateful →
  strings_Contains (Header_Get "Accept" (http_Header r)) "text/event-stream" = true →
  Header_Get sessionIDHeader (http_Header r) = sessionID →
  json_Marshal_response
    (NewJSONRPCErrorResponse (any := any) IDNil InternalError
       (sentinel_text ErrLackSession)) = inr body →
  ∃ w', handleGet t1 newResponseWriter r rctx true picks = Returns (true, t1, w') ∧
        rw_Status w' = Some StatusBadRequest ∧ rw_Body w' = body.
Proof.
  intros sessionID Hsid Hact Hdel Hmode Haccept Hhdr Hbody.
  unfold handleDelete in Hdel.
  change (Header_Get "Mcp-Session-Id" (http_Header rdel)) with sessionID in Hdel.
  rewrite decide_False in Hdel by done.
  destruct (CloseSession sessionID (sessionManager t)) as [m1| |] eqn:Hclose;
    simpl in Hdel; try discriminate.
  injection Hdel as <- <-.
  assert (activeSessions m1 !! sessionID = None) as Hgone.
  { exact (proj1 (CloseSession_retires (λ (_ : string) (st : State any) (u : unit), (None, st, u)) _ _ _
                    Hact Hclose)). }
  unfold handleGet. simpl stateMode. rewrite Hmode, Haccept, Hhdr. simpl negb. cbv iota.
  rewrite decide_False by done.
  unfold OpenMessageQueueForSend, GetSession. rewrite decide_False by done.
  simpl sessionManager. rewrite Hgone. simpl.
  unfold writeError. simpl in Hbody. rewrite Hbody.
  eexists. split; [by destruct t|]. done.
Qed.

(** X27. A message for a session is only accepted once its event stream
    has been opened: [Send] to a session that [CreateSession] has just
    created returns [ErrQueueNotOpened] and queues nothing; after
    [OpenMessageQueueForSend], which the GET handler calls, [Send] returns
    nil and the message is the one waiting in the outbox. *)
Theorem send_needs_an_open_stream (tctx ctx : Context any) pick uuid now msg t :
  uuid ≠ "" →
  ctx_Err tctx = None →
  ctx_Err ctx = None →
  let t0 := with_sessionManager (CreateSession uuid now (sessionManager t)).2 t in
  let t1 := with_sessionManager (OpenMessageQueueForSend uuid (sessionManager t0)).2 t0 in
  Send tctx ctx pick uuid msg t0 = Returns (Some (Sentinel ErrQueueNotOpened), t0) ∧
  ∃ t2 s2,
    Send tctx ctx pick uuid msg t1 = Returns (None, t2) ∧
    activeSessions (sessionManager t2) !! uuid = Some s2 ∧
    queued s2 = [msg].
Proof.
  intros Huuid Htctx Hctx t0 t1.
  pose proof (ctx_live_not_done _ Htctx) as Htdone.
  pose proof (ctx_live_not_done _ Hctx) as Hdone.
  assert (GetSession uuid (sessionManager t0) = Some (NewState now)) as Hget.
  { unfold GetSession. rewrite decide_False by done. simpl. apply lookup_insert_eq. }
  split.
  - unfold Send. rewrite Htdone. unfold EnqueueMessageForSend. rewrite Hget. simpl.
    rewrite store_state_same; [by destruct t|].
    simpl. apply lookup_insert_eq.
  - assert (GetSession uuid (sessionManager t1)
            = Some (with_sendChan (Some (make_chan 64)) (NewState now))) as Hget1.
    { unfold t1, OpenMessageQueueForSend. rewrite Hget.
      unfold GetSession. rewrite decide_False by done. simpl. apply lookup_insert_eq. }
    unfold Send. rewrite Htdone. unfold EnqueueMessageForSend. rewrite Hget1.
    unfold enqueueMessage. simpl. rewrite Hdone. simpl.
    eexists _, _. split; [reflexivity|]. split; [simpl; apply lookup_insert_eq|done].
Qed.

End transport_stream_properties.

(** * Examples of the further properties *)

(** A session is created and closed; closing it again changes nothing. *)
Lemma CloseSession_idempotent_witness :
  let m := (session.CreateSession (any := unit) "s1" 0 session.NewManager).2 in
  let m1 := session.mkManager (any := unit) ∅ {["s1"]} 0 in
  session.CloseSession "s1" m1 = Returns m1.
Proof.
  intros m m1. apply (CloseSession_idempotent "s1" m m1). vm_compute. reflexivity.
Defined.

(** Two sessions, neither with an outbox, are closed together. *)
Lemma CloseAllSessions_closes_all_witness :
  let det := (λ (_ : string) (st : session.State unit) (w : unit),
                (@None (pkg.error unit), st, w)) in
  let m := (session.CreateSession (any := unit) "s2" 3
              (session.CreateSession "s1" 0 session.NewManager).2).2 in
  ∃ m',
    session.CloseAllSessions m = Returns m' ∧
    session.activeSessions m' = ∅ ∧
    session.IsEmpty m' = true ∧
    session.closedSessions m' = dom (session.activeSessions m) ∪ session.closedSessions m.
Proof.
  intros det m. apply (CloseAllSessions_closes_all det m).
  intros sessionID st Hst ch Hch. simpl in Hst.
  apply lookup_insert_Some in Hst as [[_ <-]|[_ Hst]]; [discriminate|].
  apply lookup_insert_Some in Hst as [[_ <-]|[_ Hst]]; [discriminate|].
  by rewrite lookup_empty in Hst.
Defined.

(** A second session is created and the first one is closed. *)
Lemma run_conserves_sessions_witness :
  let det := (λ (_ : string) (st : session.State unit) (w : unit),
                (@None (pkg.error unit), st, w)) in
  let m := (session.CreateSession (any := unit) "s1" 0 session.NewManager).2 in
  let ops : list (session.Op unit) :=
    [session.OpCreateSession "s2" 5; session.OpCloseSession "s1"] in
  let m1 := session.mkManager (any := unit) {["s2" := session.NewState 5]} {["s1"]} 0 in
  session.closedSessions m ⊆ session.closedSessions m1 ∧
  dom (session.activeSessions m) ⊆ dom (session.activeSessions m1) ∪ session.closedSessions m1 ∧
  dom (session.activeSessions m1)
    ⊆ dom (session.activeSessions m) ∪ list_to_set (session_runs.createdIDs ops).
Proof.
  intros det m ops m1. apply (run_conserves_sessions det ops m () m1 ()).
  vm_compute. reflexivity.
Defined.

(** The same run from a manager that already has a closed session. *)
Lemma run_keeps_disjoint_witness :
  let det := (λ (_ : string) (st : session.State unit) (w : unit),
                (@None (pkg.error unit), st, w)) in
  let m := session.mkManager (any := unit) {["s1" := session.NewState 0]} {["s0"]} 0 in
  let ops : list (session.Op unit) :=
    [session.OpCreateSession "s2" 5; session.OpCloseSession "s1"] in
  let m1 := session.mkManager (any := unit) {["s2" := session.NewState 5]}
              {["s1"; "s0"]} 0 in
  session_runs.disjointSets m1.
Proof.
  intros det m ops m1. apply (run_keeps_disjoint det ops m () m1 ()).
  - intros sessionID Hin. subst m. simpl in Hin.
    apply elem_of_singleton in Hin as ->. vm_compute. reflexivity.
  - vm_compute. apply NoDup_singleton.
  - intros id Hid. vm_compute in Hid. apply list_elem_of_singleton in Hid as ->.
    split; [|vm_compute; reflexivity].
    subst m. simpl. intros Hin. apply elem_of_singleton in Hin. discriminate.
  - vm_compute. reflexivity.
Defined.

(** Two messages join one that is waiting; the three come out in order. *)
Lemma outbox_is_first_in_first_out_witness :
  let ctx := context_Background (any := unit) in
  let ch := mkChan ["a"] 64 false in
  let s := session.with_sendChan (any := unit) (Some ch) (session.NewState 0) in
  ∃ s1 s2,
    session_runs.enqueueAll ctx false ["b"; "c"] s = Returns ([None; None], s1) ∧
    session.queued s1 = ["a"; "b"; "c"] ∧
    session.dequeueN ctx false 3 s1
      = Returns ([("a", None); ("b", None); ("c", None)], s2) ∧
    session.queued s2 = [].
Proof.
  intros ctx ch s.
  apply (outbox_is_first_in_first_out ctx false ["b"; "c"] s ch);
    [reflexivity | reflexivity | reflexivity | reflexivity | simpl; lia].
Defined.

(** Sixty-four messages fill a new outbox. *)
Lemma outbox_capacity_witness :
  let ctx := context_Background (any := unit) in
  let s := session.NewState (any := unit) 0 in
  ∃ s1,
    session_runs.enqueueAll ctx false (replicate 64 "m") (session.openMessageQueueForSend s)
      = Returns (replicate 64 None, s1) ∧
    session.queued s1 = replicate 64 "m" ∧
    session.enqueueMessage ctx false "one more" s1 = Blocks ∧
    ∀ (ctx' : Context unit) pick' e,
      ctx_Err ctx' = Some e →
      session.enqueueMessage ctx' pick' "one more" s1 = Returns (Some e, s1).
Proof.
  intros ctx s.
  apply (outbox_capacity ctx false (replicate 64 "m") "one more" s);
    [reflexivity | reflexivity | reflexivity | vm_compute; reflexivity].
Defined.

(** With no idle limit and a peer that answers every ping, a tick closes
    nothing; the probed session keeps the request id the ping consumed. *)
Lemma heartbeatTick_healthy_witness :
  let det := (λ (_ : string) (st : session.State unit) (w : unit),
                (@None (pkg.error unit), (session.IncRequestID st).2, w)) in
  let m := (session.CreateSession (any := unit) "s1" 0 session.NewManager).2 in
  ∃ m1 w1,
    session.heartbeatTick det 100 (m, ()) = Returns (m1, w1) ∧
    dom (session.activeSessions m1) = dom (session.activeSessions m) ∧
    session.closedSessions m1 = session.closedSessions m ∧
    session.maxIdleTime m1 = session.maxIdleTime m.
Proof.
  intros det m. apply (heartbeatTick_healthy det 100 m ()).
  - intros sessionID st _. left. reflexivity.
  - intros sessionID st w' [Hfail _]. simpl in Hfail. by apply is_Some_None in Hfail.
Defined.

(** A session idle for 100 under a limit of 60 is reaped by the tick. *)
Lemma heartbeatTick_reaps_expired_witness :
  let det := (λ (_ : string) (st : session.State unit) (w : unit),
                (@None (pkg.error unit), st, w)) in
  let m := session.SetMaxIdleTime 60
             (session.CreateSession (any := unit) "s1" 0 session.NewManager).2 in
  let m1 := session.mkManager (any := unit) ∅ {["s1"]} 60 in
  session.IsActiveSession "s1" m1 = false ∧ session.IsClosedSession "s1" m1 = true.
Proof.
  intros det m m1.
  apply (heartbeatTick_reaps_expired det 100 "s1" (session.NewState 0) m () m1 ()).
  - vm_compute. reflexivity.
  - simpl. discriminate.
  - vm_compute. reflexivity.
  - vm_compute. reflexivity.
Defined.

(** Session [S1] has been closed; a request that names it is refused. *)
Lemma closed_session_frames_are_refused_witness :
  let det := (λ (_ : string) (st : session.State unit) (w : unit),
                (@None (pkg.error unit), st, w)) in
  let sv := server.mkServer (session.mkManager (any := unit) ∅ {["S1"]} 0) false 0 tt in
  server.receive scenario_peers.handlers (context_Background (any := unit)) 5 "S1"
      scenario.toolsCallFrame sv
    = Returns (server.RecvErr (pkg.Sentinel pkg.ErrSessionClosed), sv, []).
Proof.
  intros det sv.
  apply (closed_session_frames_are_refused scenario_peers.handlers det
           (context_Background (any := unit)) 5 "S1" scenario.toolsCallFrame sv
           (session.CreateSession "S1" 0 session.NewManager).2
           (session.mkManager ∅ {["S1"]} 0) [] () ()).
  - discriminate.
  - vm_compute. by eexists.
  - vm_compute. reflexivity.
  - constructor.
  - reflexivity.
Defined.

(** A ready session sends [tools/call] to a server that is shutting down. *)
Lemma shutdown_refuses_requests_witness :
  let sv := server.mkServer (server.sessionManager scenario_peers.server1_ready)
              true 0 tt in
  server.receive scenario_peers.handlers (context_Background (any := unit)) 5 "S1"
      scenario.toolsCallFrame sv
    = Returns (server.RecvErr (pkg.errors_New "server already shutdown"), sv, []).
Proof.
  intros sv.
  destruct (shutdown_refuses_requests scenario_peers.handlers
              (context_Background (any := unit)) 5 "S1" scenario.toolsCallFrame sv)
    as [_ Hadmitted]; [reflexivity | vm_compute; reflexivity |].
  apply (Hadmitted
           (protocol.mkRequest "2.0" (protocol.IDValue "2") "tools/call" (Some tt)
              scenario.toolsCallParams)
           (session.SetReady (session.NewState 0)));
    vm_compute; reflexivity.
Defined.

(** A ping at time 95 does not save a session last active at time 0 from
    the visit of the heartbeat at time 100 under an idle limit of 60. *)
Lemma pings_do_not_keep_a_session_alive_witness :
  let det := (λ (_ : string) (st : session.State unit) (w : unit),
                (@None (pkg.error unit), st, w)) in
  let sv := server.mkServer
              (session.SetMaxIdleTime 60
                 (session.CreateSession (any := unit) "S1" 0 session.NewManager).2)
              false 0 tt in
  let ping := protocol.mkRequest (any := unit) "2.0" (protocol.IDValue "7") "ping" None "" in
  (server.receiveRequest scenario_peers.handlers (context_Background (any := unit)) 95 "S1"
     ping sv).1.2 = sv ∧
  ∃ m1 w1,
    session.heartbeatVisit det 100 "S1" (session.NewState 0)
      (server.sessionManager
         (server.receiveRequest scenario_peers.handlers (context_Background (any := unit))
            95 "S1" ping sv).1.2, ())
      = Returns (m1, w1) ∧
    session.IsActiveSession "S1" m1 = false ∧ session.IsClosedSession "S1" m1 = true.
Proof.
  intros det sv ping.
  destruct (pings_do_not_keep_a_session_alive scenario_peers.handlers det
              (context_Background (any := unit)) 95 100 "S1" ping sv
              (session.NewState 0) ()) as [Hping _].
  - vm_compute. reflexivity.
  - intros ch Hch. discriminate.
  - apply Hping.
    + reflexivity.
    + reflexivity.
    + simpl. discriminate.
    + vm_compute. reflexivity.
Defined.

(** The server calls the client of [S1] under a context that is already
    done: the call returns the context's error and its slot is gone. *)
Lemma callClient_leaves_no_slot_witness :
  ∃ sv',
    server.callClient scenario_peers.handlers scenario_more.context_cancelled "S1"
        "ping" None scenario_peers.server1
      = Returns (inl (pkg.Sentinel pkg.context_Canceled), sv') ∧
    server.replySlot "S1" "1" sv' = None.
Proof.
  eexists. split; [vm_compute; reflexivity|].
  eapply (callClient_leaves_no_slot scenario_peers.handlers
            scenario_more.context_cancelled "S1" "ping" None scenario_peers.server1).
  - vm_compute. reflexivity.
  - vm_compute. reflexivity.
Defined.

(** Every capability is declared and both sessions are notified. *)
Lemma list_change_notifications_reach_every_session_witness :
  let r := server_call.sendNotification4ToolListChanges scenario_peers.handlers
             scenario_more.capabilities tt (context_Background (any := unit))
             scenario_more.server2 in
  r.2.*1 = (map_to_list (session.activeSessions
                           (server.sessionManager scenario_more.server2))).*1 ∧
  (r.1.1 = None ↔ Forall (λ a, a.2 = None) r.2).
Proof.
  intros r.
  destruct (list_change_notifications_reach_every_session scenario_peers.handlers
              scenario_more.capabilities tt tt tt (context_Background (any := unit))
              scenario_more.server2) as [Htools _].
  apply (Htools (protocol.mkToolsCapability true)); reflexivity.
Defined.

(** Of the two sessions only [S1] has subscribed to the resource. *)
Lemma resource_updates_reach_subscribers_only_witness :
  (server_call.SendNotification4ResourcesUpdated scenario_peers.handlers
     scenario_more.capabilities (context_Background (any := unit)) "file:///a" tt
     scenario_more.server2).2.*1 = ["S1"].
Proof.
  destruct (resource_updates_reach_subscribers_only scenario_peers.handlers
              scenario_more.capabilities (context_Background (any := unit)) "file:///a" tt
              scenario_more.server2 (protocol.mkResourcesCapability true true))
    as [Hlog _]; [reflexivity | reflexivity |].
  rewrite Hlog. vm_compute. reflexivity.
Defined.

Lemma scenario_receiver_is_server :
  transport_http.receiverIsServer scenario_more.Receive scenario_peers.handlers 5.
Proof.
  intros ctx forReturn sessionID msg sv. unfold scenario_more.Receive.
  destruct (server.receive scenario_peers.handlers ctx 5 sessionID msg sv)
    as [[[res sv'] events]| |]; reflexivity.
Qed.

(** The session [S1] is deleted; the POST that follows is answered 404. *)
Lemma post_after_delete_is_404_witness :
  let t := transport.mkTransport (any := unit) transport.Stateful "/mcp"
             (session.CreateSession "S1" 0 session.NewManager).2 in
  let t1 := transport.mkTransport (any := unit) transport.Stateful "/mcp"
              (session.mkManager ∅ {["S1"]} 0) in
  let sv := server.mkServer (session.mkManager (any := unit) ∅ {["S1"]} 0) false 0 tt in
  let rdel := transport.mkHTTPRequest "DELETE" {["Mcp-Session-Id" := "S1"]} "" in
  let r := transport.mkHTTPRequest "POST"
             (<["Accept" := "application/json"]> {["Mcp-Session-Id" := "S1"]})
             scenario.toolsCallFrame in
  ∃ w',
    transport_http.handlePost scenario_more.Receive scenario_more.io_ReadAll t1
        transport.newResponseWriter r (context_Background (any := unit)) sv
      = Returns (sv, w') ∧
    transport.rw_Status w' = Some transport.StatusNotFound.
Proof.
  intros t t1 sv rdel r.
  edestruct (post_after_delete_is_404 scenario_peers.handlers 5 scenario_more.Receive
               scenario_more.io_ReadAll t t1
               (transport.WriteHeader transport.StatusOK transport.newResponseWriter)
               rdel r (context_Background (any := unit)) sv scenario.toolsCallFrame)
    as [_ (w' & Hpost & Hstatus & _)].
  - exact scenario_receiver_is_server.
  - vm_compute. discriminate.
  - vm_compute. by eexists.
  - vm_compute. reflexivity.
  - reflexivity.
  - vm_compute. reflexivity.
  - vm_compute. discriminate.
  - reflexivity.
  - vm_compute. reflexivity.
  - exists w'. split; [exact Hpost|exact Hstatus].
Defined.

(** The ready session [S1] posts [tools/call] and gets the result back. *)
Lemma post_request_round_trip_witness :
  let t := transport.mkTransport (any := unit) transport.Stateful "/mcp"
             (server.sessionManager scenario_peers.server1_ready) in
  let r := transport.mkHTTPRequest "POST"
             (<["Accept" := "application/json"]> {["Mcp-Session-Id" := "S1"]})
             scenario.toolsCallFrame in
  ∃ sv' w',
    transport_http.handlePost scenario_more.Receive scenario_more.io_ReadAll t
        transport.newResponseWriter r (context_Background (any := unit))
        scenario_peers.server1_ready
      = Returns (sv', w') ∧
    transport.rw_Status w' = Some transport.StatusOK ∧
    transport.rw_Body w' = "{'jsonrpc':'2.0','id':'2','result':{}}" ∧
    transport.rw_Header w' !! "Content-Type" = Some "application/json".
Proof.
  intros t r.
  apply (post_request_round_trip scenario_peers.handlers 5 scenario_more.Receive
           scenario_more.io_ReadAll t r (context_Background (any := unit))
           scenario_peers.server1_ready "S1" (session.SetReady (session.NewState 0))
           scenario.toolsCallFrame
           (protocol.mkRequest "2.0" (protocol.IDValue "2") "tools/call" (Some tt)
              scenario.toolsCallParams)
           "{'jsonrpc':'2.0','id':'2','result':{}}").
  - exact scenario_receiver_is_server.
  - vm_compute. discriminate.
  - reflexivity.
  - vm_compute. reflexivity.
  - discriminate.
  - vm_compute. reflexivity.
  - reflexivity.
  - reflexivity.
  - vm_compute. reflexivity.
  - vm_compute. reflexivity.
  - vm_compute. reflexivity.
  - vm_compute. reflexivity.
  - discriminate.
Defined.

(** Two messages are sent to [S1] and then streamed to its GET request. *)
Lemma sent_messages_are_streamed_in_order_witness :
  let ctx := context_Background (any := unit) in
  let s := session.with_sendChan (any := unit) (Some (make_chan 64)) (session.NewState 0) in
  let t := transport.mkTransport (any := unit) transport.Stateful "/mcp"
             (session.mkManager {["S1" := s]} ∅ 0) in
  let r := transport.mkHTTPRequest "GET"
             (<["Accept" := "text/event-stream"]> {["Mcp-Session-Id" := "S1"]}) "" in
  ∃ t1 t2 w',
    transport_http.SendAll ctx ctx false "S1" ["a"; "b"] t = Returns ([None; None], t1) ∧
    transport_http.handleGet t1 transport.newResponseWriter r ctx true [false; false]
      = Returns (false, t2, w') ∧
    transport.rw_Status w' = Some transport.StatusOK ∧
    transport.rw_Header w' !! "Content-Type" = Some "text/event-stream" ∧
    transport.rw_Body w' = transport_http.sseStream ["a"; "b"] ∧
    session.activeSessions (transport.sessionManager t2) !! "S1"
      = Some (session.with_sendChan (Some (make_chan 64)) s) ∧
    transport_http.handleGet t1 transport.newResponseWriter r ctx true
      ([false; false] ++ [false]) = Blocks.
Proof.
  intros ctx s t r.
  apply (sent_messages_are_streamed_in_order t r ctx ctx ctx false [false; false] false
           "S1" s ["a"; "b"]).
  - reflexivity.
  - vm_compute. reflexivity.
  - vm_compute. reflexivity.
  - discriminate.
  - vm_compute. reflexivity.
  - reflexivity.
  - reflexivity.
  - reflexivity.
  - reflexivity.
  - reflexivity.
  - simpl. lia.
  - reflexivity.
Defined.

(** The ready client calls [tools/call] under a context that is already
    done: the call returns and the slot of request 1 is gone. *)
Lemma callServer_leaves_no_slot_witness :
  ∃ r c' sent,
    client.callServer scenario_peers.env (client.sendMsgWithRequest scenario_peers.env)
        scenario_more.context_cancelled "tools/call" (Some tt) scenario_peers.client0
      = Returns (r, c', sent) ∧
    client.reqID2respChan c' !! "1" = None.
Proof.
  eexists _, _, _. split; [vm_compute; reflexivity|].
  eapply (callServer_leaves_no_slot scenario_peers.env
            (client.sendMsgWithRequest scenario_peers.env)
            scenario_more.context_cancelled "tools/call" (Some tt) scenario_peers.client0).
  - left. reflexivity.
  - vm_compute. reflexivity.
Defined.

(** A transport that answers every message with [ErrSessionClosed]: the
    request and then the [initialize] request are refused, and the caller
    waits for the mutex. *)
Lemma session_closed_twice_never_returns_witness :
  client.sendMsgWithRequest scenario_more.env_closed (context_Background (any := unit))
    (protocol.IDString "1") "tools/call" (Some tt) scenario_peers.client0 = Blocks.
Proof.
  apply (session_closed_twice_never_returns scenario_more.env_closed
           (context_Background (any := unit)) (protocol.IDString "1") "tools/call"
           (Some tt) scenario_peers.client0
           "{'jsonrpc':'2.0','id':'1','method':'tools/call'}"
           (pkg.Sentinel pkg.ErrSessionClosed) 1%nat
           "{'jsonrpc':'2.0','id':'1','method':'initialize'}"
           (pkg.Sentinel pkg.ErrSessionClosed) 2%nat).
  - discriminate.
  - reflexivity.
  - vm_compute. reflexivity.
  - reflexivity.
  - reflexivity.
  - vm_compute. reflexivity.
  - reflexivity.
  - reflexivity.
Defined.

(** The server asks the client for a method it does not have. *)
Lemma client_answers_each_request_once_witness :
  let request := protocol.mkRequest (any := unit) "2.0" (protocol.IDValue "7")
                   "roots/list" None "" in
  ∃ err c' resp message senderr,
    client_dispatch.receiveRequest scenario_peers.env tt
        (λ _ : bytes, @inr string unit tt)
        (λ (_ : Context unit) (_ : unit) (n : nat), (@inl unit (pkg.error unit) tt, n))
        (context_Background (any := unit)) request scenario_peers.client0
      = (err, c', [client_dispatch.mkSentResponse resp message senderr]) ∧
    protocol.resp_ID resp = protocol.IDValue "7" ∧
    (err = None ↔ senderr = None) ∧
    ∃ message',
      resp = protocol.NewJSONRPCErrorResponse (protocol.IDValue "7")
               protocol.MethodNotFound message'.
Proof.
  intros request.
  destruct (client_answers_each_request_once scenario_peers.env tt
              (λ _ : bytes, @inr string unit tt)
              (λ (_ : Context unit) (_ : unit) (n : nat), (@inl unit (pkg.error unit) tt, n))
              (context_Background (any := unit)) request scenario_peers.client0)
    as (resp & c1 & _ & Hid & _ & _ & _ & Hother & Hsent & _).
  - discriminate.
  - destruct Hother as (_ & message' & ->); [discriminate..|].
    destruct (Hsent _ eq_refl) as (err & c' & senderr & Hrecv & Hiff).
    exists err, c'. eexists _, _, senderr. split; [exact Hrecv|]. split; [exact Hid|].
    split; [exact Hiff|]. by eexists.
Defined.

(** A result with a text and an image element. *)
Lemma CallToolResult_decodes_plain_content_witness :
  content.CallToolResult_UnmarshalJSON (any := unit) "text,image"
      (content.mkCallToolResult [] false)
    = (content.mkCallToolResult
         [Some (content.ContentText (content.scenario_text "text"));
          Some (content.ContentImage (content.scenario_image "image"))] false, None).
Proof.
  destruct (CallToolResult_decodes_plain_content (any := unit) "text,image"
              ["text"; "image"] false (content.mkCallToolResult [] false))
    as [Hdec _].
  - reflexivity.
  - repeat constructor; eexists; (split; [vm_compute; reflexivity|reflexivity]).
  - exact Hdec.
Defined.

(** An element of no known type between a text and an image element. *)
Lemma CallToolResult_unknown_content_fails_at_its_index_witness :
  content.CallToolResult_UnmarshalJSON (any := unit) (H := scenario_more.codec)
      "text,bogus,image" (@content.mkCallToolResult scenario_more.codec [] false)
    = (@content.mkCallToolResult scenario_more.codec
         [Some (content.ContentText ("text" : @content.TextContent scenario_more.codec));
          None; None] true,
       Some (pkg.errors_New "unknown content type at index 1")).
Proof.
  apply (CallToolResult_unknown_content_fails_at_its_index (any := unit)
           (H := scenario_more.codec) "text,bogus,image" ["text"] "bogus" ["image"] true
           (@content.mkCallToolResult scenario_more.codec [] false)).
  - reflexivity.
  - repeat constructor. eexists. split; [vm_compute; reflexivity|reflexivity].
  - vm_compute. reflexivity.
Defined.

(** The same array: three slots, and an error that names one of them. *)
Lemma CallToolResult_content_has_one_slot_per_element_witness :
  let out := content.CallToolResult_UnmarshalJSON (any := unit) (H := scenario_more.codec)
               "text,bogus,image" (@content.mkCallToolResult scenario_more.codec [] false) in
  length (content.ctr_Content out.1) = 3%nat ∧
  content.ctr_IsError out.1 = true ∧
  (out.2 = None ∨
   ∃ i, (i < 3)%nat ∧
        out.2 = Some (pkg.errors_New ("unknown content type at index " +:+ pretty i))).
Proof.
  apply (CallToolResult_content_has_one_slot_per_element (any := unit)
           (H := scenario_more.codec) "text,bogus,image" ["text"; "bogus"; "image"] true
           (@content.mkCallToolResult scenario_more.codec [] false)).
  reflexivity.
Defined.

(** A message whose content is an embedded resource. *)
Lemma SamplingMessage_refuses_embedded_resources_witness :
  content.PromptMessage_UnmarshalJSON (any := unit) (H := scenario_more.codec)
      "user:resource" (@content.mkPromptMessage scenario_more.codec None None)
    = (@content.mkPromptMessage scenario_more.codec (Some "user")
         (Some (content.ContentEmbedded
                  ("resource" : @content.EmbeddedResource scenario_more.codec))), None) ∧
  content_sampling.SamplingMessage_UnmarshalJSON (any := unit) (H := scenario_more.codec)
      scenario_more.json_Unmarshal_SamplingMessageAux "user:resource"
      (@content_sampling.mkSamplingMessage scenario_more.codec None None)
    = (@content_sampling.mkSamplingMessage scenario_more.codec (Some "user") None,
       Some (pkg.errors_New "unknown content type, content=resource")).
Proof.
  destruct (SamplingMessage_refuses_embedded_resources (any := unit)
              (H := scenario_more.codec) scenario_more.json_Unmarshal_SamplingMessageAux
              "user:resource" "user:resource" "resource" "user"
              (@content.mkPromptMessage scenario_more.codec None None)
              (@content_sampling.mkSamplingMessage scenario_more.codec None None))
    as (_ & _ & _ & Hemb); [reflexivity | reflexivity |].
  apply (Hemb "resource"). vm_compute. reflexivity.
Defined.

(** The session [S1] is deleted; the GET that follows is answered 400. *)
Lemma get_after_delete_is_400_witness :
  let t := transport.mkTransport (any := unit) transport.Stateful "/mcp"
             (session.CreateSession "S1" 0 session.NewManager).2 in
  let t1 := transport.mkTransport (any := unit) transport.Stateful "/mcp"
              (session.mkManager ∅ {["S1"]} 0) in
  let rdel := transport.mkHTTPRequest "DELETE" {["Mcp-Session-Id" := "S1"]} "" in
  let r := transport.mkHTTPRequest "GET"
             (<["Accept" := "text/event-stream"]> {["Mcp-Session-Id" := "S1"]}) "" in
  ∃ w',
    transport_http.handleGet t1 transport.newResponseWriter r
        (context_Background (any := unit)) true [false]
      = Returns (true, t1, w') ∧
    transport.rw_Status w' = Some transport.StatusBadRequest.
Proof.
  intros t t1 rdel r.
  edestruct (get_after_delete_is_400 t t1
               (transport.WriteHeader transport.StatusOK transport.newResponseWriter)
               rdel r (context_Background (any := unit)) [false])
    as (w' & Hget & Hstatus & _).
  - vm_compute. discriminate.
  - vm_compute. by eexists.
  - vm_compute. reflexivity.
  - reflexivity.
  - vm_compute. reflexivity.
  - vm_compute. reflexivity.
  - vm_compute. reflexivity.
  - exists w'. split; [exact Hget|exact Hstatus].
Defined.

(** A message for the new session [S1], before and after its stream is
    opened. *)
Lemma send_needs_an_open_stream_witness :
  let ctx := context_Background (any := unit) in
  let t := transport.mkTransport (any := unit) transport.Stateful "/mcp" session.NewManager in
  let t0 := transport.with_sessionManager
              (session.CreateSession "S1" 0 (transport.sessionManager t)).2 t in
  let t1 := transport.with_sessionManager
              (session.OpenMessageQueueForSend "S1" (transport.sessionManager t0)).2 t0 in
  transport_http.Send ctx ctx false "S1" "hello" t0
    = Returns (Some (pkg.Sentinel pkg.ErrQueueNotOpened), t0) ∧
  ∃ t2 s2,
    transport_http.Send ctx ctx false "S1" "hello" t1 = Returns (None, t2) ∧
    session.activeSessions (transport.sessionManager t2) !! "S1" = Some s2 ∧
    session.queued s2 = ["hello"].
Proof.
  intros ctx t t0 t1.
  apply (send_needs_an_open_stream ctx ctx false "S1" 0 "hello" t);
    [discriminate | reflexivity | reflexivity].
Defined.
